(** * Device session state machine and command-result assertions

    A shallow embedding of [adb_test.py] and [neo_test.py]: the
    [CommandResult] assertion helpers, the [ADBSession] state machine and
    its [NeoADBSession] specialisation, together with the properties of
    the written specification that concern them.

    Conventions.
    - Python [str] values are [string]s; a character is a code point in
      the range 0..255.
    - A raised exception is a value [Exc cls msg]; a method that can raise
      returns a [Res].  Methods of the session objects, which mutate the
      object and talk to the device, live in the monad [Py]: a state
      transformer over the session object and the outside world that also
      carries the raised exception, so that assignments made before a
      [raise] stay visible afterwards, as they do in Python.
    - The outside world is the host on which [subprocess.run] executes
      the adb and fastboot binaries.  It is a deterministic function of
      the commands issued so far; the list of issued commands is the
      transport trace.
    - Logging ([log.info]), [input] and [time.sleep] have no effect on the
      session object or on the transport and are left out. *)

From Stdlib Require Import Bool Arith ZArith List String Ascii Lia.
From Stdlib Require Import Decimal DecimalString DecimalPos.
From Stdlib Require DecimalFacts.
Import ListNotations.
Open Scope string_scope.
Open Scope Z_scope.

(** ** Characters and strings of the Python runtime *)

Module PyStr.

Definition LF : ascii := ascii_of_nat 10.
Definition CR : ascii := ascii_of_nat 13.
Definition DQUOTE : ascii := ascii_of_nat 34.
Definition nl : string := String LF EmptyString.

Definition code (c : ascii) : nat := nat_of_ascii c.

Definition between (lo hi : nat) (c : ascii) : bool :=
  (Nat.leb lo (code c) && Nat.leb (code c) hi)%bool.

(** [str.isspace] on one code point below 256: TAB..CR, FS..US, space,
    NEL and NBSP. *)
Definition isspace (c : ascii) : bool :=
  (between 9 13 c || between 28 32 c
   || Nat.eqb (code c) 133 || Nat.eqb (code c) 160)%bool.

(** The line boundaries of [str.splitlines] below 256: LF, VT, FF, CR,
    FS, GS, RS and NEL. *)
Definition islinebreak (c : ascii) : bool :=
  (between 10 13 c || between 28 30 c || Nat.eqb (code c) 133)%bool.

Definition isdigit (c : ascii) : bool := between 48 57 c.

Section Strip.
Variable drop : ascii -> bool.

Fixpoint lstrip_with (s : string) : string :=
  match s with
  | EmptyString => EmptyString
  | String c s' => if drop c then lstrip_with s' else s
  end.

Fixpoint rstrip_with (s : string) : string :=
  match s with
  | EmptyString => EmptyString
  | String c s' =>
      match rstrip_with s' with
      | EmptyString => if drop c then EmptyString else String c EmptyString
      | r => String c r
      end
  end.

Definition strip_with (s : string) : string := rstrip_with (lstrip_with s).
End Strip.

(** [s.strip()] *)
Definition strip (s : string) : string := strip_with isspace s.

(** [s.splitlines()]: [after_cr] records that the previous character was
    a CR, so that a following LF belongs to the same line boundary. *)
Fixpoint splitlines_from (after_cr : bool) (s : string) : list string :=
  match s with
  | EmptyString => []
  | String c s' =>
      if (after_cr && Ascii.eqb c LF)%bool then splitlines_from false s'
      else if islinebreak c then
        EmptyString :: splitlines_from (Ascii.eqb c CR) s'
      else
        match splitlines_from false s' with
        | [] => [String c EmptyString]
        | l :: ls => String c l :: ls
        end
  end.

Definition splitlines (s : string) : list string := splitlines_from false s.

(** [sep.join(xs)] *)
Definition join (sep : string) (xs : list string) : string :=
  String.concat sep xs.

(** [str(n)] for an [int]. *)
Definition str_of_int (n : Z) : string := NilZero.string_of_int (Z.to_int n).

(** Texts that contain double quotes are written with apostrophes in
    their place; [dq] puts the double quotes back. *)
Fixpoint dq (s : string) : string :=
  match s with
  | EmptyString => EmptyString
  | String c s' =>
      String (if Ascii.eqb c (ascii_of_nat 39) then DQUOTE else c) (dq s')
  end.

(** *** [int(s)] for a [str] argument, base 10

    Surrounding whitespace is dropped, one sign is allowed, and the
    digits may be grouped by single underscores.  The whitespace that
    [int] drops is narrower than that of [str.strip]: the separators
    FS..US are not part of it.  A text with more than
    [sys.get_int_max_str_digits()] digits, 4300 unless the interpreter is
    told otherwise, is refused with a [ValueError]; leading zeros count,
    the sign and the underscores do not. *)

Definition isspace_int (c : ascii) : bool :=
  (between 9 13 c || Nat.eqb (code c) 32
   || Nat.eqb (code c) 133 || Nat.eqb (code c) 160)%bool.

Definition digit_val (c : ascii) : Z := Z.of_nat (code c - 48).

(** [digits_from acc prev_digit s]: the value of a digit run; an
    underscore is legal only between two digits. *)
Fixpoint digits_from (acc : Z) (prev_digit : bool) (s : string) : option Z :=
  match s with
  | EmptyString => if prev_digit then Some acc else None
  | String c s' =>
      if isdigit c then digits_from (10 * acc + digit_val c) true s'
      else if (Ascii.eqb c (ascii_of_nat 95) && prev_digit)%bool then
        match s' with
        | String d _ => if isdigit d then digits_from acc false s' else None
        | EmptyString => None
        end
      else None
  end.

Definition max_str_digits : nat := 4300.

(** The number of digits in the run of digits and underscores that [s]
    starts with, counted on from [count]; [None] where an underscore
    follows an underscore or ends the run. *)
Fixpoint digit_run (after_underscore : bool) (count : nat) (s : string) : option nat :=
  match s with
  | EmptyString => if after_underscore then None else Some count
  | String c s' =>
      if isdigit c then digit_run false (S count) s'
      else if Ascii.eqb c (ascii_of_nat 95) then
        if after_underscore then None else digit_run true count s'
      else if after_underscore then None else Some count
  end.

(** The number of digits for which [int] refuses [s], a text without
    its sign.  The digits are counted once the underscores of the run
    have been checked and before anything after the run is looked at. *)
Definition refused_digits (s : string) : option nat :=
  match s with
  | String c _ =>
      if Ascii.eqb c (ascii_of_nat 95) then None
      else
        match digit_run false 0 s with
        | Some n => if Nat.ltb max_str_digits n then Some n else None
        | None => None
        end
  | EmptyString => None
  end.

Definition unsigned_of_str (s : string) : option Z :=
  match refused_digits s with
  | Some _ => None
  | None => digits_from 0 false s
  end.

Definition int_of_str (s : string) : option Z :=
  match strip_with isspace_int s with
  | String c s' =>
      if Ascii.eqb c (ascii_of_nat 45) then
        option_map Z.opp (unsigned_of_str s')
      else if Ascii.eqb c (ascii_of_nat 43) then unsigned_of_str s'
      else unsigned_of_str (String c s')
  | EmptyString => None
  end.

(** The number of digits of [s] when [int(s)] fails for that number. *)
Definition too_long_for_int (s : string) : option nat :=
  match strip_with isspace_int s with
  | String c s' =>
      if (Ascii.eqb c (ascii_of_nat 45) || Ascii.eqb c (ascii_of_nat 43))%bool
      then refused_digits s'
      else refused_digits (String c s')
  | EmptyString => None
  end.

(** *** [s.split()] and [s.split(sep)]

    Without an argument the text is cut at runs of whitespace and no
    piece is empty.  With a separator of one character every occurrence
    cuts, so that pieces can be empty and the empty text gives one empty
    piece. *)

Definition cons_nonempty (t : string) (ts : list string) : list string :=
  match t with
  | EmptyString => ts
  | _ => t :: ts
  end.

(** The piece that starts at the first character (empty when that is
    whitespace) and the pieces after it. *)
Fixpoint split_pieces (s : string) : string * list string :=
  match s with
  | EmptyString => (EmptyString, [])
  | String c s' =>
      let (t, ts) := split_pieces s' in
      if isspace c then (EmptyString, cons_nonempty t ts) else (String c t, ts)
  end.

(** [s.split()] *)
Definition split (s : string) : list string :=
  let (t, ts) := split_pieces s in cons_nonempty t ts.

(** [s.split(sep)] for a separator of one character. *)
Fixpoint split_on (sep : ascii) (s : string) : list string :=
  match s with
  | EmptyString => [EmptyString]
  | String c s' =>
      if Ascii.eqb c sep then EmptyString :: split_on sep s'
      else
        match split_on sep s' with
        | t :: ts => String c t :: ts
        | [] => [String c EmptyString]
        end
  end.

Definition SPACE : ascii := ascii_of_nat 32.

End PyStr.

(** ** Exceptions *)

(** The exception classes that the two modules raise or let through.
    [OutsideModel] is not a Python class: it marks behaviour of a library
    function outside the part of it that is modelled here. *)
Inductive PyExc :=
| ADBAssertionError | InitializationError
| ValueError | JSONDecodeError | KeyError | IndexError | TypeError
| AttributeError | re_error | TimeoutExpired | OutsideModel.

Record exn := Exc { exc_type : PyExc; exc_msg : string }.

Definition PyExc_eqb (a b : PyExc) : bool :=
  match a, b with
  | ADBAssertionError, ADBAssertionError | InitializationError, InitializationError
  | ValueError, ValueError | JSONDecodeError, JSONDecodeError
  | KeyError, KeyError | IndexError, IndexError | TypeError, TypeError
  | AttributeError, AttributeError | re_error, re_error
  | TimeoutExpired, TimeoutExpired | OutsideModel, OutsideModel => true
  | _, _ => false
  end.

(** [issubclass sub sup]: [json.JSONDecodeError] derives from [ValueError];
    the other classes are related only to themselves. *)
Definition issubclass (sub sup : PyExc) : bool :=
  match sub, sup with
  | JSONDecodeError, ValueError => true
  | _, _ => PyExc_eqb sub sup
  end.

(** The outcome of a call: a value, or a raised exception. *)
Inductive Res (A : Type) :=
| Ok (a : A)
| Raise (e : exn).
Arguments Ok {A} a.
Arguments Raise {A} e.

Definition raise {A} (cls : PyExc) (msg : string) : Res A := Raise (Exc cls msg).

Definition rbind {A B} (m : Res A) (f : A -> Res B) : Res B :=
  match m with
  | Ok a => f a
  | Raise e => Raise e
  end.

(** [try: body except cls as e: handler(e)] *)
Definition rtry {A} (body : Res A) (cls : PyExc) (handler : exn -> Res A) : Res A :=
  match body with
  | Ok a => Ok a
  | Raise e => if issubclass (exc_type e) cls then handler e else Raise e
  end.

Declare Scope res_scope.
Delimit Scope res_scope with res.
Notation "x <- m ;; f" := (rbind m (fun x => f))
  (at level 61, m at next level, right associativity) : res_scope.
Notation "m ;; f" := (rbind m (fun _ => f))
  (at level 61, right associativity) : res_scope.

(** The call returned a value. *)
Definition returned {A} (r : Res A) : Prop := exists a, r = Ok a.

(** ** The [re] module: [re.search(pattern, text, re.MULTILINE)]

    The modelled fragment of the pattern language: literal characters,
    [.], the anchors [^] and [$], character sets in brackets with ranges
    and negation, the classes [\d \s \w] and their complements, the
    escapes [\n \t \r \f \v \a], escaped punctuation, capturing groups,
    [(?:...)], alternation, and the greedy quantifiers [* + ?] applied to
    an item that cannot match the empty text.  A pattern that uses
    anything else is reported as [Outside]. *)

Module Re.
Import PyStr.
Local Open Scope nat_scope.

Inductive regex :=
| Eps
| Chr (p : ascii -> bool)
| Bol
| Eol
| Seq (r1 r2 : regex)
| Alt (r1 r2 : regex)
| Star (r : regex)
| Group (i : nat) (r : regex).

Fixpoint nullable (r : regex) : bool :=
  match r with
  | Eps | Bol | Eol | Star _ => true
  | Chr _ => false
  | Seq r1 r2 => nullable r1 && nullable r2
  | Alt r1 r2 => nullable r1 || nullable r2
  | Group _ r1 => nullable r1
  end.

Definition is_anchor (r : regex) : bool :=
  match r with Bol | Eol => true | _ => false end.

(** *** Character classes *)

Definition is_char (n : nat) (c : ascii) : bool := Nat.eqb (code c) n.

Definition word_char (c : ascii) : bool :=
  (between 48 57 c || between 65 90 c || is_char 95 c || between 97 122 c
   || is_char 170 c || between 178 179 c || is_char 181 c
   || between 185 186 c || between 188 190 c || between 192 214 c
   || between 216 246 c || between 248 255 c)%bool.

Definition ascii_alnum (c : ascii) : bool :=
  (between 48 57 c || between 65 90 c || between 97 122 c)%bool.

Definition not_in (p : ascii -> bool) (c : ascii) : bool := negb (p c).
Definition either (p q : ascii -> bool) (c : ascii) : bool := (p c || q c)%bool.

(** What follows a backslash: a class, one character, or nothing that
    the fragment covers. *)
Inductive escape :=
| EClass (p : ascii -> bool)
| EChar (n : nat)
| EOutside.

Definition escape_of (in_set : bool) (c : ascii) : escape :=
  match code c with
  | 100 => EClass isdigit
  | 68 => EClass (not_in isdigit)
  | 115 => EClass isspace
  | 83 => EClass (not_in isspace)
  | 119 => EClass word_char
  | 87 => EClass (not_in word_char)
  | 110 => EChar 10
  | 116 => EChar 9
  | 114 => EChar 13
  | 102 => EChar 12
  | 118 => EChar 11
  | 97 => EChar 7
  | 98 => if in_set then EChar 8 else EOutside
  | _ => if ascii_alnum c then EOutside else EChar (code c)
  end.

(** *** Parsing a pattern *)

Inductive parsed (A : Type) :=
| Parsed (a : A) (rest : string) (next_group : nat)
| Invalid (msg : string)
| Outside.
Arguments Parsed {A} a rest next_group.
Arguments Invalid {A} msg.
Arguments Outside {A}.

(** The scanner of [re] reads one token ahead, so a pattern that ends
    in a lone backslash is rejected as soon as the token before it is
    taken. *)
Definition lone_backslash (s : string) : bool :=
  match s with
  | String c EmptyString => is_char 92 c
  | _ => false
  end.

Definition bad_escape_at_end : string := "bad escape (end of pattern)".

(** The items of a character set, after any leading [^] and a leading
    closing bracket have been taken care of. *)
Fixpoint parse_set (acc : ascii -> bool) (s : string) : parsed (ascii -> bool) :=
  match s with
  | EmptyString => Invalid "unterminated character set"
  | String c s1 =>
      if is_char 93 c then Parsed acc s1 0%nat
      else if is_char 92 c then
        match s1 with
        | EmptyString => Invalid bad_escape_at_end
        | String e s2 =>
            let item := match escape_of true e with
                        | EClass p => Some p
                        | EChar n => Some (is_char n)
                        | EOutside => None
                        end in
            match item, s2 with
            | None, _ => Outside
            | Some p, String d (String h s4) =>
                if (is_char 45 d && negb (is_char 93 h))%bool then Outside
                else parse_set (either acc p) s2
            | Some p, _ => parse_set (either acc p) s2
            end
        end
      else
        match s1 with
        | String d (String h s3) =>
            if (is_char 45 d && negb (is_char 93 h))%bool then
              if is_char 92 h then Outside
              else if lone_backslash s3 then Invalid bad_escape_at_end
              else if Nat.ltb (code h) (code c) then
                Invalid ("bad character range "
                         ++ String c (String d (String h EmptyString)))
              else parse_set (either acc (between (code c) (code h))) s3
            else parse_set (either acc (is_char (code c))) s1
        | _ => parse_set (either acc (is_char (code c))) s1
        end
  end.

Definition nothing (_ : ascii) : bool := false.

Definition parse_bracket (s : string) : parsed regex :=
  let finish (neg : bool) (r : parsed (ascii -> bool)) : parsed regex :=
    match r with
    | Parsed p rest _ => Parsed (Chr (if neg then not_in p else p)) rest 0%nat
    | Invalid m => Invalid m
    | Outside => Outside
    end in
  let body (neg : bool) (s : string) : parsed regex :=
    match s with
    | String c s1 =>
        if is_char 93 c then
          match s1 with
          | String d (String h s3) =>
              if (is_char 45 d && negb (is_char 93 h))%bool then Outside
              else finish neg (parse_set (is_char 93) s1)
          | _ => finish neg (parse_set (is_char 93) s1)
          end
        else finish neg (parse_set nothing s)
    | EmptyString => Invalid "unterminated character set"
    end in
  match s with
  | String c s1 => if is_char 94 c then body true s1 else body false s
  | EmptyString => Invalid "unterminated character set"
  end.

Definition is_quantifier (c : ascii) : bool :=
  (is_char 42 c || is_char 43 c || is_char 63 c)%bool.

Definition starts_with_repeat (s : string) : bool :=
  match s with
  | String c _ => (is_quantifier c || is_char 123 c)%bool
  | EmptyString => false
  end.

(** An item followed by its quantifier, if it has one. *)
Definition quantified (a : regex) (s : string) (n : nat) : parsed regex :=
  match s with
  | String q s1 =>
      if is_char 123 q then Outside
      else if is_quantifier q then
        if lone_backslash s1 then Invalid bad_escape_at_end
        else if is_anchor a then Invalid "nothing to repeat"
        else if (nullable a || starts_with_repeat s1)%bool then Outside
        else if is_char 42 q then Parsed (Star a) s1 n
        else if is_char 43 q then Parsed (Seq a (Star a)) s1 n
        else Parsed (Alt a Eps) s1 n
      else Parsed a s n
  | EmptyString => Parsed a s n
  end.

Fixpoint parse_alt (fuel : nat) (s : string) (n : nat) : parsed regex :=
  match fuel with
  | O => Outside
  | S f =>
      match parse_seq f s n Eps with
      | Parsed r rest n1 =>
          match rest with
          | String c rest1 =>
              if is_char 124 c then
                match parse_alt f rest1 n1 with
                | Parsed r2 rest2 n2 => Parsed (Alt r r2) rest2 n2
                | other => other
                end
              else Parsed r rest n1
          | EmptyString => Parsed r rest n1
          end
      | other => other
      end
  end
with parse_seq (fuel : nat) (s : string) (n : nat) (acc : regex) : parsed regex :=
  match fuel with
  | O => Outside
  | S f =>
      let continue (item : parsed regex) : parsed regex :=
        match item with
        | Parsed a rest n1 =>
            match quantified a rest n1 with
            | Parsed a1 rest1 n2 => parse_seq f rest1 n2 (Seq acc a1)
            | other => other
            end
        | other => other
        end in
      match s with
      | EmptyString => Parsed acc s n
      | String c s1 =>
          if (is_char 124 c || is_char 41 c)%bool then Parsed acc s n
          else if is_quantifier c then
            if lone_backslash s1 then Invalid bad_escape_at_end
            else Invalid "nothing to repeat"
          else if is_char 123 c then Outside
          else if is_char 46 c then continue (Parsed (Chr (not_in (is_char 10))) s1 n)
          else if is_char 94 c then continue (Parsed Bol s1 n)
          else if is_char 36 c then continue (Parsed Eol s1 n)
          else if is_char 91 c then
            match parse_bracket s1 with
            | Parsed a rest _ => continue (Parsed a rest n)
            | other => other
            end
          else if is_char 92 c then
            match s1 with
            | EmptyString => Invalid bad_escape_at_end
            | String e s2 =>
                match escape_of false e with
                | EClass p => continue (Parsed (Chr p) s2 n)
                | EChar k => continue (Parsed (Chr (is_char k)) s2 n)
                | EOutside => Outside
                end
            end
          else if is_char 40 c then
            let inner (capture : bool) (s2 : string) : parsed regex :=
              match parse_alt f s2 (if capture then S n else n) with
              | Parsed r rest n1 =>
                  match rest with
                  | String d rest1 =>
                      if is_char 41 d then
                        continue (Parsed (if capture then Group (S n) r else r) rest1 n1)
                      else Invalid "missing ), unterminated subpattern"
                  | EmptyString => Invalid "missing ), unterminated subpattern"
                  end
              | other => other
              end in
            match s1 with
            | String q s2 =>
                if is_char 63 q then
                  match s2 with
                  | String k s3 => if is_char 58 k then inner false s3 else Outside
                  | EmptyString => Invalid "unexpected end of pattern"
                  end
                else inner true s1
            | EmptyString => Invalid "missing ), unterminated subpattern"
            end
          else continue (Parsed (Chr (is_char (code c))) s1 n)
      end
  end.

(** *** Matching

    A backtracking matcher in continuation-passing style.  [prev] is the
    character before the current position, [s] the text from the current
    position on, [cs] the texts captured so far; the continuation [k]
    matches what remains of the pattern.  Alternatives are tried from
    left to right and a repetition takes as many rounds as it can before
    giving one back, which is the order of preference of [re]. *)

Definition captures := list (option string).

Fixpoint take (n : nat) (s : string) : string :=
  match n, s with
  | S n', String c s' => String c (take n' s')
  | _, _ => EmptyString
  end.

Fixpoint set_nth {A} (i : nat) (x : A) (l : list A) : list A :=
  match l, i with
  | [], _ => []
  | _ :: l', O => x :: l'
  | y :: l', S i' => y :: set_nth i' x l'
  end.

Definition at_line_start (prev : option ascii) : bool :=
  match prev with
  | None => true
  | Some c => is_char 10 c
  end.

Definition at_line_end (s : string) : bool :=
  match s with
  | EmptyString => true
  | String c _ => is_char 10 c
  end.

Section Run.
Variable R : Type.

Definition cont := option ascii -> string -> captures -> option R.

Fixpoint run (r : regex) (prev : option ascii) (s : string) (cs : captures)
         (k : cont) {struct r} : option R :=
  match r with
  | Eps => k prev s cs
  | Chr p =>
      match s with
      | String c s' => if p c then k (Some c) s' cs else None
      | EmptyString => None
      end
  | Bol => if at_line_start prev then k prev s cs else None
  | Eol => if at_line_end s then k prev s cs else None
  | Seq r1 r2 => run r1 prev s cs (fun prev' s' cs' => run r2 prev' s' cs' k)
  | Alt r1 r2 =>
      match run r1 prev s cs k with
      | Some x => Some x
      | None => run r2 prev s cs k
      end
  | Star r1 =>
      (fix rounds (fuel : nat) (prev : option ascii) (s : string)
           (cs : captures) {struct fuel} : option R :=
         match fuel with
         | O => k prev s cs
         | S fuel' =>
             match run r1 prev s cs
                     (fun prev' s' cs' =>
                        if Nat.ltb (String.length s') (String.length s)
                        then rounds fuel' prev' s' cs'
                        else None) with
             | Some x => Some x
             | None => k prev s cs
             end
         end) (String.length s) prev s cs
  | Group i r1 =>
      run r1 prev s cs
        (fun prev' s' cs' =>
           k prev' s'
             (set_nth (i - 1)
                (Some (take (String.length s - String.length s') s)) cs'))
  end.
End Run.

(** A match object: the pattern it came from, the text of the whole
    match and of each group ([None] for a group that took no part). *)
Record Match := { m_groups : nat; m_whole : string; m_captures : captures }.

Definition match_at (r : regex) (n : nat) (prev : option ascii) (s : string)
  : option Match :=
  run Match r prev s (repeat None n)
    (fun _ s' cs =>
       Some {| m_groups := n;
               m_whole := take (String.length s - String.length s') s;
               m_captures := cs |}).

(** The leftmost position at which the pattern matches. *)
Fixpoint scan (r : regex) (n : nat) (prev : option ascii) (s : string)
  : option Match :=
  match match_at r n prev s with
  | Some m => Some m
  | None =>
      match s with
      | EmptyString => None
      | String c s' => scan r n (Some c) s'
      end
  end.

(** A compiled pattern: its syntax tree and its number of groups. *)
Record Pattern := { tree : regex; groups : nat }.

Inductive compiled :=
| Compiled (p : Pattern)
| CompileError (msg : string)
| CompileOutside.

(** [re.compile(pattern, re.MULTILINE)] *)
Definition compile (pattern : string) : compiled :=
  match parse_alt (2 * String.length pattern + 2) pattern 0 with
  | Parsed r EmptyString n => Compiled {| tree := r; groups := n |}
  | Parsed _ (String _ _) _ => CompileError "unbalanced parenthesis"
  | Invalid m => CompileError m
  | Outside => CompileOutside
  end.

(** [re.search(pattern, text, re.MULTILINE)]: [Ok None] when the pattern
    matches nowhere. *)
Definition search (pattern text : string) : Res (option Match) :=
  match compile pattern with
  | Compiled p => Ok (scan (tree p) (groups p) None text)
  | CompileError msg => raise re_error msg
  | CompileOutside => raise OutsideModel "re: pattern outside the modelled fragment"
  end.

(** [m.group(i)]: the whole match for [0], [IndexError] beyond the number
    of groups of the pattern. *)
Definition group (m : Match) (i : nat) : Res (option string) :=
  match i with
  | O => Ok (Some (m_whole m))
  | S j =>
      if Nat.leb i (m_groups m) then Ok (nth j (m_captures m) None)
      else raise IndexError "no such group"
  end.

Fixpoint has_newline (s : string) : bool :=
  match s with
  | EmptyString => false
  | String c s' => (is_char 10 c || has_newline s')%bool
  end.

(** [re.search(pattern, text)], without flags, for a text of one line.
    On a text that holds no newline [^] and [$] match at its two ends
    only, with or without [re.MULTILINE], so the search above applies; a
    text with a newline in it is left outside the model. *)
Definition search_single_line (pattern text : string) : Res (option Match) :=
  if has_newline text
  then raise OutsideModel "re: text of more than one line without re.MULTILINE"
  else search pattern text.

End Re.

(** [str(x)] of a value that is a [str] or [None]. *)
Definition str_of_optional (x : option string) : string :=
  match x with
  | Some s => s
  | None => "None"
  end.

(** ** The [json] module: [json.loads(text)]

    The decoder with its default settings, for a [str] argument.  Numbers
    with a fraction or an exponent are kept as their text.  Left outside
    the model: [\u] escapes of code points from 256 on, integer literals
    longer than the interpreter converts, and nesting deeper than
    [max_depth], where the interpreter may give up with a
    [RecursionError]. *)

Module Json.
Import PyStr.
Local Open Scope nat_scope.
Local Set Warnings "-register-all".

Inductive value :=
| Null
| Bool (b : bool)
| Int (n : Z)
| Float (text : string)
| Str (s : string)
| Array (items : list value)
| Object (pairs : list (string * value)).

Inductive scanned (A : Type) :=
| Scanned (a : A) (rest : string)
| Malformed (msg : string)
| Outside.
Arguments Scanned {A} a rest.
Arguments Malformed {A} msg.
Arguments Outside {A}.

Definition max_depth : nat := 100.
Definition max_int_digits : nat := 4300.

Definition is_char (n : nat) (c : ascii) : bool := Nat.eqb (code c) n.

Definition is_ws (c : ascii) : bool :=
  (is_char 32 c || is_char 9 c || is_char 10 c || is_char 13 c)%bool.

Fixpoint skip_ws (s : string) : string :=
  match s with
  | String c s' => if is_ws c then skip_ws s' else s
  | EmptyString => s
  end.

Fixpoint drop (n : nat) (s : string) : string :=
  match n, s with
  | S n', String _ s' => drop n' s'
  | _, _ => s
  end.

Definition hex_val (c : ascii) : option nat :=
  if between 48 57 c then Some (code c - 48)
  else if between 97 102 c then Some (code c - 87)
  else if between 65 70 c then Some (code c - 55)
  else None.

Definition hex4 (a b c d : ascii) : option nat :=
  match hex_val a, hex_val b, hex_val c, hex_val d with
  | Some x, Some y, Some z, Some w => Some (((x * 16 + y) * 16 + z) * 16 + w)
  | _, _, _, _ => None
  end.

(** The character that a one-letter escape stands for. *)
Definition unescape (c : ascii) : option ascii :=
  match code c with
  | 34 | 92 | 47 => Some c
  | 98 => Some (ascii_of_nat 8)
  | 102 => Some (ascii_of_nat 12)
  | 110 => Some (ascii_of_nat 10)
  | 114 => Some (ascii_of_nat 13)
  | 116 => Some (ascii_of_nat 9)
  | _ => None
  end.

Definition push (c : ascii) (r : scanned string) : scanned string :=
  match r with
  | Scanned t rest => Scanned (String c t) rest
  | other => other
  end.

(** The text of a string literal, from just after its opening quote. *)
Fixpoint scanstring (s : string) : scanned string :=
  match s with
  | EmptyString => Malformed "Unterminated string starting at"
  | String c s1 =>
      if is_char 34 c then Scanned EmptyString s1
      else if is_char 92 c then
        match s1 with
        | EmptyString => Malformed "Unterminated string starting at"
        | String e s2 =>
            if is_char 117 e then
              match s2 with
              | String h1 (String h2 (String h3 (String h4 s6))) =>
                  match hex4 h1 h2 h3 h4 with
                  | Some v =>
                      if Nat.ltb v 256 then push (ascii_of_nat v) (scanstring s6)
                      else Outside
                  | None => Malformed "Invalid \uXXXX escape"
                  end
              | _ => Malformed "Invalid \uXXXX escape"
              end
            else
              match unescape e with
              | Some ch => push ch (scanstring s2)
              | None => Malformed "Invalid \escape"
              end
        end
      else if Nat.ltb (code c) 32 then Malformed "Invalid control character at"
      else push c (scanstring s1)
  end.

(** The longest run of digits at the start of [s], and what follows. *)
Fixpoint span_digits (s : string) : string * string :=
  match s with
  | String c s' =>
      if isdigit c then let (ds, rest) := span_digits s' in (String c ds, rest)
      else (EmptyString, s)
  | EmptyString => (EmptyString, s)
  end.

Fixpoint digits_value (acc : Z) (ds : string) : Z :=
  match ds with
  | String c ds' => digits_value (10 * acc + digit_val c)%Z ds'
  | EmptyString => acc
  end.

(** A number literal: an integer part, then a fraction and an exponent
    where they are complete. *)
Definition scan_number (s : string) : option (scanned value) :=
  let (neg, s1) :=
    match s with
    | String c s' => if is_char 45 c then (true, s') else (false, s)
    | EmptyString => (false, s)
    end in
  let int_part :=
    match s1 with
    | String c s2 =>
        if is_char 48 c then Some (String c EmptyString, s2)
        else if isdigit c then Some (span_digits s1)
        else None
    | EmptyString => None
    end in
  match int_part with
  | None => None
  | Some (ds, r0) =>
      let (frac, r1) :=
        match r0 with
        | String c r =>
            if is_char 46 c then
              match span_digits r with
              | (EmptyString, _) => (EmptyString, r0)
              | (fs, r') => (String c fs, r')
              end
            else (EmptyString, r0)
        | EmptyString => (EmptyString, r0)
        end in
      let (expo, r2) :=
        match r1 with
        | String c r =>
            if (is_char 101 c || is_char 69 c)%bool then
              let (sign, r') :=
                match r with
                | String g r'' =>
                    if (is_char 43 g || is_char 45 g)%bool
                    then (String g EmptyString, r'') else (EmptyString, r)
                | EmptyString => (EmptyString, r)
                end in
              match span_digits r' with
              | (EmptyString, _) => (EmptyString, r1)
              | (es, r''') => (String c (sign ++ es), r''')
              end
            else (EmptyString, r1)
        | EmptyString => (EmptyString, r1)
        end in
      let sign_text := if neg then "-" else EmptyString in
      match frac, expo with
      | EmptyString, EmptyString =>
          if Nat.ltb max_int_digits (String.length ds) then Some Outside
          else
            let n := digits_value 0 ds in
            Some (Scanned (Int (if neg then Z.opp n else n)) r2)
      | _, _ => Some (Scanned (Float (sign_text ++ ds ++ frac ++ expo)) r2)
      end
  end.

Definition constant (name : string) (v : value) (s : string) : option (scanned value) :=
  if String.prefix name s then Some (Scanned v (drop (String.length name) s)) else None.

Definition first_of {A} (a b : option A) : option A :=
  match a with Some _ => a | None => b end.

(** One JSON term at the start of [s]; [members] and [elements] read
    the rest of an object and of an array. *)
Fixpoint scan_once (fuel depth : nat) (s : string) : scanned value :=
  match fuel with
  | O => Outside
  | S f =>
      match s with
      | EmptyString => Malformed "Expecting value"
      | String c s1 =>
          if is_char 34 c then
            match scanstring s1 with
            | Scanned t rest => Scanned (Str t) rest
            | Malformed m => Malformed m
            | Outside => Outside
            end
          else if is_char 123 c then
            match depth with
            | O => Outside
            | S d =>
                match skip_ws s1 with
                | String k rest =>
                    if is_char 125 k then Scanned (Object []) rest
                    else members f d (skip_ws s1) []
                | EmptyString => members f d EmptyString []
                end
            end
          else if is_char 91 c then
            match depth with
            | O => Outside
            | S d =>
                match skip_ws s1 with
                | String k rest =>
                    if is_char 93 k then Scanned (Array []) rest
                    else elements f d (skip_ws s1) []
                | EmptyString => elements f d EmptyString []
                end
            end
          else
            let named :=
              first_of (constant "null" Null s)
             (first_of (constant "true" (Bool true) s)
             (first_of (constant "false" (Bool false) s)
             (first_of (constant "NaN" (Float "NaN") s)
             (first_of (constant "Infinity" (Float "Infinity") s)
                       (constant "-Infinity" (Float "-Infinity") s))))) in
            match first_of named (scan_number s) with
            | Some r => r
            | None => Malformed "Expecting value"
            end
      end
  end
with members (fuel depth : nat) (s : string) (acc : list (string * value))
  : scanned value :=
  match fuel with
  | O => Outside
  | S f =>
      match s with
      | String q s1 =>
          if is_char 34 q then
            match scanstring s1 with
            | Scanned key r1 =>
                match skip_ws r1 with
                | String colon r2 =>
                    if is_char 58 colon then
                      match scan_once f depth (skip_ws r2) with
                      | Scanned v r3 =>
                          match skip_ws r3 with
                          | String d r4 =>
                              if is_char 125 d then Scanned (Object (acc ++ [(key, v)])) r4
                              else if is_char 44 d then
                                members f depth (skip_ws r4) (acc ++ [(key, v)])
                              else Malformed "Expecting ',' delimiter"
                          | EmptyString => Malformed "Expecting ',' delimiter"
                          end
                      | other => other
                      end
                    else Malformed "Expecting ':' delimiter"
                | EmptyString => Malformed "Expecting ':' delimiter"
                end
            | Malformed m => Malformed m
            | Outside => Outside
            end
          else Malformed "Expecting property name enclosed in double quotes"
      | EmptyString => Malformed "Expecting property name enclosed in double quotes"
      end
  end
with elements (fuel depth : nat) (s : string) (acc : list value) : scanned value :=
  match fuel with
  | O => Outside
  | S f =>
      match scan_once f depth s with
      | Scanned v r1 =>
          match skip_ws r1 with
          | String d r2 =>
              if is_char 93 d then Scanned (Array (acc ++ [v])) r2
              else if is_char 44 d then elements f depth (skip_ws r2) (acc ++ [v])
              else Malformed "Expecting ',' delimiter"
          | EmptyString => Malformed "Expecting ',' delimiter"
          end
      | other => other
      end
  end.

(** [json.loads(text)] *)
Definition loads (text : string) : Res value :=
  match scan_once (2 * String.length text + 2) max_depth (skip_ws text) with
  | Scanned v rest =>
      match skip_ws rest with
      | EmptyString => Ok v
      | String _ _ => raise JSONDecodeError "Extra data"
      end
  | Malformed m => raise JSONDecodeError m
  | Outside => raise OutsideModel "json: text outside the modelled fragment"
  end.

(** [dict(pairs)[key]]: of two pairs with the same key the later one
    counts. *)
Fixpoint lookup (key : string) (pairs : list (string * value)) : option value :=
  match pairs with
  | [] => None
  | (k, v) :: rest =>
      match lookup key rest with
      | Some v' => Some v'
      | None => if String.eqb k key then Some v else None
      end
  end.

(** [v[key]] for a [str] key. *)
Definition getitem (v : value) (key : string) : Res value :=
  match v with
  | Object pairs =>
      match lookup key pairs with
      | Some x => Ok x
      | None => raise KeyError key
      end
  | Array _ => raise TypeError "list indices must be integers or slices, not str"
  | Str _ => raise TypeError "string indices must be integers"
  | _ => raise TypeError "object is not subscriptable"
  end.

(** [v != text] for a [str] on the right. *)
Definition differs_from_str (v : value) (text : string) : bool :=
  match v with
  | Str s => negb (String.eqb s text)
  | _ => true
  end.

End Json.

(** ** [adb_test.py]: the result of one command *)

Import PyStr.

Record CompletedProcess := {
  returncode : Z;
  stdout : string;
  stderr : string
}.

(** [json_data] is the attribute that [assert_json] creates; it does not
    exist before. *)
Record CommandResult := {
  command : list string;
  completed_proc : CompletedProcess;
  json_data : option Json.value
}.

(** [CommandResult(command, completed_proc)] *)
Definition new_CommandResult (cmd : list string) (cp : CompletedProcess) : CommandResult :=
  {| command := cmd; completed_proc := cp; json_data := None |}.

Definition set_json_data (r : CommandResult) (v : Json.value) : CommandResult :=
  {| command := command r; completed_proc := completed_proc r; json_data := Some v |}.

Module CommandResult.
Local Open Scope res_scope.

Definition succeeded (r : CommandResult) : bool :=
  returncode (completed_proc r) =? 0.

Definition command_str (r : CommandResult) : string := join " " (command r).

Definition failure_message (r : CommandResult) : string :=
  if succeeded r then "SUCCEEDED: " ++ command_str r
  else "FAILED (" ++ str_of_int (returncode (completed_proc r)) ++ "): "
       ++ command_str r ++ nl
       ++ "STDERR=" ++ stderr (completed_proc r)
       ++ "STDOUT=" ++ stdout (completed_proc r).

Definition assert_succeeded (r : CommandResult) : Res unit :=
  if negb (succeeded r) then raise ADBAssertionError (failure_message r)
  else Ok tt.

Definition is_not_None {A} (x : option A) : bool :=
  match x with Some _ => true | None => false end.

Definition contains (r : CommandResult) (pattern : string) : Res bool :=
  m <- Re.search pattern (stdout (completed_proc r)) ;;
  Ok (is_not_None m).

Definition stderr_contains (r : CommandResult) (pattern : string) : Res bool :=
  m <- Re.search pattern (stderr (completed_proc r)) ;;
  Ok (is_not_None m).

Definition no_match_message (r : CommandResult) (pattern : string) : string :=
  "FAILED: '" ++ command_str r ++ "' stdout was supposed to match regex '"
  ++ pattern ++ "', but didn't." ++ nl ++ "STDOUT was:" ++ nl
  ++ stdout (completed_proc r).

Definition assert_contains (r : CommandResult) (pattern : string) : Res unit :=
  found <- contains r pattern ;;
  if negb found then raise ADBAssertionError (no_match_message r pattern)
  else Ok tt.

(** The body shared by [search] and [stderr_search]. *)
Definition first_group (re_result : option Re.Match) : Res (option string) :=
  match re_result with
  | None => Ok None
  | Some m => g <- Re.group m 1 ;; Ok (Some (str_of_optional g))
  end.

Definition search (r : CommandResult) (pattern : string) : Res (option string) :=
  re_result <- Re.search pattern (stdout (completed_proc r)) ;;
  first_group re_result.

Definition stderr_search (r : CommandResult) (pattern : string) : Res (option string) :=
  re_result <- Re.search pattern (stderr (completed_proc r)) ;;
  first_group re_result.

Definition assert_search (r : CommandResult) (pattern : string) : Res string :=
  res <- search r pattern ;;
  match res with
  | None => raise ADBAssertionError (no_match_message r pattern)
  | Some v => Ok v
  end.

Definition not_single_string_message (r : CommandResult) : string :=
  "FAILED: '" ++ command_str r
  ++ "' stdout was supposed to be a single string, but wasn't." ++ nl
  ++ "STDOUT was:" ++ nl ++ stdout (completed_proc r).

Definition assert_string (r : CommandResult) : Res string :=
  assert_succeeded r ;;
  let str_val := stdout (completed_proc r) in
  if (Nat.eqb (String.length (strip str_val)) 0
      || Nat.ltb 1 (List.length (splitlines str_val)))%bool
  then raise ADBAssertionError (not_single_string_message r)
  else Ok (strip str_val).

Definition not_integer_message (r : CommandResult) : string :=
  "FAILED: '" ++ command_str r
  ++ "' stdout was supposed to be an integer, but wasn't." ++ nl
  ++ "STDOUT was:" ++ nl ++ stdout (completed_proc r).

(** [int(text)], raising [ValueError] as the builtin does. *)
Definition int (text : string) : Res Z :=
  match int_of_str text with
  | Some n => Ok n
  | None =>
      raise ValueError
        match too_long_for_int text with
        | Some digits =>
            "Exceeds the limit (" ++ str_of_int (Z.of_nat max_str_digits)
            ++ " digits) for integer string conversion: value has "
            ++ str_of_int (Z.of_nat digits)
            ++ " digits; use sys.set_int_max_str_digits() to increase the limit"
        | None => "invalid literal for int() with base 10: '" ++ text ++ "'"
        end
  end.

Definition assert_int (r : CommandResult) : Res Z :=
  rtry (text <- assert_string r ;; int text)
       ValueError
       (fun _ => raise ADBAssertionError (not_integer_message r)).

Definition invalid_json_message (r : CommandResult) (msg : string) : string :=
  "FAILED: '" ++ command_str r
  ++ "' stdout was supposed to contain valid json, but didn't." ++ nl
  ++ "STDOUT was:" ++ nl ++ stdout (completed_proc r)
  ++ ".  Decoding error was: " ++ msg.

(** Returns the result object with [json_data] stored on it. *)
Definition assert_json (r : CommandResult) : Res CommandResult :=
  rtry (data <- Json.loads (stdout (completed_proc r)) ;; Ok (set_json_data r data))
       JSONDecodeError
       (fun e => raise ADBAssertionError (invalid_json_message r (exc_msg e))).

(** [assert_log_stdout]: what it logs is left out. *)
Definition assert_log_stdout (r : CommandResult) : Res unit :=
  assert_succeeded r.

(** A [dict] whose keys and values are what [group] returns: a text, or
    [None] for a group that took no part in the match.  The pairs are in
    the order in which their keys were first stored. *)
Definition dict := list (option string * option string).

Definition key_eqb (a b : option string) : bool :=
  match a, b with
  | Some x, Some y => String.eqb x y
  | None, None => true
  | _, _ => false
  end.

(** [d[k] = v] *)
Fixpoint dict_set (k v : option string) (d : dict) : dict :=
  match d with
  | [] => [(k, v)]
  | (k', v') :: d' =>
      if key_eqb k k' then (k', v) :: d' else (k', v') :: dict_set k v d'
  end.

(** [d.get(k)] *)
Fixpoint dict_get (k : option string) (d : dict) : option (option string) :=
  match d with
  | [] => None
  | (k', v') :: d' => if key_eqb k k' then Some v' else dict_get k d'
  end.

(** The loop of [assert_stderr_keyvalue] over the pieces that are left.
    In the assignment the value, [group(2)], is computed before the
    key. *)
Fixpoint keyvalue_loop (pattern : string) (pieces : list string) (kv : dict) : Res dict :=
  match pieces with
  | [] => Ok kv
  | line :: rest =>
      re_result <- Re.search_single_line pattern line ;;
      match re_result with
      | None => keyvalue_loop pattern rest kv
      | Some m =>
          v <- Re.group m 2 ;;
          k <- Re.group m 1 ;;
          keyvalue_loop pattern rest (dict_set k v kv)
      end
  end.

Definition assert_stderr_keyvalue (r : CommandResult) (pattern : string) : Res dict :=
  assert_succeeded r ;;
  keyvalue_loop pattern (split (stderr (completed_proc r))) [].

End CommandResult.

(** ** [neo_test.py]: the result of a manufacturing command *)

Module NeoCommandResult.
Local Open Scope res_scope.

Definition not_success_message (r : CommandResult) : string :=
  "FAILED: '" ++ CommandResult.command_str r
  ++ "' didn't report 'Success', JSON:" ++ nl ++ stdout (completed_proc r).

(** Reading the attribute [json_data]. *)
Definition get_json_data (r : CommandResult) : Res Json.value :=
  match json_data r with
  | Some v => Ok v
  | None => raise AttributeError "'NeoCommandResult' object has no attribute 'json_data'"
  end.

Definition assert_mfg_succeeded (r : CommandResult) : Res CommandResult :=
  CommandResult.assert_succeeded r ;;
  r1 <- CommandResult.assert_json r ;;
  data <- get_json_data r1 ;;
  status <- Json.getitem data "status" ;;
  if Json.differs_from_str status "Success"
  then raise ADBAssertionError (not_success_message r1)
  else Ok r1.

End NeoCommandResult.

(** ** The transport: [subprocess.run] against the host *)

(** One invocation of [subprocess.run]: the argument vector and the
    timeout in seconds. *)
Record Call := { argv : list string; timeout_sec : Z }.

(** The process ran to its end, or [subprocess.TimeoutExpired]. *)
Inductive Outcome :=
| Completed (cp : CompletedProcess)
| Expired.

(** How the host with its attached devices answers a call, given the
    calls made before it (oldest first). *)
Definition Host := list Call -> Call -> Outcome.

(** [ADB_PATH] and [FASTBOOT_PATH] are the module globals that
    [find_platform_utils] has set by the time a session object exists. *)
Record World := {
  ADB_PATH : string;
  FASTBOOT_PATH : string;
  host : Host;
  trace : list Call
}.

(** ** The device families and board revisions of [neo_test.py] *)

Inductive DeviceType := HAMMERHEAD | GREATWHITE.

Inductive BoardType :=
| SN_UNKNOWN | HN_UNKNOWN
| SN_DEV0 | SN_P1 | SN_DEV0_1 | SN_RESERVED | SN_EVT1 | SN_EVT1_1
| HN_CONFIG_DEV0 | HN_CONFIG_DEV0_1 | HN_PREP1.

Definition DeviceType_value (d : DeviceType) : string :=
  match d with
  | HAMMERHEAD => "hammerhead"
  | GREATWHITE => "greatwhite"
  end.

Definition BoardType_value (b : BoardType) : Z :=
  match b with
  | SN_UNKNOWN => 0
  | HN_UNKNOWN => 1
  | SN_DEV0 => 160
  | SN_P1 => 161
  | SN_DEV0_1 => 162
  | SN_RESERVED => 163
  | SN_EVT1 => 164
  | SN_EVT1_1 => 165
  | HN_CONFIG_DEV0 => 176
  | HN_CONFIG_DEV0_1 => 177
  | HN_PREP1 => 178
  end.

Definition all_DeviceType : list DeviceType := [HAMMERHEAD; GREATWHITE].

Definition all_BoardType : list BoardType :=
  [SN_UNKNOWN; HN_UNKNOWN; SN_DEV0; SN_P1; SN_DEV0_1; SN_RESERVED; SN_EVT1;
   SN_EVT1_1; HN_CONFIG_DEV0; HN_CONFIG_DEV0_1; HN_PREP1].

(** The member of an [Enum] with a given value, as the call [E(value)]
    finds it. *)
Definition DeviceType_by_value (v : string) : option DeviceType :=
  find (fun d => String.eqb (DeviceType_value d) v) all_DeviceType.

Definition BoardType_by_value (v : Z) : option BoardType :=
  find (fun b => BoardType_value b =? v) all_BoardType.

(** [DeviceType(value)]: an [Enum] class called with a value that none of
    its members has raises [ValueError]. *)
Definition DeviceType_call (v : option string) : Res DeviceType :=
  match v with
  | Some name =>
      match DeviceType_by_value name with
      | Some d => Ok d
      | None => raise ValueError ("'" ++ name ++ "' is not a valid DeviceType")
      end
  | None => raise ValueError "None is not a valid DeviceType"
  end.

(** [BoardType(value)] *)
Definition BoardType_call (v : Z) : Res BoardType :=
  match BoardType_by_value v with
  | Some b => Ok b
  | None => raise ValueError (str_of_int v ++ " is not a valid BoardType")
  end.

Definition DeviceType_eqb (a b : DeviceType) : bool :=
  match a, b with
  | HAMMERHEAD, HAMMERHEAD | GREATWHITE, GREATWHITE => true
  | _, _ => false
  end.

Definition BoardType_eqb (a b : BoardType) : bool :=
  BoardType_value a =? BoardType_value b.

(** ** The session object *)

(** The class of the object, which decides the methods that a call
    through [self] reaches. *)
Inductive SessionClass := ADBSession | NeoADBSession.

(** The attributes of an [ADBSession], followed by those that
    [NeoADBSession] adds.  [attended] is [test_session.attended];
    [device_type] and [board_type] are declared without a value and do not
    exist until they are assigned. *)
Record Session := {
  class_of : SessionClass;
  attended : bool;
  device_name : option string;
  device_serial : option string;
  root : bool;
  remounted : bool;
  echo_commands : bool;
  factory_mode : bool;
  device_type : option DeviceType;
  board_type : option BoardType;
  vendor_mcs_enabled : bool
}.

(** The object as its constructor leaves it. *)
Definition new_Session (cls : SessionClass) (attended_mode : bool) : Session :=
  {| class_of := cls; attended := attended_mode;
     device_name := None; device_serial := None;
     root := false; remounted := false; echo_commands := false;
     factory_mode := false; device_type := None; board_type := None;
     vendor_mcs_enabled := true |}.

Definition with_device_name (v : option string) (s : Session) : Session :=
  {| class_of := class_of s; attended := attended s;
     device_name := v; device_serial := device_serial s;
     root := root s; remounted := remounted s; echo_commands := echo_commands s;
     factory_mode := factory_mode s; device_type := device_type s;
     board_type := board_type s; vendor_mcs_enabled := vendor_mcs_enabled s |}.

Definition with_device_serial (v : option string) (s : Session) : Session :=
  {| class_of := class_of s; attended := attended s;
     device_name := device_name s; device_serial := v;
     root := root s; remounted := remounted s; echo_commands := echo_commands s;
     factory_mode := factory_mode s; device_type := device_type s;
     board_type := board_type s; vendor_mcs_enabled := vendor_mcs_enabled s |}.

Definition with_root (v : bool) (s : Session) : Session :=
  {| class_of := class_of s; attended := attended s;
     device_name := device_name s; device_serial := device_serial s;
     root := v; remounted := remounted s; echo_commands := echo_commands s;
     factory_mode := factory_mode s; device_type := device_type s;
     board_type := board_type s; vendor_mcs_enabled := vendor_mcs_enabled s |}.

Definition with_remounted (v : bool) (s : Session) : Session :=
  {| class_of := class_of s; attended := attended s;
     device_name := device_name s; device_serial := device_serial s;
     root := root s; remounted := v; echo_commands := echo_commands s;
     factory_mode := factory_mode s; device_type := device_type s;
     board_type := board_type s; vendor_mcs_enabled := vendor_mcs_enabled s |}.

Definition with_echo_commands (v : bool) (s : Session) : Session :=
  {| class_of := class_of s; attended := attended s;
     device_name := device_name s; device_serial := device_serial s;
     root := root s; remounted := remounted s; echo_commands := v;
     factory_mode := factory_mode s; device_type := device_type s;
     board_type := board_type s; vendor_mcs_enabled := vendor_mcs_enabled s |}.

Definition with_factory_mode (v : bool) (s : Session) : Session :=
  {| class_of := class_of s; attended := attended s;
     device_name := device_name s; device_serial := device_serial s;
     root := root s; remounted := remounted s; echo_commands := echo_commands s;
     factory_mode := v; device_type := device_type s;
     board_type := board_type s; vendor_mcs_enabled := vendor_mcs_enabled s |}.

Definition with_device_type (v : option DeviceType) (s : Session) : Session :=
  {| class_of := class_of s; attended := attended s;
     device_name := device_name s; device_serial := device_serial s;
     root := root s; remounted := remounted s; echo_commands := echo_commands s;
     factory_mode := factory_mode s; device_type := v;
     board_type := board_type s; vendor_mcs_enabled := vendor_mcs_enabled s |}.

Definition with_board_type (v : option BoardType) (s : Session) : Session :=
  {| class_of := class_of s; attended := attended s;
     device_name := device_name s; device_serial := device_serial s;
     root := root s; remounted := remounted s; echo_commands := echo_commands s;
     factory_mode := factory_mode s; device_type := device_type s;
     board_type := v; vendor_mcs_enabled := vendor_mcs_enabled s |}.

Definition with_vendor_mcs_enabled (v : bool) (s : Session) : Session :=
  {| class_of := class_of s; attended := attended s;
     device_name := device_name s; device_serial := device_serial s;
     root := root s; remounted := remounted s; echo_commands := echo_commands s;
     factory_mode := factory_mode s; device_type := device_type s;
     board_type := board_type s; vendor_mcs_enabled := v |}.

(** ** The monad of session methods *)

Record State := { self : Session; world : World }.

Definition Py (A : Type) : Type := State -> Res A * State.

Definition ret {A} (a : A) : Py A := fun st => (Ok a, st).

Definition bind {A B} (m : Py A) (f : A -> Py B) : Py B :=
  fun st =>
    match m st with
    | (Ok a, st') => f a st'
    | (Raise e, st') => (Raise e, st')
    end.

Declare Scope py_scope.
Delimit Scope py_scope with py.
Notation "x <- m ;; f" := (bind m (fun x => f))
  (at level 61, m at next level, right associativity) : py_scope.
Notation "m ;; f" := (bind m (fun _ => f))
  (at level 61, right associativity) : py_scope.

(** A computation on a result object, which neither reads nor changes the
    session. *)
Definition lift {A} (r : Res A) : Py A := fun st => (r, st).

Definition throw {A} (cls : PyExc) (msg : string) : Py A := lift (raise cls msg).

(** [try: body except cls: handler] *)
Definition try_except {A} (body : Py A) (cls : PyExc) (handler : exn -> Py A) : Py A :=
  fun st =>
    match body st with
    | (Ok a, st') => (Ok a, st')
    | (Raise e, st') =>
        if issubclass (exc_type e) cls then handler e st' else (Raise e, st')
    end.

(** Reading and assigning an attribute of [self]. *)
Definition get {A} (attr : Session -> A) : Py A := fun st => (Ok (attr (self st)), st).

Definition assign (update : Session -> Session) : Py unit :=
  fun st => (Ok tt, {| self := update (self st); world := world st |}).

(** The state once the call [c] has been made: the trace is one call
    longer. *)
Definition called (c : Call) (st : State) : State :=
  let w := world st in
  {| self := self st;
     world := {| ADB_PATH := ADB_PATH w; FASTBOOT_PATH := FASTBOOT_PATH w;
                 host := host w; trace := trace w ++ [c] |} |}.

(** What the host answers to the call [c] made in the state [st]. *)
Definition reply (c : Call) (st : State) : Outcome :=
  host (world st) (trace (world st)) c.

(** [subprocess.run(cmd, stdout=PIPE, stderr=PIPE, text=True, timeout=t)] *)
Definition subprocess_run (cmd : list string) (t : Z) : Py CompletedProcess :=
  fun st =>
    let c := {| argv := cmd; timeout_sec := t |} in
    match reply c st with
    | Completed cp => (Ok cp, called c st)
    | Expired => (raise TimeoutExpired (join " " cmd), called c st)
    end.

Definition the_ADB_PATH : Py string := fun st => (Ok (ADB_PATH (world st)), st).
Definition the_FASTBOOT_PATH : Py string := fun st => (Ok (FASTBOOT_PATH (world st)), st).

(** The calls that a computation adds to the trace when run from [st]. *)
Definition issued {A} (m : Py A) (st : State) : list Call :=
  skipn (List.length (trace (world st))) (trace (world (snd (m st)))).

(** ** [adb_test.py]: module-level helpers *)

Module adb_test.
Local Open Scope py_scope.

Definition run_command (cmd : list string) (t : Z) : Py CommandResult :=
  cp <- subprocess_run cmd t ;;
  ret (new_CommandResult cmd cp).

Definition run_adb_command (cmd : list string) (t : Z) : Py CommandResult :=
  adb <- the_ADB_PATH ;;
  run_command (adb :: cmd) t.

End adb_test.

(** ** [ADBSession] and [NeoADBSession]

    The methods of both classes, in the order in which they depend on
    each other.  A method that a subclass overrides appears once per
    class, under the name of its class, and once more under its own name
    as the call through [self], which picks the version of the object's
    class.  The default [timeout_sec=10] is written out at each call. *)

Local Open Scope py_scope.

Definition run_cli_command (cmd : list string) (t : Z) : Py CommandResult :=
  cp <- subprocess_run cmd t ;;
  ret (new_CommandResult cmd cp).

(** An argument vector may hold only [str]; with [device_serial] still
    [None] the call ends in a [TypeError] before any process is started:
    in [join] when the command is echoed, in [subprocess.run] otherwise. *)
Definition with_serial (cmd : list string) : Py (list string) :=
  serial <- get device_serial ;;
  echo <- get echo_commands ;;
  match serial with
  | Some ser => ret ("-s" :: ser :: cmd)
  | None =>
      throw TypeError
        (if echo then "sequence item 2: expected str instance, NoneType found"
         else "expected str, bytes or os.PathLike object, not NoneType")
  end.

Definition run_command (cmd : list string) (t : Z) : Py CommandResult :=
  cmd <- with_serial cmd ;;
  adb <- the_ADB_PATH ;;
  run_cli_command (adb :: cmd) t.

Definition run_fastboot_command (cmd : list string) (t : Z) : Py CommandResult :=
  cmd <- with_serial cmd ;;
  fastboot <- the_FASTBOOT_PATH ;;
  run_cli_command (fastboot :: cmd) t.

Definition run_shell_command (cmd : list string) (t : Z) : Py CommandResult :=
  run_command ("shell" :: cmd) t.

Definition assert_succeeded (cmd : list string) (t : Z) : Py unit :=
  r <- run_shell_command cmd t ;;
  lift (CommandResult.assert_succeeded r).

Definition is_root : Py bool :=
  result <- run_shell_command ["id"; "-u"] 10 ;;
  lift (CommandResult.assert_succeeded result) ;;
  uid <- lift (CommandResult.assert_int result) ;;
  ret (uid =? 0).

Definition is_remounted : Py bool :=
  result <- run_shell_command ["mount"] 10 ;;
  lift (CommandResult.assert_succeeded result) ;;
  lift (CommandResult.contains result "overlay on /system type overlay").

Definition unroot : Py unit :=
  result <- run_command ["unroot"] 10 ;;
  lift (CommandResult.assert_succeeded result) ;;
  assign (with_root false).

Definition assert_remount : Py unit :=
  remounted_now <- get remounted ;;
  if remounted_now then ret tt
  else
    result <- run_command ["remount"] 10 ;;
    lift (CommandResult.assert_succeeded result) ;;
    assign (with_remounted true).

Definition wait_for_device (wait_root : bool) : Py unit :=
  let cmd := (["wait-for-device"] ++ (if wait_root then ["root"] else []))%list in
  result <- run_command cmd 60 ;;
  lift (CommandResult.assert_succeeded result).

Definition assert_log_shell_command (cmd : list string) : Py unit :=
  r <- run_shell_command cmd 10 ;;
  _ <- lift (CommandResult.assert_string r) ;;
  ret tt.

Definition assert_string (cmd : list string) : Py string :=
  r <- run_shell_command cmd 10 ;;
  lift (CommandResult.assert_string r).

Definition assert_file_int (filename_str : string) : Py Z :=
  r <- run_shell_command ["cat"; filename_str] 10 ;;
  lift (CommandResult.assert_int r).

Definition assert_get_prop (prop_name : string) : Py string :=
  assert_string ["getprop"; prop_name].

Definition assert_set_prop (prop_name prop_value : string) : Py unit :=
  assert_succeeded ["setprop"; prop_name; prop_value] 10.

Definition assert_log_prop (prop_name : string) : Py unit :=
  _ <- assert_get_prop prop_name ;;
  ret tt.

Definition is_selinux_enforcing : Py bool :=
  mode <- assert_string ["getenforce"] ;;
  ret (String.eqb mode "Enforcing").

Definition assert_ctl_stop (service : string) : Py unit :=
  assert_set_prop "ctl.stop" service.

Definition assert_ctl_start (service : string) : Py unit :=
  assert_set_prop "ctl.start" service.

(** [ADBSession.on_root]: nothing to do. *)
Definition ADBSession_on_root : Py unit := ret tt.

(** [NeoADBSession.is_factory_mode] *)
Definition is_factory_mode : Py bool :=
  rooted <- get root ;;
  if negb rooted then ret false
  else
    result <- run_shell_command ["cat"; "/proc/cmdline"] 10 ;;
    lift (CommandResult.assert_succeeded result) ;;
    lift (CommandResult.contains result "androidboot.factorytest=1").

(** [NeoADBSession.on_root] *)
Definition NeoADBSession_on_root : Py unit :=
  ADBSession_on_root ;;
  mode <- is_factory_mode ;;
  assign (with_factory_mode mode).

(** [self.on_root()] *)
Definition on_root : Py unit :=
  cls <- get class_of ;;
  match cls with
  | ADBSession => ADBSession_on_root
  | NeoADBSession => NeoADBSession_on_root
  end.

Definition assert_root : Py unit :=
  rooted <- get root ;;
  if rooted then ret tt
  else
    result <- run_command ["root"] 10 ;;
    lift (CommandResult.assert_succeeded result) ;;
    assign (with_root true) ;;
    on_root.

Definition assert_set_selinux_enforcing (enforcing : bool) : Py unit :=
  current <- is_selinux_enforcing ;;
  if Bool.eqb current enforcing then ret tt
  else
    assert_root ;;
    assert_succeeded ["setenforce"; if enforcing then "1" else "0"] 10.

(** [ADBSession.refresh_device_state] *)
Definition ADBSession_refresh_device_state : Py unit :=
  rooted <- is_root ;;
  assign (with_root rooted) ;;
  mounted <- is_remounted ;;
  assign (with_remounted mounted) ;;
  name <- assert_get_prop "ro.product.device" ;;
  assign (with_device_name (Some name)).

Definition golden_bin : string := "/vendor/firmware_mnt/image/kiwi/bdwlan.elf".
Definition bt_file : string := "/sys/devices/soc0/platform_subtype_id".

(** [NeoADBSession.refresh_device_state], first part: every statement
    before the [try]. *)
Definition refresh_flags : Py unit :=
  ADBSession_refresh_device_state ;;
  mode <- is_factory_mode ;;
  assign (with_factory_mode mode) ;;
  assert_log_prop "ro.product.device" ;;
  assert_log_prop "ro.build.flavor" ;;
  assert_log_prop "ro.build.fingerprint" ;;
  assert_log_shell_command ["uname"; "-a"] ;;
  rooted <- get root ;;
  (if rooted then
     assert_log_shell_command ["sha1sum"; golden_bin] ;;
     assert_log_shell_command ["stat"; "-c"; "%s"; golden_bin]
   else ret tt).

(** The body of the [try]. *)
Definition resolve_identity_body : Py unit :=
  name <- get device_name ;;
  family <- lift (DeviceType_call name) ;;
  assign (with_device_type (Some family)) ;;
  rooted <- get root ;;
  if rooted then
    revision <- assert_file_int bt_file ;;
    board <- lift (BoardType_call revision) ;;
    assign (with_board_type (Some board))
  else
    assign (with_board_type
              (Some (if DeviceType_eqb family HAMMERHEAD then SN_UNKNOWN else HN_UNKNOWN))).

(** The message of the [except KeyError] clause; [board_id] is still the
    [0] it was initialised with. *)
Definition unknown_configuration_message (name : option string) : string :=
  "FAILED: '" ++ str_of_optional name ++ "' or platform_subtype_id="
  ++ str_of_int 0 ++ " doesn't map to a known configuration: update test infra".

(** [NeoADBSession.refresh_device_state], second part: the [try]
    statement. *)
Definition resolve_identity : Py unit :=
  try_except resolve_identity_body KeyError
    (fun _ =>
       name <- get device_name ;;
       throw ADBAssertionError (unknown_configuration_message name)).

(** [NeoADBSession.refresh_device_state] *)
Definition NeoADBSession_refresh_device_state : Py unit :=
  refresh_flags ;;
  resolve_identity.

(** [self.refresh_device_state()] *)
Definition refresh_device_state : Py unit :=
  cls <- get class_of ;;
  match cls with
  | ADBSession => ADBSession_refresh_device_state
  | NeoADBSession => NeoADBSession_refresh_device_state
  end.

Definition bind_serial (serial : string) : Py unit :=
  assign (with_device_serial (Some serial)) ;;
  refresh_device_state.

Definition no_devices_message : string :=
  "'adb devices' shows no connected devices available to run tests".

Definition bind_with_first_device : Py unit :=
  result <- adb_test.run_adb_command ["devices"] 10 ;;
  lift (CommandResult.assert_succeeded result) ;;
  lift (CommandResult.assert_contains result ("^List of devices attached" ++ nl)) ;;
  serial <- lift (CommandResult.search result "^(\w+)\s+device") ;;
  match serial with
  | None => throw ADBAssertionError no_devices_message
  | Some ser => bind_serial ser
  end.

(** [NeoADBSession.reboot_to_fastboot]: the result of the reboot command
    is not looked at. *)
Definition reboot_to_fastboot : Py unit :=
  _ <- run_command ["reboot"; "bootloader"] 10 ;;
  ret tt.

Definition set_factory_mode (mode : bool) : Py unit :=
  reboot_to_fastboot ;;
  _ <- run_fastboot_command
         ["oem"; if mode then "enable-factory-mode" else "disable-factory-mode"] 10 ;;
  _ <- run_fastboot_command ["reboot"] 10 ;;
  wait_for_device true ;;
  assign (with_factory_mode mode).

Definition assert_factory_mode : Py unit :=
  assert_root ;;
  mode <- get factory_mode ;;
  if mode then ret tt else set_factory_mode true.

Definition run_mfg_command (cmd : list string) : Py CommandResult :=
  run_shell_command ("mfg" :: cmd) 10.

Definition assert_disable_vendor_MCS : Py unit :=
  enabled <- get vendor_mcs_enabled ;;
  if negb enabled then ret tt
  else
    assert_root ;;
    assert_set_selinux_enforcing true ;;
    assert_ctl_stop "captureengineservice" ;;
    assert_ctl_stop "vendor.camera-provider-2-7" ;;
    assign (with_vendor_mcs_enabled false).

Definition assert_enable_vendor_MCS : Py unit :=
  assert_root ;;
  assert_set_selinux_enforcing true ;;
  assert_ctl_start "captureengineservice" ;;
  assert_ctl_start "vendor.camera-provider-2-7" ;;
  assign (with_vendor_mcs_enabled true).

Definition assert_camcapture (options : list string) (t : Z) : Py unit :=
  assert_disable_vendor_MCS ;;
  assert_succeeded (["camcapture"; "-c"; "0"] ++ options)%list t.

Definition assert_log_shell_command_str (cmd : string) : Py unit :=
  assert_log_shell_command (split_on SPACE cmd).

Definition assert_file_string (filename : string) : Py string :=
  assert_string ["cat"; filename].

Definition assert_log_file_string (filename : string) : Py unit :=
  _ <- assert_file_string filename ;;
  ret tt.

Definition assert_log_mfg_command_str (cmd : string) : Py unit :=
  r <- run_mfg_command (split_on SPACE cmd) ;;
  _ <- lift (NeoCommandResult.assert_mfg_succeeded r) ;;
  lift (CommandResult.assert_log_stdout r).

(** [NeoADBSession.refresh_mcu_state]: the labels are used for logging
    only. *)
Definition refresh_mcu_state : Py unit :=
  assert_log_shell_command ["tdb"; "shell"; "build_info"] ;;
  assert_log_shell_command ["tdb"; "shell"; "board_info"] ;;
  assert_log_shell_command ["tdb"; "shell"; "adc"; "board_id"].

(** Reading [self.board_type], which exists once it has been assigned. *)
Definition the_board_type : Py BoardType :=
  board <- get board_type ;;
  match board with
  | Some b => ret b
  | None => throw AttributeError "'NeoADBSession' object has no attribute 'board_type'"
  end.

Definition is_form_factory_device : Py bool :=
  b1 <- the_board_type ;;
  if BoardType_eqb b1 SN_P1 then ret true
  else
    b2 <- the_board_type ;;
    if BoardType_eqb b2 SN_EVT1 then ret true
    else
      b3 <- the_board_type ;;
      if BoardType_eqb b3 SN_EVT1_1 then ret true
      else
        b4 <- the_board_type ;;
        if BoardType_eqb b4 HN_PREP1 then ret true else ret false.

Definition device_has_battery : Py bool := is_form_factory_device.

(** ** [camera/sanity_checks.py]

    Each test starts with [getNeoADBSession()].  The module keeps one
    session object for all of them; for that object, once it exists, the
    call does no more than set [echo_commands], and it is this object that
    the state holds. *)

Module sanity_checks.

Definition getNeoADBSession : Py unit :=
  assign (with_echo_commands true).

Definition test_snapshot_jpeg : Py unit :=
  getNeoADBSession ;;
  assert_disable_vendor_MCS ;;
  assert_camcapture [] 10 ;;
  assert_camcapture ["-d"; "4032x3024"; "-e"; "33333,200"] 10 ;;
  assert_camcapture ["-e"; "33333,100"; "-w"; "1.0,1.0,1.0,3.0"] 10 ;;
  assert_camcapture ["-d"; "4032x3024"; "-s"; "-12,0,12,6"] 10 ;;
  assert_camcapture ["-d"; "4000x3000"; "-D"; "auto"] 10 ;;
  assert_camcapture ["-d"; "4032x3024"; "-n"; "10"; "-K"] 10 ;;
  assert_camcapture ["-d"; "4032x3024"; "-D"; "hdr"; "-i"] 10 ;;
  assert_camcapture ["-i"; "-X"; "2"] 10 ;;
  assert_camcapture ["-d"; "1920x1080"; "-R"; "90"] 10.

Definition test_snapshot_raw : Py unit :=
  getNeoADBSession ;;
  assert_disable_vendor_MCS ;;
  assert_camcapture ["-d"; "4032x3024"; "-r"; "-e"; "33333,500"] 10.

Definition test_video : Py unit :=
  getNeoADBSession ;;
  assert_disable_vendor_MCS ;;
  assert_camcapture ["-m"] 20 ;;
  assert_camcapture ["-m"; "-v"; "avc"; "-R"; "90"; "-x"; "60000"] 80 ;;
  assert_camcapture ["-d"; "1280x720"; "-m"; "-x"; "5000"] 20 ;;
  assert_camcapture
    ["-d"; "1920x1080"; "-m"; "-x"; "10000"; "-e"; "33333,100"; "-w"; "1.0,1.0,3.0,1.0"]
    25 ;;
  assert_camcapture ["-m"; "-x"; "10000"; "-o"; "none"] 30.

Definition test_snapshot_heic : Py unit :=
  getNeoADBSession ;;
  assert_disable_vendor_MCS ;;
  assert_camcapture ["-o"; "heic"; "-n"; "20"] 10 ;;
  assert_camcapture ["-o"; "heic"; "-D"; "auto"] 10 ;;
  assert_camcapture ["-o"; "heic"; "-q"; "99"] 10 ;;
  assert_camcapture ["-o"; "heic"; "-e"; "33333,200"] 10 ;;
  assert_camcapture ["-o"; "heic"; "-w"; "1.0,3.0,3.0,1.0"] 10 ;;
  assert_camcapture
    ["-o"; "heic"; "-w"; "1.0,3.0,3.0,1.0"; "-e"; "33333,250"; "-n"; "3"] 10 ;;
  assert_camcapture ["-o"; "heic"; "-n"; "10"; "-K"] 10.

End sanity_checks.

(** * Vocabulary of the properties *)

(** ** Result objects *)

(** A result object for a command with the given exit status and output. *)
Definition result_of (cmd : list string) (code : Z) (out err : string) : CommandResult :=
  new_CommandResult cmd {| returncode := code; stdout := out; stderr := err |}.

(** The standard output of the command. *)
Definition stdout_of (r : CommandResult) : string := stdout (completed_proc r).

(** The characters that trimming with [p] leaves in place. *)
Definition kept (p : ascii -> bool) (c : ascii) : bool := negb (p c).

(** Every character of [s] satisfies [p]. *)
Fixpoint all_chars (p : ascii -> bool) (s : string) : bool :=
  match s with
  | EmptyString => true
  | String c s' => (p c && all_chars p s')%bool
  end.

(** The value of a decimal numeral read from its first digit on, with
    [acc] the value read so far. *)
Fixpoint uint_value (acc : Z) (d : Decimal.uint) : Z :=
  match d with
  | Nil => acc
  | D0 d' => uint_value (10 * acc + 0) d'
  | D1 d' => uint_value (10 * acc + 1) d'
  | D2 d' => uint_value (10 * acc + 2) d'
  | D3 d' => uint_value (10 * acc + 3) d'
  | D4 d' => uint_value (10 * acc + 4) d'
  | D5 d' => uint_value (10 * acc + 5) d'
  | D6 d' => uint_value (10 * acc + 6) d'
  | D7 d' => uint_value (10 * acc + 7) d'
  | D8 d' => uint_value (10 * acc + 8) d'
  | D9 d' => uint_value (10 * acc + 9) d'
  end.

(** ** Patterns *)

(** The compiled form of a pattern of the modelled fragment. *)
Definition compiled_pattern (pattern : string) : Re.Pattern :=
  match Re.compile pattern with
  | Re.Compiled p => p
  | _ => {| Re.tree := Re.Eps; Re.groups := 0 |}
  end.

(** Whether [pattern] matches somewhere in [text]. *)
Definition found_in (pattern text : string) : bool :=
  match Re.search pattern text with
  | Ok (Some _) => true
  | _ => false
  end.

(** The text that [search] returns for a match: [str(m.group(1))]. *)
Definition first_group_text (m : Re.Match) : string :=
  str_of_optional (nth 0 (Re.m_captures m) None).

(** The two patterns of [bind_with_first_device]. *)
Definition header_pattern : string := "^List of devices attached" ++ nl.
Definition ready_pattern : string := "^(\w+)\s+device".

(** The serial number that [bind_with_first_device] picks from a
    listing: the first group of the leftmost match of [ready_pattern]. *)
Definition first_ready_device (listing : string) : option string :=
  option_map first_group_text
    (Re.scan (Re.tree (compiled_pattern ready_pattern))
       (Re.groups (compiled_pattern ready_pattern)) None listing).

(** ** States and calls *)

(** The session with [update] applied to its object. *)
Definition updated (update : Session -> Session) (st : State) : State :=
  {| self := update (self st); world := world st |}.

(** The call that [run_command cmd t] makes for a session bound to the
    serial number [ser]. *)
Definition adb_call (st : State) (ser : string) (cmd : list string) (t : Z) : Call :=
  {| argv := ADB_PATH (world st) :: "-s" :: ser :: cmd; timeout_sec := t |}.

(** The privilege escalation, the read of the kernel command line, the
    read of the hardware revision, and the listing of the attached
    devices. *)
Definition root_call (st : State) (ser : string) : Call :=
  adb_call st ser ["root"] 10.

Definition cmdline_call (st : State) (ser : string) : Call :=
  adb_call st ser ["shell"; "cat"; "/proc/cmdline"] 10.

Definition revision_call (st : State) (ser : string) : Call :=
  adb_call st ser ["shell"; "cat"; bt_file] 10.

Definition devices_call (st : State) : Call :=
  {| argv := [ADB_PATH (world st); "devices"]; timeout_sec := 10 |}.

(** Whether a call of the trace is a privilege escalation, [adb -s serial
    root], and how many of a list of calls are. *)
Definition is_root_call (c : Call) : bool :=
  match argv c with
  | [_; dash_s; _; sub] => (String.eqb dash_s "-s" && String.eqb sub "root")%bool
  | _ => false
  end.

Definition escalations (calls : list Call) : nat :=
  List.length (filter is_root_call calls).

(** The trace of [st'] continues the trace of [st]. *)
Definition grows (st st' : State) : Prop :=
  exists l, trace (world st') = (trace (world st) ++ l)%list.

(** A computation that only ever adds calls to the trace. *)
Definition monotone {A} (m : Py A) : Prop :=
  forall st, grows st (snd (m st)).

(** A computation that leaves the attribute [attr] of the object alone. *)
Definition keeps {A B} (attr : Session -> A) (m : Py B) : Prop :=
  forall st, attr (self (snd (m st))) = attr (self st).

(** ** Further calls and invariants *)

(** The call that [run_fastboot_command cmd t] makes for a session bound
    to the serial number [ser]. *)
Definition fastboot_call (st : State) (ser : string) (cmd : list string) (t : Z) : Call :=
  {| argv := FASTBOOT_PATH (world st) :: "-s" :: ser :: cmd; timeout_sec := t |}.

(** A call that selects the device [ser]: [tool -s ser ...]. *)
Definition addressed_to (ser : string) (c : Call) : bool :=
  match argv c with
  | _ :: dash_s :: target :: _ => (String.eqb dash_s "-s" && String.eqb target ser)%bool
  | _ => false
  end.

(** A call [adb -s serial remount], and a call of the capture tool. *)
Definition is_remount_call (c : Call) : bool :=
  match argv c with
  | [_; dash_s; _; sub] => (String.eqb dash_s "-s" && String.eqb sub "remount")%bool
  | _ => false
  end.

Definition is_camcapture_call (c : Call) : bool :=
  match argv c with
  | _ :: _ :: _ :: sh :: tool :: _ =>
      (String.eqb sh "shell" && String.eqb tool "camcapture")%bool
  | _ => false
  end.

(** A computation that, started with the invariant [inv] on the session
    object, makes only calls that satisfy [p], and that re-establishes the
    invariant when it returns. *)
Definition only {A} (p : Call -> bool) (inv : Session -> Prop) (m : Py A) : Prop :=
  forall st,
    inv (self st) ->
    exists l,
      trace (world (snd (m st))) = (trace (world st) ++ l)%list
      /\ forallb p l = true
      /\ (forall a, fst (m st) = Ok a -> inv (self (snd (m st)))).

Definition bound_serial (ser : string) (s : Session) : Prop :=
  device_serial s = Some ser.

Definition services_off (s : Session) : Prop :=
  vendor_mcs_enabled s = false.

(** The key and the value that [assert_stderr_keyvalue] takes from each
    piece that the pattern matches, in the order of the pieces. *)
Fixpoint bindings (p : Re.Pattern) (pieces : list string) : CommandResult.dict :=
  match pieces with
  | [] => []
  | piece :: rest =>
      match Re.scan (Re.tree p) (Re.groups p) None piece with
      | Some m =>
          (nth 0 (Re.m_captures m) None, nth 1 (Re.m_captures m) None)
          :: bindings p rest
      | None => bindings p rest
      end
  end.

(** The value of the last pair with the key [k]. *)
Definition last_binding (k : option string) (pairs : CommandResult.dict)
  : option (option string) :=
  option_map snd (find (fun kv => CommandResult.key_eqb k (fst kv)) (List.rev pairs)).

(** The boards that [is_form_factory_device] names, by value. *)
Definition form_factor_values : list Z := [161; 164; 165; 178].

(** The placeholder of a family for a device without root. *)
Definition placeholder (family : DeviceType) : BoardType :=
  match family with
  | HAMMERHEAD => SN_UNKNOWN
  | GREATWHITE => HN_UNKNOWN
  end.

(** A method that talks to the device [ser] only, on a session bound to
    it. *)
Definition addresses (ser : string) {A} (m : Py A) : Prop :=
  only (addressed_to ser) (bound_serial ser) m.

(** A computation that leaves the attribute [attr] at [v] when it
    returns, and as it was when it raises. *)
Definition sets {A B} (attr : Session -> A) (v : A) (m : Py B) : Prop :=
  forall st,
    match m st with
    | (Ok _, st') => attr (self st') = v
    | (Raise _, st') => attr (self st') = attr (self st)
    end.

(** The assignment [d[k] = v] for a pair [(k, v)]. *)
Definition store (d : CommandResult.dict) (kv : option string * option string)
  : CommandResult.dict :=
  CommandResult.dict_set (fst kv) (snd kv) d.

(** * Example hosts

    Scripted hosts for the concrete runs below: a host that answers by
    the argument vector alone, from a table, and with the exit status 1
    to a command that the table does not list. *)

Definition completed (code : Z) (out : string) : Outcome :=
  Completed {| returncode := code; stdout := out; stderr := EmptyString |}.

Fixpoint same_argv (a b : list string) : bool :=
  match a, b with
  | [], [] => true
  | x :: a', y :: b' => (String.eqb x y && same_argv a' b')%bool
  | _, _ => false
  end.

Fixpoint answer (table : list (list string * Outcome)) (otherwise : Outcome)
         (cmd : list string) : Outcome :=
  match table with
  | [] => otherwise
  | (key, out) :: rest => if same_argv key cmd then out else answer rest otherwise cmd
  end.

Definition scripted (table : list (list string * Outcome)) (otherwise : Outcome) : Host :=
  fun _ c => answer table otherwise (argv c).

Definition world_of (h : Host) : World :=
  {| ADB_PATH := "adb"; FASTBOOT_PATH := "fastboot"; host := h; trace := [] |}.

(** A session object fresh from its constructor. *)
Definition fresh_on (cls : SessionClass) (table : list (list string * Outcome)) : State :=
  {| self := new_Session cls true;
     world := world_of (scripted table (completed 1 EmptyString)) |}.

(** A session of class [NeoADBSession] bound to the serial number
    [ABC123], with the attributes that [bind_serial] leaves on an
    unprivileged device of the family [hammerhead]. *)
Definition bound_session : Session :=
  with_device_name (Some "hammerhead")
    (with_device_serial (Some "ABC123") (new_Session NeoADBSession true)).

Definition bound_to (table : list (list string * Outcome)) : State :=
  {| self := bound_session; world := world_of (scripted table (completed 1 EmptyString)) |}.

Definition tab : string := String (ascii_of_nat 9) EmptyString.

(** The shell command [cmd] as the session bound to [ABC123] sends it. *)
Definition shell (cmd : list string) : list string :=
  (["adb"; "-s"; "ABC123"; "shell"] ++ cmd)%list.

(** A device that grants root and was booted in factory mode. *)
Definition factory_device : list (list string * Outcome) :=
  [(["adb"; "-s"; "ABC123"; "root"], completed 0 ("restarting adbd as root" ++ nl));
   (shell ["cat"; "/proc/cmdline"],
    completed 0 ("console=ttyMSM0 androidboot.factorytest=1 quiet" ++ nl))].

(** A device with SELinux enforcing that accepts every [setprop]. *)
Definition enforcing_device : list (list string * Outcome) :=
  [(shell ["getenforce"], completed 0 ("Enforcing" ++ nl));
   (shell ["setprop"; "ctl.start"; "captureengineservice"], completed 0 EmptyString);
   (shell ["setprop"; "ctl.start"; "vendor.camera-provider-2-7"], completed 0 EmptyString);
   (shell ["setprop"; "ctl.stop"; "captureengineservice"], completed 0 EmptyString);
   (shell ["setprop"; "ctl.stop"; "vendor.camera-provider-2-7"], completed 0 EmptyString)].

(** A host with no device attached, and one with a single device that is
    attached and ready. *)
Definition no_device : list (list string * Outcome) :=
  [(["adb"; "devices"], completed 0 ("List of devices attached" ++ nl ++ nl))].

Definition one_device : list (list string * Outcome) :=
  [(["adb"; "devices"],
    completed 0 ("List of devices attached" ++ nl
                 ++ "ABC123" ++ tab ++ "device" ++ nl ++ nl))].

(** A rooted, remounted device of the family [hammerhead] that reports a
    hardware revision for which [BoardType] has no member. *)
Definition unknown_board : list (list string * Outcome) :=
  [(shell ["id"; "-u"], completed 0 ("0" ++ nl));
   (shell ["mount"], completed 0 ("overlay on /system type overlay (rw,relatime)" ++ nl));
   (shell ["getprop"; "ro.product.device"], completed 0 ("hammerhead" ++ nl));
   (shell ["cat"; "/proc/cmdline"], completed 0 ("console=ttyMSM0 quiet" ++ nl));
   (shell ["getprop"; "ro.build.flavor"], completed 0 ("hammerhead-userdebug" ++ nl));
   (shell ["getprop"; "ro.build.fingerprint"], completed 0 ("hammerhead/13/eng" ++ nl));
   (shell ["uname"; "-a"], completed 0 ("Linux localhost 5.10.0 aarch64" ++ nl));
   (shell ["sha1sum"; golden_bin],
    completed 0 ("da39a3ee5e6b4b0d3255bfef95601890afd80709  " ++ golden_bin ++ nl));
   (shell ["stat"; "-c"; "%s"; golden_bin], completed 0 ("4096" ++ nl));
   (shell ["cat"; bt_file], completed 0 ("999" ++ nl))].

(** The same device under a name that [DeviceType] does not know. *)
Definition unknown_family : list (list string * Outcome) :=
  (shell ["getprop"; "ro.product.device"], completed 0 ("tigershark" ++ nl))
  :: unknown_board.

(** A bootloader that refuses the command to enable the factory mode. *)
Definition refusing_bootloader : list (list string * Outcome) :=
  [(["adb"; "-s"; "ABC123"; "reboot"; "bootloader"], completed 0 EmptyString);
   (["fastboot"; "-s"; "ABC123"; "oem"; "enable-factory-mode"],
    Completed {| returncode := 1; stdout := EmptyString;
                 stderr := "FAILED (remote: unknown command)" ++ nl |});
   (["fastboot"; "-s"; "ABC123"; "reboot"], completed 0 EmptyString);
   (["adb"; "-s"; "ABC123"; "wait-for-device"; "root"], completed 0 EmptyString)].

(** A host on which every command succeeds and prints nothing, and a
    privileged session on it whose vendor services are marked as
    disabled. *)
Definition agreeable : Host := fun _ _ => completed 0 EmptyString.

Definition capture_ready : State :=
  {| self := with_vendor_mcs_enabled false (with_root true bound_session);
     world := world_of agreeable |}.

(** An enforcing device that also accepts a video capture. *)
Definition capture_device : list (list string * Outcome) :=
  (shell ["camcapture"; "-c"; "0"; "-m"], completed 0 EmptyString) :: enforcing_device.

(** A device with root on which [/system] is not remounted. *)
Definition rooted_plain : list (list string * Outcome) :=
  [(shell ["id"; "-u"], completed 0 (" 0" ++ nl));
   (shell ["mount"], completed 0 ("/dev/block/dm-0 on / type ext4 (ro)" ++ nl));
   (shell ["getprop"; "ro.product.device"], completed 0 ("hammerhead" ++ nl))].

(** * Properties of the result assertions *)

Section StringFacts.

Lemma length_zero_iff (s : string) :
  Nat.eqb (String.length s) 0 = String.eqb s EmptyString.
Proof. destruct s; reflexivity. Qed.

Lemma splitlines_from_cons (c : ascii) (s : string) :
  splitlines_from false (String c s) <> [].
Proof.
  simpl. destruct (islinebreak c); [discriminate|].
  destruct (splitlines_from false s); discriminate.
Qed.

(** A text with something left after trimming has at least one line. *)
Lemma strip_nonempty_has_line (s : string) :
  String.eqb (strip s) EmptyString = false -> splitlines s <> [].
Proof.
  destruct s as [|c s]; [discriminate|].
  intros _. apply splitlines_from_cons.
Qed.

Lemma append_inv_head (p a b : string) : p ++ a = p ++ b -> a = b.
Proof.
  induction p as [|c p IH]; simpl; intros H; [exact H|].
  injection H as H. auto.
Qed.

Lemma append_assoc (a b c : string) : (a ++ b) ++ c = a ++ (b ++ c).
Proof. induction a as [|x a IH]; simpl; [reflexivity|now rewrite IH]. Qed.

End StringFacts.

Section Trimming.

Variable p : ascii -> bool.

Lemma lstrip_all (w : string) : all_chars p w = true -> lstrip_with p w = EmptyString.
Proof.
  induction w as [|c w IH]; simpl; [reflexivity|].
  intros H. apply andb_prop in H as [Hc Hw]. rewrite Hc. auto.
Qed.

Lemma rstrip_all (w : string) : all_chars p w = true -> rstrip_with p w = EmptyString.
Proof.
  induction w as [|c w IH]; simpl; [reflexivity|].
  intros H. apply andb_prop in H as [Hc Hw]. rewrite (IH Hw), Hc. reflexivity.
Qed.

(** Trimming on the right removes a tail of dropped characters and
    nothing of a text without any. *)
Lemma rstrip_kept_then_dropped (s w : string) :
  all_chars (kept p) s = true -> all_chars p w = true ->
  rstrip_with p (s ++ w) = s.
Proof.
  intros Hs Hw. induction s as [|c s IH]; simpl.
  - now apply rstrip_all.
  - simpl in Hs. apply andb_prop in Hs as [Hc Hs]. rewrite (IH Hs).
    unfold kept in Hc. apply negb_true_iff in Hc.
    destruct s; [now rewrite Hc | reflexivity].
Qed.

Lemma strip_kept_then_dropped (s w : string) :
  all_chars (kept p) s = true -> all_chars p w = true ->
  strip_with p (s ++ w) = s.
Proof.
  intros Hs Hw. unfold strip_with.
  destruct s as [|c s]; simpl.
  - now rewrite (lstrip_all w Hw).
  - pose proof Hs as Hs'. simpl in Hs'. apply andb_prop in Hs' as [Hc _].
    unfold kept in Hc. apply negb_true_iff in Hc. rewrite Hc.
    exact (rstrip_kept_then_dropped (String c s) w Hs Hw).
Qed.

Lemma rstrip_append_dropped (l w : string) :
  all_chars p w = true -> rstrip_with p (l ++ w) = rstrip_with p l.
Proof.
  intros Hw. induction l as [|c l IH]; simpl.
  - now apply rstrip_all.
  - now rewrite IH.
Qed.

(** Dropped characters at the end of a text do not change what trimming
    leaves of it. *)
Lemma strip_append_dropped (l w : string) :
  all_chars p w = true -> strip_with p (l ++ w) = strip_with p l.
Proof.
  intros Hw. unfold strip_with. induction l as [|c l IH]; simpl.
  - now rewrite (lstrip_all w Hw).
  - destruct (p c); [exact IH|].
    exact (rstrip_append_dropped (String c l) w Hw).
Qed.

End Trimming.

Section OneLine.

Lemma linebreak_is_space (c : ascii) : islinebreak c = true -> isspace c = true.
Proof. destruct c as [[] [] [] [] [] [] [] []]; vm_compute; congruence. Qed.

Lemma splitlines_from_nil (b : bool) (s : string) :
  splitlines_from b s = [] ->
  s = EmptyString \/ (b = true /\ s = String LF EmptyString).
Proof.
  destruct s as [|c s]; [auto|]. cbn [splitlines_from].
  destruct (b && Ascii.eqb c LF)%bool eqn:E.
  - apply andb_prop in E as [-> Hc]. apply Ascii.eqb_eq in Hc. subst c.
    destruct s as [|d s]; [auto|].
    intros H. now apply splitlines_from_cons in H.
  - destruct (islinebreak c); [discriminate|].
    destruct (splitlines_from false s); discriminate.
Qed.

(** A text of one line is that line followed by nothing but its line
    boundary; [after_cr] allows for the second half of a CR LF pair in
    front. *)
Lemma one_line_shape (s : string) :
  forall (b : bool) (l : string),
    splitlines_from b s = [l] ->
    exists w, all_chars isspace w = true
              /\ (s = l ++ w \/ (b = true /\ s = String LF (l ++ w))).
Proof.
  induction s as [|c s IH]; intros b l H; [discriminate|].
  cbn [splitlines_from] in H.
  destruct (b && Ascii.eqb c LF)%bool eqn:E.
  - apply andb_prop in E as [-> Hc]. apply Ascii.eqb_eq in Hc. subst c.
    destruct (IH false l H) as (w & Hw & [-> | [Hb _]]); [|discriminate].
    exists w. auto.
  - destruct (islinebreak c) eqn:Hc.
    + injection H as <- H. exists (String c s). split; [|auto].
      cbn [all_chars]. rewrite (linebreak_is_space c Hc).
      destruct (splitlines_from_nil _ _ H) as [-> | [_ ->]]; reflexivity.
    + destruct (splitlines_from false s) as [|l' ls] eqn:Hs.
      * injection H as <-. destruct (splitlines_from_nil _ _ Hs) as [-> | [Hb _]];
          [|discriminate].
        exists EmptyString. auto.
      * injection H as <- ->.
        destruct (IH false l' Hs) as (w & Hw & [-> | [Hb _]]); [|discriminate].
        exists w. auto.
Qed.

(** Trimming a text of one line is trimming that line. *)
Lemma strip_one_line (s l : string) : splitlines s = [l] -> strip s = strip l.
Proof.
  intros H. destruct (one_line_shape s false l H) as (w & Hw & [-> | [Hb _]]);
    [|discriminate].
  now apply strip_append_dropped.
Qed.

End OneLine.

Section AssertString.

(** [assert_string] in closed form: it returns the trimmed output exactly
    when the command succeeded, the output is one line, and that line is
    not blank; otherwise it raises [ADBAssertionError]. *)
Lemma assert_string_spec (r : CommandResult) :
  CommandResult.assert_string r =
  if (CommandResult.succeeded r
      && Nat.eqb (List.length (splitlines (stdout_of r))) 1
      && negb (String.eqb (strip (stdout_of r)) EmptyString))%bool
  then Ok (strip (stdout_of r))
  else raise ADBAssertionError
         (if CommandResult.succeeded r
          then CommandResult.not_single_string_message r
          else CommandResult.failure_message r).
Proof.
  unfold CommandResult.assert_string, CommandResult.assert_succeeded, stdout_of.
  destruct (CommandResult.succeeded r); simpl; [|reflexivity].
  rewrite length_zero_iff.
  destruct (String.eqb (strip (stdout (completed_proc r))) EmptyString) eqn:E; simpl.
  - now rewrite Bool.andb_false_r.
  - apply strip_nonempty_has_line in E.
    destruct (splitlines (stdout (completed_proc r))) as [|l [|l' ls]];
      [contradiction| reflexivity | reflexivity].
Qed.

(** C7. [assert_string] needs a successful command whose output is exactly
    one line that is not blank, and returns that line trimmed, which is
    the output trimmed: it is [abc] for the output [abc] followed by a
    newline, and the call fails for the empty output and for the two
    lines [a] and [b]. *)
Theorem assert_string_single_line :
  (forall r : CommandResult,
     CommandResult.assert_string r =
     if (CommandResult.succeeded r
         && Nat.eqb (List.length (splitlines (stdout_of r))) 1
         && negb (String.eqb (strip (stdout_of r)) EmptyString))%bool
     then Ok (strip (stdout_of r))
     else raise ADBAssertionError
            (if CommandResult.succeeded r
             then CommandResult.not_single_string_message r
             else CommandResult.failure_message r))
  /\ (forall (r : CommandResult) (v : string),
        CommandResult.assert_string r = Ok v ->
        CommandResult.succeeded r = true
        /\ v <> EmptyString
        /\ exists line, splitlines (stdout_of r) = [line] /\ v = strip line)
  /\ (forall cmd err,
        CommandResult.assert_string (result_of cmd 0 ("abc" ++ nl) err) = Ok "abc")
  /\ (forall cmd err,
        CommandResult.assert_string (result_of cmd 0 EmptyString err)
        = raise ADBAssertionError
            (CommandResult.not_single_string_message (result_of cmd 0 EmptyString err)))
  /\ (forall cmd err,
        CommandResult.assert_string (result_of cmd 0 ("a" ++ nl ++ "b" ++ nl) err)
        = raise ADBAssertionError
            (CommandResult.not_single_string_message
               (result_of cmd 0 ("a" ++ nl ++ "b" ++ nl) err))).
Proof.
  split; [exact assert_string_spec|]. split.
  - intros r v. rewrite assert_string_spec.
    destruct (CommandResult.succeeded r); [|discriminate]. cbn [andb].
    destruct (splitlines (stdout_of r)) as [|line [|l2 ls]] eqn:Hlines;
      try discriminate.
    cbn [List.length Nat.eqb andb].
    destruct (String.eqb (strip (stdout_of r)) EmptyString) eqn:Hblank;
      [discriminate|].
    intros H. injection H as <-.
    split; [reflexivity|]. split.
    + intros Hv. rewrite Hv in Hblank. discriminate.
    + exists line. split; [reflexivity|]. now apply strip_one_line.
  - repeat split; intros; reflexivity.
Qed.

(** C7 on the output [abc] between blanks, on a line of its own. *)
Lemma assert_string_single_line_witness :
  let r := result_of ["adb"; "shell"; "getprop"; "ro.product.device"] 0
             ("  abc " ++ nl) EmptyString in
  CommandResult.assert_string r = Ok "abc"
  /\ CommandResult.succeeded r = true
  /\ exists line, splitlines (stdout_of r) = [line] /\ "abc" = strip line.
Proof.
  intros r.
  assert (H : CommandResult.assert_string r = Ok "abc") by reflexivity.
  split; [exact H|].
  destruct (proj1 (proj2 assert_string_single_line) r "abc" H) as (Hs & _ & Hl).
  split; [exact Hs | exact Hl].
Defined.

End AssertString.

Section AssertInt.

(** The two messages of [assert_int] never coincide: after the common
    start one goes on with [a single string], the other with
    [an integer]. *)
Lemma not_integer_is_not_not_single (r : CommandResult) :
  CommandResult.not_integer_message r <> CommandResult.not_single_string_message r.
Proof.
  unfold CommandResult.not_integer_message, CommandResult.not_single_string_message.
  intros H. apply append_inv_head in H. apply append_inv_head in H.
  simpl in H. discriminate.
Qed.

(** What [assert_string] raises is never a [ValueError], so the handler of
    [assert_int] only ever sees the failure of [int]. *)
Lemma assert_int_spec (r : CommandResult) :
  CommandResult.assert_int r =
  match CommandResult.assert_string r with
  | Ok text =>
      match int_of_str text with
      | Some n => Ok n
      | None => raise ADBAssertionError (CommandResult.not_integer_message r)
      end
  | Raise e => Raise e
  end.
Proof.
  unfold CommandResult.assert_int. rewrite assert_string_spec.
  destruct (_ && _ && _)%bool; simpl; [|reflexivity].
  unfold CommandResult.int.
  destruct (int_of_str _); reflexivity.
Qed.

End AssertInt.

(** ** Decimal numerals: [int] undoes [str] *)

Section Decimal.

Lemma digits_from_numeral (d : Decimal.uint) (acc : Z) :
  digits_from acc true (NilEmpty.string_of_uint d) = Some (uint_value acc d).
Proof.
  revert acc. induction d; intros acc; simpl; try reflexivity; apply IHd.
Qed.

Lemma digits_from_numeral_start (d : Decimal.uint) :
  d <> Nil ->
  digits_from 0 false (NilEmpty.string_of_uint d) = Some (uint_value 0 d).
Proof.
  destruct d; intros H; try contradiction; simpl; apply digits_from_numeral.
Qed.

Lemma uint_value_acc (d : Decimal.uint) (a : positive) :
  uint_value (Z.pos a) d = Z.pos (Pos.of_uint_acc d a).
Proof.
  revert a. induction d; intros a; cbn [uint_value Pos.of_uint_acc];
    try reflexivity;
    match goal with
    | |- uint_value ?v _ = Z.pos (Pos.of_uint_acc _ ?q) =>
        replace v with (Z.pos q) by lia; apply IHd
    end.
Qed.

Lemma uint_value_of_uint (d : Decimal.uint) :
  uint_value 0 d = Z.of_N (Pos.of_uint d).
Proof.
  induction d; cbn [uint_value Pos.of_uint]; try reflexivity;
    try exact IHd; apply uint_value_acc.
Qed.

Lemma uint_value_to_uint (p : positive) : uint_value 0 (Pos.to_uint p) = Z.pos p.
Proof. rewrite uint_value_of_uint, Unsigned.of_to. reflexivity. Qed.

Lemma numeral_all_digits (d : Decimal.uint) :
  all_chars isdigit (NilEmpty.string_of_uint d) = true.
Proof. induction d; simpl; auto. Qed.

End Decimal.

(** ** The limit on the number of digits *)

Section Limit.

Lemma digit_run_digits (s : string) :
  all_chars isdigit s = true ->
  forall k, digit_run false k s = Some (k + String.length s)%nat.
Proof.
  induction s as [|c s IH]; intros H k; cbn [digit_run String.length].
  - now rewrite Nat.add_0_r.
  - cbn [all_chars] in H. apply andb_prop in H as [Hc Hs].
    rewrite Hc, (IH Hs). f_equal. lia.
Qed.

Lemma digit_no_underscore (c : ascii) :
  isdigit c = true -> Ascii.eqb c (ascii_of_nat 95) = false.
Proof. destruct c as [[] [] [] [] [] [] [] []]; vm_compute; congruence. Qed.

Lemma refused_digits_numeral (c : ascii) (s : string) :
  all_chars isdigit (String c s) = true ->
  refused_digits (String c s)
  = if Nat.ltb max_str_digits (String.length (String c s))
    then Some (String.length (String c s)) else None.
Proof.
  intros H. unfold refused_digits. rewrite (digit_run_digits _ H).
  cbn [all_chars] in H. apply andb_prop in H as [Hc _].
  now rewrite (digit_no_underscore c Hc).
Qed.

Lemma string_of_uint_length (d : Decimal.uint) :
  String.length (NilEmpty.string_of_uint d) = nb_digits d.
Proof. induction d; cbn [NilEmpty.string_of_uint String.length nb_digits]; congruence. Qed.

Lemma uint_value_lower (d : Decimal.uint) :
  forall acc, 0 <= acc -> acc * 10 ^ Z.of_nat (nb_digits d) <= uint_value acc d.
Proof.
  induction d; intros acc Hacc; cbn [uint_value nb_digits];
    try (rewrite Z.pow_0_r; lia);
    rewrite Nat2Z.inj_succ, Z.pow_succ_r by lia;
    (etransitivity; [|apply IHd; lia]);
    pose proof (Z.pow_nonneg 10 (Z.of_nat (nb_digits d)) ltac:(lia)); nia.
Qed.

Lemma uint_value_upper (d : Decimal.uint) :
  forall acc, 0 <= acc -> uint_value acc d < (acc + 1) * 10 ^ Z.of_nat (nb_digits d).
Proof.
  induction d; intros acc Hacc; cbn [uint_value nb_digits];
    try (rewrite Z.pow_0_r; lia);
    rewrite Nat2Z.inj_succ, Z.pow_succ_r by lia;
    (eapply Z.lt_le_trans; [apply IHd; lia|]);
    pose proof (Z.pow_nonneg 10 (Z.of_nat (nb_digits d)) ltac:(lia)); nia.
Qed.

Lemma to_uint_normal (p : positive) : unorm (Pos.to_uint p) = Pos.to_uint p.
Proof.
  rewrite <- (DecimalPos.Unsigned.to_of (Pos.to_uint p)).
  now rewrite DecimalPos.Unsigned.of_to.
Qed.

Lemma to_uint_head (p : positive) : nzhead (Pos.to_uint p) = Pos.to_uint p.
Proof.
  rewrite <- (to_uint_normal p) at 2. symmetry. apply DecimalFacts.unorm_nzhead.
  intros H. apply DecimalFacts.unorm_0 in H. rewrite to_uint_normal in H.
  now apply (Unsigned.to_uint_nonzero p).
Qed.

(** A numeral without a leading zero is at least the power of ten of its
    length less one. *)
Lemma uint_value_head (d : Decimal.uint) :
  d <> Nil -> nzhead d = d ->
  10 ^ (Z.of_nat (nb_digits d) - 1) <= uint_value 0 d.
Proof.
  intros Hnil Hhead.
  destruct d; try contradiction; cbn [uint_value nb_digits];
    rewrite Nat2Z.inj_succ;
    replace (Z.succ (Z.of_nat (nb_digits d)) - 1) with (Z.of_nat (nb_digits d)) by lia;
    try (etransitivity; [|apply uint_value_lower; lia]; lia).
  exfalso. cbn [nzhead] in Hhead.
  pose proof (DecimalFacts.nb_digits_nzhead d) as H. rewrite Hhead in H. cbn [nb_digits] in H. lia.
Qed.

(** The numeral of [p] has at most [m] digits exactly when [p] is below
    the [m]-th power of ten. *)
Lemma to_uint_digits (p : positive) (m : nat) :
  (nb_digits (Pos.to_uint p) <= m)%nat <-> Z.pos p < 10 ^ Z.of_nat m.
Proof.
  rewrite <- (uint_value_to_uint p). split.
  - intros H. eapply Z.lt_le_trans; [apply uint_value_upper; lia|].
    rewrite Z.mul_1_l. apply Z.pow_le_mono_r; lia.
  - intros H.
    pose proof (uint_value_head _ (Unsigned.to_uint_nonnil p) (to_uint_head p)) as Hl.
    destruct (le_lt_dec (nb_digits (Pos.to_uint p)) m) as [Hle|Hgt]; [exact Hle|].
    exfalso.
    assert (10 ^ Z.of_nat m <= 10 ^ (Z.of_nat (nb_digits (Pos.to_uint p)) - 1))
      by (apply Z.pow_le_mono_r; lia).
    lia.
Qed.

End Limit.

Section Numerals.

Lemma all_chars_impl (f g : ascii -> bool) (s : string) :
  (forall c, f c = true -> g c = true) ->
  all_chars f s = true -> all_chars g s = true.
Proof.
  intros Hfg. induction s as [|c s IH]; simpl; [reflexivity|].
  intros H. apply andb_prop in H as [Hc Hs]. now rewrite (Hfg c Hc), IH.
Qed.

Lemma append_empty (s : string) : s ++ EmptyString = s.
Proof. induction s as [|c s IH]; simpl; [reflexivity | now rewrite IH]. Qed.

Lemma digit_kept_by_strip (c : ascii) : isdigit c = true -> kept isspace c = true.
Proof. destruct c as [[] [] [] [] [] [] [] []]; vm_compute; congruence. Qed.

Lemma digit_kept_by_int (c : ascii) : isdigit c = true -> kept isspace_int c = true.
Proof. destruct c as [[] [] [] [] [] [] [] []]; vm_compute; congruence. Qed.

Lemma digit_no_linebreak (c : ascii) : isdigit c = true -> islinebreak c = false.
Proof. destruct c as [[] [] [] [] [] [] [] []]; vm_compute; congruence. Qed.

Lemma digit_no_sign (c : ascii) :
  isdigit c = true ->
  Ascii.eqb c (ascii_of_nat 45) = false /\ Ascii.eqb c (ascii_of_nat 43) = false.
Proof. destruct c as [[] [] [] [] [] [] [] []]; vm_compute; intuition congruence. Qed.

(** A run of digits followed by a newline is one line. *)
Lemma splitlines_digits (c : ascii) (s : string) :
  all_chars isdigit (String c s) = true ->
  splitlines (String c s ++ nl) = [String c s].
Proof.
  unfold splitlines. revert c. induction s as [|d s IH]; intros c H.
  - simpl in H. rewrite Bool.andb_true_r in H.
    simpl. now rewrite (digit_no_linebreak c H).
  - simpl in H. apply andb_prop in H as [Hc Hs].
    change (String c (String d s) ++ nl) with (String c (String d s ++ nl)).
    cbn [splitlines_from andb]. rewrite (digit_no_linebreak c Hc).
    now rewrite (IH d Hs).
Qed.

(** The decimal numeral of an integer: an optional minus sign and a run
    of digits that is not empty, and that has at most [m] digits exactly
    when the integer is below the [m]-th power of ten in absolute
    value. *)
Lemma str_of_int_shape (n : Z) :
  exists (sign : bool) (c : ascii) (s : string),
    str_of_int n = (if sign then String (ascii_of_nat 45) (String c s) else String c s)
    /\ all_chars isdigit (String c s) = true
    /\ digits_from 0 false (String c s) = Some (Z.abs n)
    /\ sign = (n <? 0)
    /\ (forall m,
          (1 <= m)%nat ->
          (String.length (String c s) <= m)%nat <-> Z.abs n < 10 ^ Z.of_nat m).
Proof.
  assert (Hnum : forall q, exists c s,
             NilZero.string_of_uint (Pos.to_uint q) = String c s
             /\ all_chars isdigit (String c s) = true
             /\ digits_from 0 false (String c s) = Some (Z.pos q)
             /\ (forall m,
                   (String.length (String c s) <= m)%nat <-> Z.pos q < 10 ^ Z.of_nat m)).
  { intros q. pose proof (Unsigned.to_uint_nonnil q) as Hnil.
    pose proof (numeral_all_digits (Pos.to_uint q)) as Hall.
    pose proof (digits_from_numeral_start (Pos.to_uint q) Hnil) as Hval.
    pose proof (string_of_uint_length (Pos.to_uint q)) as Hlen.
    rewrite uint_value_to_uint in Hval.
    assert (Heq : NilZero.string_of_uint (Pos.to_uint q)
                  = NilEmpty.string_of_uint (Pos.to_uint q))
      by (destruct (Pos.to_uint q); [contradiction | reflexivity ..]).
    rewrite Heq.
    destruct (NilEmpty.string_of_uint (Pos.to_uint q)) as [|c s] eqn:E.
    - destruct (Pos.to_uint q); try contradiction; discriminate.
    - exists c, s. repeat split; auto; rewrite Hlen; apply to_uint_digits. }
  destruct n as [|q|q].
  - exists false, (ascii_of_nat 48), EmptyString.
    split; [reflexivity|]. split; [reflexivity|]. split; [reflexivity|].
    split; [reflexivity|]. intros m Hm. cbn [String.length Z.abs]. split; intros _.
    + apply Z.pow_pos_nonneg; lia.
    + exact Hm.
  - destruct (Hnum q) as (c & s & E & Hall & Hval & Hlen).
    exists false, c, s. unfold str_of_int. simpl. rewrite E.
    repeat split; auto; apply Hlen.
  - destruct (Hnum q) as (c & s & E & Hall & Hval & Hlen).
    exists true, c, s. unfold str_of_int. simpl.
    change (NilZero.string_of_int (Neg (Pos.to_uint q)))
      with (String (ascii_of_nat 45) (NilZero.string_of_uint (Pos.to_uint q))).
    rewrite E. repeat split; auto; apply Hlen.
Qed.

End Numerals.

Section RoundTrip.

Lemma minus_then_digits (f : ascii -> bool) (c : ascii) (s : string) :
  f (ascii_of_nat 45) = true ->
  (forall x, isdigit x = true -> f x = true) ->
  all_chars isdigit (String c s) = true ->
  forall sign : bool,
    all_chars f (if sign then String (ascii_of_nat 45) (String c s) else String c s) = true.
Proof.
  intros Hminus Hdigit Hall sign.
  pose proof (all_chars_impl isdigit f (String c s) Hdigit Hall) as H.
  destruct sign; [|exact H].
  change (f (ascii_of_nat 45) && all_chars f (String c s) = true)%bool.
  now rewrite Hminus, H.
Qed.

Lemma limit_positive : (1 <= max_str_digits)%nat.
Proof. apply Nat.leb_le. reflexivity. Qed.

(** [int] on a numeral as [str] writes it, with or without its sign. *)
Lemma int_of_str_numeral (sign : bool) (c : ascii) (s : string) :
  all_chars isdigit (String c s) = true ->
  int_of_str (if sign then String (ascii_of_nat 45) (String c s) else String c s)
  = option_map (if sign then Z.opp else fun v => v) (unsigned_of_str (String c s)).
Proof.
  intros Hall. unfold int_of_str.
  rewrite <- (append_empty (if sign then _ else _)).
  rewrite strip_kept_then_dropped;
    [| apply minus_then_digits; [reflexivity | exact digit_kept_by_int | exact Hall]
     | reflexivity].
  destruct sign.
  - now rewrite Ascii.eqb_refl.
  - pose proof Hall as Hc. simpl in Hc. apply andb_prop in Hc as [Hc _].
    destruct (digit_no_sign c Hc) as [H1 H2]. rewrite H1, H2.
    now destruct (unsigned_of_str _).
Qed.

(** [int(str(n)) == n] for an integer of at most 4300 digits. *)
Lemma int_of_str_of_int (n : Z) :
  Z.abs n < 10 ^ Z.of_nat max_str_digits ->
  int_of_str (str_of_int n) = Some n.
Proof.
  intros Hn.
  destruct (str_of_int_shape n) as (sign & c & s & E & Hall & Hval & Hsign & Hlen).
  rewrite E, (int_of_str_numeral sign c s Hall).
  unfold unsigned_of_str. rewrite (refused_digits_numeral c s Hall).
  apply (Hlen max_str_digits limit_positive) in Hn.
  apply Nat.leb_le in Hn. rewrite Nat.ltb_antisym, Hn. cbn [negb]. rewrite Hval.
  destruct sign; cbn [option_map]; f_equal.
  - symmetry in Hsign. apply Z.ltb_lt in Hsign. lia.
  - symmetry in Hsign. apply Z.ltb_ge in Hsign. lia.
Qed.

(** [int(str(n))] raises for an integer of more than 4300 digits. *)
Lemma int_of_str_of_long_int (n : Z) :
  10 ^ Z.of_nat max_str_digits <= Z.abs n ->
  int_of_str (str_of_int n) = None.
Proof.
  intros Hn.
  destruct (str_of_int_shape n) as (sign & c & s & E & Hall & _ & _ & Hlen).
  rewrite E, (int_of_str_numeral sign c s Hall).
  unfold unsigned_of_str. rewrite (refused_digits_numeral c s Hall).
  destruct (Nat.ltb max_str_digits (String.length (String c s))) eqn:Hl.
  - now destruct sign.
  - apply Nat.ltb_ge in Hl. apply (Hlen max_str_digits limit_positive) in Hl. lia.
Qed.

Lemma strip_str_of_int_line (n : Z) : strip (str_of_int n ++ nl) = str_of_int n.
Proof.
  destruct (str_of_int_shape n) as (sign & c & s & E & Hall & _ & _).
  rewrite E. unfold strip. apply strip_kept_then_dropped; [|reflexivity].
  apply minus_then_digits; [reflexivity | exact digit_kept_by_strip | exact Hall].
Qed.

Lemma splitlines_str_of_int_line (n : Z) :
  splitlines (str_of_int n ++ nl) = [str_of_int n].
Proof.
  destruct (str_of_int_shape n) as (sign & c & s & E & Hall & _ & _).
  rewrite E. destruct sign; [|now apply splitlines_digits].
  pose proof (splitlines_digits c s Hall) as H. unfold splitlines in *.
  change (String (ascii_of_nat 45) (String c s) ++ nl)
    with (String (ascii_of_nat 45) (String c s ++ nl)).
  cbn [splitlines_from andb].
  change (islinebreak (ascii_of_nat 45)) with false. cbv iota.
  now rewrite H.
Qed.

End RoundTrip.

(** C8. [assert_int] reads the value that [assert_string] returns as a
    decimal integer: it returns [n] for the numeral of any integer [n] of
    at most 4300 digits on a line of its own, in particular [0] for the
    output [0]; where [assert_string] fails it fails the same way, and
    where [int] does not accept the value, as for the output [root] or
    for a numeral of more than 4300 digits, it fails with a message of
    its own that is never the message of [assert_string]. *)
Theorem assert_int_parses_decimal :
  (forall r : CommandResult,
     CommandResult.assert_int r =
     match CommandResult.assert_string r with
     | Ok text =>
         match int_of_str text with
         | Some n => Ok n
         | None => raise ADBAssertionError (CommandResult.not_integer_message r)
         end
     | Raise e => Raise e
     end)
  /\ (forall cmd err n,
        Z.abs n < 10 ^ Z.of_nat max_str_digits ->
        CommandResult.assert_int (result_of cmd 0 (str_of_int n ++ nl) err) = Ok n)
  /\ (forall cmd err n,
        10 ^ Z.of_nat max_str_digits <= Z.abs n ->
        CommandResult.assert_int (result_of cmd 0 (str_of_int n ++ nl) err)
        = raise ADBAssertionError
            (CommandResult.not_integer_message
               (result_of cmd 0 (str_of_int n ++ nl) err)))
  /\ (forall cmd err,
        CommandResult.assert_int (result_of cmd 0 ("0" ++ nl) err) = Ok 0)
  /\ (forall cmd err,
        CommandResult.assert_int (result_of cmd 0 ("root" ++ nl) err)
        = raise ADBAssertionError
            (CommandResult.not_integer_message (result_of cmd 0 ("root" ++ nl) err)))
  /\ (forall r : CommandResult,
        CommandResult.not_integer_message r
        <> CommandResult.not_single_string_message r).
Proof.
  assert (Hline : forall cmd err n,
             CommandResult.assert_string (result_of cmd 0 (str_of_int n ++ nl) err)
             = Ok (str_of_int n)).
  { intros cmd err n. rewrite assert_string_spec.
    unfold stdout_of. cbn [result_of new_CommandResult completed_proc stdout].
    change (CommandResult.succeeded (result_of cmd 0 (str_of_int n ++ nl) err)) with true.
    rewrite splitlines_str_of_int_line, strip_str_of_int_line.
    destruct (str_of_int_shape n) as (sign & c & s & E & _).
    assert (Hne : String.eqb (str_of_int n) EmptyString = false)
      by (rewrite E; destruct sign; reflexivity).
    now rewrite Hne. }
  split; [exact assert_int_spec|].
  split.
  { intros cmd err n Hn. rewrite assert_int_spec, Hline.
    now rewrite (int_of_str_of_int n Hn). }
  split.
  { intros cmd err n Hn. rewrite assert_int_spec, Hline.
    now rewrite (int_of_str_of_long_int n Hn). }
  split; [intros; reflexivity|].
  split; [intros; reflexivity|].
  exact not_integer_is_not_not_single.
Qed.

(** C8 on the revision 160, and on the first integer of 4301 digits. *)
Lemma assert_int_parses_decimal_witness :
  CommandResult.assert_int (result_of ["cat"] 0 ("160" ++ nl) EmptyString) = Ok 160
  /\ exists msg,
       CommandResult.assert_int
         (result_of ["cat"] 0 (str_of_int (10 ^ 4300) ++ nl) EmptyString)
       = raise ADBAssertionError msg.
Proof.
  split.
  - exact (proj1 (proj2 assert_int_parses_decimal) ["cat"] EmptyString 160 eq_refl).
  - eexists.
    refine (proj1 (proj2 (proj2 assert_int_parses_decimal))
              ["cat"] EmptyString (10 ^ 4300) _).
    vm_compute. discriminate.
Defined.

(** ** JSON assertions *)

Section AssertJson.

(** [assert_json] in closed form.  The exit status of the command does
    not occur in it. *)
Lemma assert_json_spec (r : CommandResult) :
  CommandResult.assert_json r =
  match Json.loads (stdout_of r) with
  | Ok data => Ok (set_json_data r data)
  | Raise e =>
      if PyExc_eqb (exc_type e) JSONDecodeError
      then raise ADBAssertionError (CommandResult.invalid_json_message r (exc_msg e))
      else Raise e
  end.
Proof.
  unfold CommandResult.assert_json, stdout_of.
  destruct (Json.loads (stdout (completed_proc r))) as [data|[cls msg]]; simpl;
    [reflexivity|].
  destruct cls; reflexivity.
Qed.

(** The decoder raises nothing but [JSONDecodeError], apart from the
    marker for texts outside the model. *)
Lemma loads_raises (text : string) (e : exn) :
  Json.loads text = Raise e ->
  exc_type e = JSONDecodeError \/ exc_type e = OutsideModel.
Proof.
  unfold Json.loads.
  destruct (Json.scan_once _ _ _) as [v rest| m |]; [destruct (Json.skip_ws rest)| |];
    intros H; try discriminate; injection H as <-; auto.
Qed.

Lemma invalid_json_is_not_not_success (r : CommandResult) (msg : string) :
  CommandResult.invalid_json_message r msg <> NeoCommandResult.not_success_message r.
Proof.
  unfold CommandResult.invalid_json_message, NeoCommandResult.not_success_message.
  intros H. apply append_inv_head in H. apply append_inv_head in H.
  simpl in H. discriminate.
Qed.

Lemma invalid_json_is_not_failure (r : CommandResult) (msg : string) :
  CommandResult.invalid_json_message r msg <> CommandResult.failure_message r.
Proof.
  unfold CommandResult.invalid_json_message, CommandResult.failure_message.
  destruct (CommandResult.succeeded r); simpl; discriminate.
Qed.

Lemma invalid_json_is_not_not_single (r : CommandResult) (msg : string) :
  CommandResult.invalid_json_message r msg <> CommandResult.not_single_string_message r.
Proof.
  unfold CommandResult.invalid_json_message, CommandResult.not_single_string_message.
  intros H. apply append_inv_head in H. apply append_inv_head in H.
  simpl in H. discriminate.
Qed.

End AssertJson.

(** [assert_json] on a command that failed with exit status 1 and printed
    an empty JSON object: the call returns, with the object stored. *)
Lemma assert_json_on_failed_command :
  let r := result_of ["adb"; "shell"; "mfg"; "led"] 1 "{}" EmptyString in
  CommandResult.succeeded r = false
  /\ CommandResult.assert_json r = Ok (set_json_data r (Json.Object [])).
Proof. split; reflexivity. Qed.

(** C2, amended. [assert_json] does not look at the exit status: it
    decodes the standard output and stores the value on the result
    object, whatever the status and the standard error were; when the
    decoder rejects the output it raises [ADBAssertionError] with a
    message that ends in the decoder's own and that differs from the
    messages of the other assertions on the same result. *)
Theorem assert_json_parses_stdout :
  (forall r : CommandResult,
     CommandResult.assert_json r =
     match Json.loads (stdout_of r) with
     | Ok data => Ok (set_json_data r data)
     | Raise e =>
         if PyExc_eqb (exc_type e) JSONDecodeError
         then raise ADBAssertionError (CommandResult.invalid_json_message r (exc_msg e))
         else Raise e
     end)
  /\ (forall cmd code code' out err err',
        match CommandResult.assert_json (result_of cmd code out err),
              CommandResult.assert_json (result_of cmd code' out err') with
        | Ok a, Ok b => json_data a = json_data b /\ json_data a <> None
        | Raise e, Raise e' => e = e'
        | _, _ => False
        end)
  /\ (forall r msg, exists before,
        CommandResult.invalid_json_message r msg = before ++ msg)
  /\ (forall r msg,
        CommandResult.invalid_json_message r msg <> CommandResult.failure_message r
        /\ CommandResult.invalid_json_message r msg
           <> CommandResult.not_single_string_message r
        /\ CommandResult.invalid_json_message r msg
           <> NeoCommandResult.not_success_message r).
Proof.
  split; [exact assert_json_spec|]. split; [|split].
  - intros cmd code code' out err err'. rewrite !assert_json_spec.
    unfold stdout_of. cbn [result_of new_CommandResult completed_proc stdout].
    destruct (Json.loads out) as [data|e]; [split; [reflexivity|discriminate]|].
    destruct (PyExc_eqb (exc_type e) JSONDecodeError); reflexivity.
  - intros r msg.
    exists ("FAILED: '" ++ CommandResult.command_str r
            ++ "' stdout was supposed to contain valid json, but didn't." ++ nl
            ++ "STDOUT was:" ++ nl ++ stdout (completed_proc r)
            ++ ".  Decoding error was: ").
    unfold CommandResult.invalid_json_message. now rewrite !append_assoc.
  - intros r msg. repeat split.
    + apply invalid_json_is_not_failure.
    + apply invalid_json_is_not_not_single.
    + apply invalid_json_is_not_not_success.
Qed.

(** C5. For a command that succeeded, [assert_mfg_succeeded] returns when
    the output is the object whose [status] is [Success]; for the status
    [Fail] it raises an error whose message ends with that very output;
    and for an output that the decoder rejects it raises the error of
    [assert_json], whose message is not the one about the status. *)
Theorem assert_mfg_succeeded_cases :
  (forall cmd err,
     returned (NeoCommandResult.assert_mfg_succeeded
                 (result_of cmd 0 (dq "{'status':'Success'}") err)))
  /\ (forall cmd err,
        NeoCommandResult.assert_mfg_succeeded
          (result_of cmd 0 (dq "{'status':'Fail'}") err)
        = raise ADBAssertionError
            ("FAILED: '" ++ join " " cmd ++ "' didn't report 'Success', JSON:" ++ nl
             ++ dq "{'status':'Fail'}"))
  /\ (forall cmd err out msg,
        Json.loads out = raise JSONDecodeError msg ->
        NeoCommandResult.assert_mfg_succeeded (result_of cmd 0 out err)
        = raise ADBAssertionError
            (CommandResult.invalid_json_message (result_of cmd 0 out err) msg))
  /\ (forall r msg,
        CommandResult.invalid_json_message r msg
        <> NeoCommandResult.not_success_message r).
Proof.
  split; [|split; [|split]].
  - intros cmd err. eexists. reflexivity.
  - intros cmd err. reflexivity.
  - intros cmd err out msg H.
    unfold NeoCommandResult.assert_mfg_succeeded.
    change (CommandResult.assert_succeeded (result_of cmd 0 out err)) with (Ok tt).
    cbn [rbind]. rewrite assert_json_spec. unfold stdout_of.
    cbn [result_of new_CommandResult completed_proc stdout]. rewrite H.
    reflexivity.
  - exact invalid_json_is_not_not_success.
Qed.

(** The third case of C5 on the output [not json]. *)
Lemma assert_mfg_succeeded_cases_witness :
  let r := result_of ["adb"; "-s"; "ABC123"; "shell"; "mfg"; "led"; "probe"] 0
             "not json" EmptyString in
  Json.loads "not json" = raise JSONDecodeError "Expecting value"
  /\ NeoCommandResult.assert_mfg_succeeded r
     = raise ADBAssertionError (CommandResult.invalid_json_message r "Expecting value").
Proof.
  split; [reflexivity|].
  apply (proj1 (proj2 (proj2 assert_mfg_succeeded_cases))). reflexivity.
Defined.

(** ** Searching the output *)

Section Search.

(** Whatever the matcher returns, its continuation returned. *)
Lemma run_result (R : Type) (r : Re.regex) :
  forall prev s cs (k : Re.cont R) x,
    Re.run R r prev s cs k = Some x ->
    exists prev' s' cs', k prev' s' cs' = Some x.
Proof.
  induction r as [|p| | |r1 IH1 r2 IH2|r1 IH1 r2 IH2|r1 IH1|i r1 IH1];
    intros prev s cs k x H; simpl in H.
  - eauto.
  - destruct s as [|c s]; [discriminate|]. destruct (p c); [eauto|discriminate].
  - destruct (Re.at_line_start prev); [eauto|discriminate].
  - destruct (Re.at_line_end s); [eauto|discriminate].
  - apply IH1 in H as (prev1 & s1 & cs1 & H). eapply IH2; eauto.
  - destruct (Re.run R r1 prev s cs k) eqn:E.
    + injection H as <-. eapply IH1; eauto.
    + eapply IH2; eauto.
  - set (fuel := String.length s) in H. clearbody fuel.
    revert prev s cs H.
    induction fuel as [|fuel IHf]; intros prev s cs H.
    + eauto.
    + match type of H with
      | match ?m with _ => _ end = _ => destruct m eqn:E
      end.
      * injection H as <-. apply IH1 in E as (prev1 & s1 & cs1 & E).
        destruct (Nat.ltb _ _); [|discriminate]. eapply IHf; eauto.
      * eauto.
  - apply IH1 in H as (prev1 & s1 & cs1 & H). eauto.
Qed.

(** A match object carries the number of groups of its pattern. *)
Lemma scan_groups (r : Re.regex) (n : nat) :
  forall s prev m, Re.scan r n prev s = Some m -> Re.m_groups m = n.
Proof.
  assert (Hat : forall prev s m, Re.match_at r n prev s = Some m -> Re.m_groups m = n).
  { intros prev s m H. unfold Re.match_at in H.
    apply run_result in H as (prev' & s' & cs' & H). now injection H as <-. }
  induction s as [|c s IH]; intros prev m H; simpl in H.
  - destruct (Re.match_at r n prev EmptyString) eqn:E; [|discriminate].
    injection H as <-. eauto.
  - destruct (Re.match_at r n prev (String c s)) eqn:E.
    + injection H as <-. eauto.
    + eauto.
Qed.

Lemma search_compiled (pattern text : string) (p : Re.Pattern) :
  Re.compile pattern = Re.Compiled p ->
  Re.search pattern text = Ok (Re.scan (Re.tree p) (Re.groups p) None text).
Proof. intros H. unfold Re.search. now rewrite H. Qed.

Lemma first_group_of_match (p : Re.Pattern) (text : string) (m : Re.Match) :
  (1 <= Re.groups p)%nat ->
  Re.scan (Re.tree p) (Re.groups p) None text = Some m ->
  CommandResult.first_group (Some m) = Ok (Some (first_group_text m)).
Proof.
  intros Hg Hm. apply scan_groups in Hm.
  unfold CommandResult.first_group, Re.group. rewrite Hm.
  destruct (Re.groups p) as [|g]; [lia|]. reflexivity.
Qed.

End Search.

(** [search] with a pattern that has no group, on an output that the
    pattern matches: the call raises [IndexError]. *)
Lemma search_without_group_raises :
  CommandResult.search (result_of ["adb"; "devices"] 0 "abc" EmptyString) "abc"
  = raise IndexError "no such group".
Proof. reflexivity. Qed.

(** C9, amended. For a pattern that compiles: where it matches nowhere in
    the output, [search] returns [None] and [assert_search] raises
    [ADBAssertionError]; and if the pattern has a capture group, [search]
    never raises: for the leftmost match it returns the text of the first
    group, which [assert_search] returns as well.  [stderr_search] does
    the same on the standard error. *)
Theorem search_returns_first_group :
  forall (r : CommandResult) (pattern : string) (p : Re.Pattern),
    Re.compile pattern = Re.Compiled p ->
    (Re.scan (Re.tree p) (Re.groups p) None (stdout_of r) = None ->
     CommandResult.search r pattern = Ok None
     /\ CommandResult.assert_search r pattern
        = raise ADBAssertionError (CommandResult.no_match_message r pattern))
    /\ (Re.scan (Re.tree p) (Re.groups p) None (stderr (completed_proc r)) = None ->
        CommandResult.stderr_search r pattern = Ok None)
    /\ ((1 <= Re.groups p)%nat ->
        returned (CommandResult.search r pattern)
        /\ returned (CommandResult.stderr_search r pattern)
        /\ (forall m,
              Re.scan (Re.tree p) (Re.groups p) None (stdout_of r) = Some m ->
              CommandResult.search r pattern = Ok (Some (first_group_text m))
              /\ CommandResult.assert_search r pattern = Ok (first_group_text m))
        /\ (forall m,
              Re.scan (Re.tree p) (Re.groups p) None (stderr (completed_proc r)) = Some m ->
              CommandResult.stderr_search r pattern = Ok (Some (first_group_text m)))).
Proof.
  intros r pattern p Hc.
  unfold CommandResult.assert_search, CommandResult.search,
    CommandResult.stderr_search, stdout_of.
  rewrite !(search_compiled pattern _ p Hc). cbn [rbind].
  split; [|split].
  - intros ->. split; reflexivity.
  - intros ->. reflexivity.
  - intros Hg. split; [|split; [|split]].
    + destruct (Re.scan _ _ _ (stdout _)) as [m|] eqn:E; [|eexists; reflexivity].
      rewrite (first_group_of_match p _ m Hg E). eexists; reflexivity.
    + destruct (Re.scan _ _ _ (stderr _)) as [m|] eqn:E; [|eexists; reflexivity].
      rewrite (first_group_of_match p _ m Hg E). eexists; reflexivity.
    + intros m H. rewrite H, (first_group_of_match p _ m Hg H).
      split; reflexivity.
    + intros m H. rewrite H, (first_group_of_match p _ m Hg H). reflexivity.
Qed.

(** C9 on the listing of one attached device, searched with the pattern
    of [bind_with_first_device]. *)
Lemma search_returns_first_group_witness :
  let listing := "List of devices attached" ++ nl
                 ++ "ABC123" ++ tab ++ "device" ++ nl in
  let r := result_of ["adb"; "devices"] 0 listing EmptyString in
  let pattern := "^(\w+)\s+device" in
  Re.compile pattern = Re.Compiled (compiled_pattern pattern)
  /\ (1 <= Re.groups (compiled_pattern pattern))%nat
  /\ CommandResult.search r pattern = Ok (Some "ABC123")
  /\ CommandResult.assert_search r pattern = Ok "ABC123".
Proof.
  intros listing r pattern.
  assert (Hc : Re.compile pattern = Re.Compiled (compiled_pattern pattern))
    by reflexivity.
  assert (Hg : (1 <= Re.groups (compiled_pattern pattern))%nat)
    by (vm_compute; lia).
  split; [exact Hc|]. split; [exact Hg|].
  destruct (search_returns_first_group r pattern _ Hc) as (_ & _ & H).
  destruct (H Hg) as (_ & _ & Hm & _).
  destruct (Re.scan (Re.tree (compiled_pattern pattern))
              (Re.groups (compiled_pattern pattern)) None (stdout_of r))
    as [m|] eqn:E; [|discriminate E].
  destruct (Hm m eq_refl) as [H1 H2].
  assert (Ht : first_group_text m = "ABC123").
  { assert (Hs : Some m = Re.scan (Re.tree (compiled_pattern pattern))
              (Re.groups (compiled_pattern pattern)) None (stdout_of r))
      by (symmetry; exact E).
    vm_compute in Hs. injection Hs as ->. reflexivity. }
  rewrite H1, H2, Ht. split; reflexivity.
Defined.

(** * Properties of the session *)

Section Transport.

Lemma bind_ok {A B} (m : Py A) (f : A -> Py B) (st st' : State) (a : A) :
  m st = (Ok a, st') -> bind m f st = f a st'.
Proof. intros H. unfold bind. now rewrite H. Qed.

Lemma bind_raise {A B} (m : Py A) (f : A -> Py B) (st st' : State) (e : exn) :
  m st = (Raise e, st') -> bind m f st = (Raise e, st').
Proof. intros H. unfold bind. now rewrite H. Qed.

(** A bound session makes exactly the call [adb -s serial cmd...]. *)
Lemma run_command_bound (cmd : list string) (t : Z) (st : State) (ser : string) :
  device_serial (self st) = Some ser ->
  run_command cmd t st =
  (match reply (adb_call st ser cmd t) st with
   | Completed cp => Ok (new_CommandResult (argv (adb_call st ser cmd t)) cp)
   | Expired => raise TimeoutExpired (join " " (argv (adb_call st ser cmd t)))
   end,
   called (adb_call st ser cmd t) st).
Proof.
  intros H. unfold run_command, with_serial, bind, get, the_ADB_PATH,
    run_cli_command, subprocess_run, ret, bind.
  rewrite H. cbn [fst snd]. unfold adb_call.
  destruct (reply _ st); reflexivity.
Qed.

(** An unbound session makes no call at all. *)
Lemma run_command_unbound (cmd : list string) (t : Z) (st : State) :
  device_serial (self st) = None ->
  exists msg, run_command cmd t st = (raise TypeError msg, st).
Proof.
  intros H. unfold run_command, with_serial, bind, get, throw, lift.
  rewrite H. eexists. reflexivity.
Qed.

Lemma issued_nothing {A} (m : Py A) (st : State) (res : Res A) :
  m st = (res, st) -> issued m st = [].
Proof. intros H. unfold issued. rewrite H. apply skipn_all. Qed.

Lemma issued_calls {A} (m : Py A) (st : State) (l : list Call) :
  trace (world (snd (m st))) = (trace (world st) ++ l)%list -> issued m st = l.
Proof.
  intros H. unfold issued. rewrite H.
  rewrite skipn_app, skipn_all, Nat.sub_diag. reflexivity.
Qed.

(** [contains] with a pattern of the modelled fragment. *)
Lemma contains_compiled (r : CommandResult) (pattern : string) (p : Re.Pattern) :
  Re.compile pattern = Re.Compiled p ->
  CommandResult.contains r pattern = Ok (found_in pattern (stdout_of r)).
Proof.
  intros Hc. unfold CommandResult.contains, found_in, stdout_of.
  rewrite (search_compiled _ _ _ Hc).
  cbn [rbind]. destruct (Re.scan _ _ _ _); reflexivity.
Qed.

(** The pattern of [is_factory_mode] is in the modelled fragment. *)
Lemma contains_factorytest (r : CommandResult) :
  CommandResult.contains r "androidboot.factorytest=1"
  = Ok (found_in "androidboot.factorytest=1" (stdout_of r)).
Proof.
  apply (contains_compiled r _ (compiled_pattern "androidboot.factorytest=1")).
  vm_compute; reflexivity.
Qed.

End Transport.

Section Privilege.

Lemma is_factory_mode_unrooted (st : State) :
  root (self st) = false -> is_factory_mode st = (Ok false, st).
Proof.
  intros H. unfold is_factory_mode, bind, get. rewrite H. reflexivity.
Qed.

(** With root, the query reads [/proc/cmdline] from the device. *)
Lemma is_factory_mode_rooted (st : State) (ser : string) (cp : CompletedProcess) :
  root (self st) = true ->
  device_serial (self st) = Some ser ->
  reply (cmdline_call st ser) st = Completed cp ->
  returncode cp = 0 ->
  is_factory_mode st
  = (Ok (found_in "androidboot.factorytest=1" (stdout cp)),
     called (cmdline_call st ser) st).
Proof.
  intros Hroot Hser Hreply Hcode.
  unfold is_factory_mode. unfold bind at 1. unfold get. rewrite Hroot. cbn [negb].
  unfold run_shell_command. unfold bind at 1.
  rewrite (run_command_bound _ _ _ _ Hser).
  fold (cmdline_call st ser). rewrite Hreply.
  unfold bind, lift, CommandResult.assert_succeeded, CommandResult.succeeded.
  cbn [new_CommandResult completed_proc]. rewrite Hcode. cbn [Z.eqb negb].
  rewrite contains_factorytest. reflexivity.
Qed.

Lemma assert_root_cached (st : State) :
  root (self st) = true -> assert_root st = (Ok tt, st).
Proof.
  intros H. unfold assert_root, bind, get. rewrite H. reflexivity.
Qed.

(** Once [adb root] has succeeded the flag is set and the hook of the
    object's class runs. *)
Lemma assert_root_gains (st : State) (ser : string) (cp : CompletedProcess) :
  root (self st) = false ->
  device_serial (self st) = Some ser ->
  reply (root_call st ser) st = Completed cp ->
  returncode cp = 0 ->
  assert_root st = on_root (updated (with_root true) (called (root_call st ser) st)).
Proof.
  intros Hroot Hser Hreply Hcode.
  unfold assert_root. unfold bind at 1. unfold get. rewrite Hroot.
  unfold bind at 1. rewrite (run_command_bound _ _ _ _ Hser).
  fold (root_call st ser). rewrite Hreply.
  unfold bind, lift, assign, CommandResult.assert_succeeded, CommandResult.succeeded.
  cbn [new_CommandResult completed_proc]. rewrite Hcode. reflexivity.
Qed.

End Privilege.

Section Escalation.

(** The effect of [is_factory_mode]: the object stays as it is, and the
    only call it can make is the read of [/proc/cmdline]. *)
Lemma is_factory_mode_effect (st : State) :
  exists res st' l,
    is_factory_mode st = (res, st')
    /\ self st' = self st
    /\ trace (world st') = (trace (world st) ++ l)%list
    /\ escalations l = 0%nat.
Proof.
  destruct (root (self st)) eqn:Hroot.
  2:{ exists (Ok false), st, []. rewrite (is_factory_mode_unrooted st Hroot).
      rewrite app_nil_r. auto. }
  unfold is_factory_mode. unfold bind at 1. unfold get. rewrite Hroot. cbn [negb].
  unfold run_shell_command. unfold bind at 1.
  destruct (device_serial (self st)) as [ser|] eqn:Hser.
  - rewrite (run_command_bound _ _ _ _ Hser).
    destruct (reply _ st) as [cp|].
    + unfold bind, lift.
      destruct (CommandResult.assert_succeeded _);
        [destruct (CommandResult.contains _ _)|];
        do 3 eexists; (split; [reflexivity|]); repeat split.
    + do 3 eexists; (split; [reflexivity|]); repeat split.
  - destruct (run_command_unbound ["shell"; "cat"; "/proc/cmdline"] 10 st Hser)
      as [msg ->].
    exists (raise TypeError msg), st, []. rewrite app_nil_r. auto.
Qed.

(** The hook leaves [root] alone and escalates nothing. *)
Lemma on_root_effect (st : State) :
  exists res st' l,
    on_root st = (res, st')
    /\ root (self st') = root (self st)
    /\ trace (world st') = (trace (world st) ++ l)%list
    /\ escalations l = 0%nat.
Proof.
  unfold on_root. unfold bind at 1. unfold get.
  destruct (class_of (self st)).
  - exists (Ok tt), st, []. rewrite app_nil_r. auto.
  - unfold NeoADBSession_on_root, ADBSession_on_root.
    unfold bind at 1. unfold ret at 1. unfold bind at 1.
    destruct (is_factory_mode_effect st) as (res & st' & l & E & Hself & Htrace & Hl).
    rewrite E. destruct res as [mode|e].
    + exists (Ok tt), (updated (with_factory_mode mode) st'), l.
      split; [reflexivity|]. cbn. rewrite Hself. auto.
    + exists (Raise e), st', l. rewrite Hself. auto.
Qed.

(** One call of [assert_root]: at most one escalation, and the flag is
    set whenever the call returns. *)
Lemma assert_root_effect (st : State) :
  exists res st' l,
    assert_root st = (res, st')
    /\ (res = Ok tt -> root (self st') = true)
    /\ trace (world st') = (trace (world st) ++ l)%list
    /\ (escalations l <= 1)%nat.
Proof.
  destruct (root (self st)) eqn:Hroot.
  { exists (Ok tt), st, []. rewrite (assert_root_cached st Hroot), app_nil_r.
    repeat split; auto. }
  unfold assert_root. unfold bind at 1. unfold get. rewrite Hroot.
  unfold bind at 1.
  destruct (device_serial (self st)) as [ser|] eqn:Hser.
  2:{ destruct (run_command_unbound ["root"] 10 st Hser) as [msg ->].
      exists (raise TypeError msg), st, []. rewrite app_nil_r.
      repeat split; auto; discriminate. }
  rewrite (run_command_bound _ _ _ _ Hser). fold (root_call st ser).
  destruct (reply _ st) as [cp|].
  2:{ do 3 eexists. split; [reflexivity|]. split; [discriminate|].
      split; [reflexivity|]. cbn. lia. }
  unfold bind at 1. unfold lift at 1.
  destruct (CommandResult.assert_succeeded _) as [[]|e].
  2:{ do 3 eexists. split; [reflexivity|]. split; [discriminate|].
      split; [reflexivity|]. cbn. lia. }
  unfold bind at 1. unfold assign at 1.
  destruct (on_root_effect (updated (with_root true) (called (root_call st ser) st)))
    as (res & st' & l & E & Hr & Htrace & Hl).
  unfold updated in E. rewrite E.
  exists res, st', (root_call st ser :: l).
  split; [reflexivity|]. split; [intros _; exact Hr|].
  split.
  - rewrite Htrace. cbn. rewrite <- app_assoc. reflexivity.
  - unfold escalations in *. cbn [filter].
    destruct (is_root_call (root_call st ser)); cbn [List.length]; lia.
Qed.

End Escalation.

(** C4. Once the cached flag [root] is set, [assert_root] returns at once
    and leaves the state, the transport trace included, as it was; a call
    that returns leaves the flag set, so that the next call is of that
    kind; and two calls in a row make the escalation call [adb -s serial
    root] at most once. *)
Theorem assert_root_twice_escalates_once :
  (forall st, root (self st) = true -> assert_root st = (Ok tt, st))
  /\ (forall st st',
        assert_root st = (Ok tt, st') ->
        root (self st') = true /\ assert_root st' = (Ok tt, st'))
  /\ (forall st, (escalations (issued (assert_root ;; assert_root) st) <= 1)%nat).
Proof.
  split; [exact assert_root_cached|]. split.
  - intros st st' H.
    destruct (assert_root_effect st) as (res & st1 & l & E & Hr & _).
    rewrite E in H. injection H as -> ->.
    split; [auto|]. apply assert_root_cached. auto.
  - intros st.
    destruct (assert_root_effect st) as (res & st1 & l & E & Hr & Htrace & Hl).
    rewrite (issued_calls _ st l); [exact Hl|].
    unfold bind. rewrite E. destruct res as [[]|e]; [|exact Htrace].
    rewrite (assert_root_cached st1 (Hr eq_refl)). exact Htrace.
Qed.

(** C4 on a device that grants root: the first call escalates, the
    second finds the flag set. *)
Lemma assert_root_twice_escalates_once_witness :
  let st := bound_to factory_device in
  let st1 := snd (assert_root st) in
  root (self st) = false
  /\ root (self st1) = true
  /\ assert_root st1 = (Ok tt, st1)
  /\ escalations (issued (assert_root ;; assert_root) st) = 1%nat.
Proof.
  intros st st1.
  assert (H1 : root (self st1) = true) by reflexivity.
  split; [reflexivity|]. split; [exact H1|]. split.
  - exact (proj1 assert_root_twice_escalates_once st1 H1).
  - reflexivity.
Defined.

(** C10. While the cached flag [root] is unset, [is_factory_mode] answers
    [False] and leaves the state, the transport trace included, as it
    was, so that it talks to the device only with the flag set.  The flag
    [factory_mode] is read from the device when root is gained: a
    successful [adb root] on a [NeoADBSession] runs the hook [on_root],
    and the hook stores whether [/proc/cmdline] of the device mentions
    [androidboot.factorytest=1]. *)
Theorem factory_mode_needs_root :
  (forall st, root (self st) = false ->
     is_factory_mode st = (Ok false, st) /\ issued is_factory_mode st = [])
  /\ (forall st, issued is_factory_mode st <> [] -> root (self st) = true)
  /\ (forall st ser cp,
        class_of (self st) = NeoADBSession ->
        root (self st) = false ->
        device_serial (self st) = Some ser ->
        reply (root_call st ser) st = Completed cp ->
        returncode cp = 0 ->
        assert_root st
        = NeoADBSession_on_root
            (updated (with_root true) (called (root_call st ser) st)))
  /\ (forall st ser cp,
        root (self st) = true ->
        device_serial (self st) = Some ser ->
        reply (cmdline_call st ser) st = Completed cp ->
        returncode cp = 0 ->
        NeoADBSession_on_root st
        = (Ok tt,
           updated (with_factory_mode
                      (found_in "androidboot.factorytest=1" (stdout cp)))
             (called (cmdline_call st ser) st))).
Proof.
  split; [|split; [|split]].
  - intros st H. pose proof (is_factory_mode_unrooted st H) as E.
    split; [exact E|]. exact (issued_nothing _ _ _ E).
  - intros st H. destruct (root (self st)) eqn:Hroot; [reflexivity|].
    contradict H. exact (issued_nothing _ _ _ (is_factory_mode_unrooted st Hroot)).
  - intros st ser cp Hcls Hroot Hser Hreply Hcode.
    rewrite (assert_root_gains st ser cp Hroot Hser Hreply Hcode).
    unfold on_root, bind, get. cbn [updated self called class_of with_root].
    rewrite Hcls. reflexivity.
  - intros st ser cp Hroot Hser Hreply Hcode.
    unfold NeoADBSession_on_root, ADBSession_on_root.
    unfold bind at 1. unfold ret at 1. unfold bind at 1.
    rewrite (is_factory_mode_rooted st ser cp Hroot Hser Hreply Hcode).
    reflexivity.
Qed.

(** C10 on a device in factory mode: the unprivileged session reports
    [False]; gaining root runs the hook, and the hook sets the flag from
    the device. *)
Lemma factory_mode_needs_root_witness :
  let st := bound_to factory_device in
  let st1 := updated (with_root true) (called (root_call st "ABC123") st) in
  is_factory_mode st = (Ok false, st)
  /\ issued is_factory_mode st = []
  /\ assert_root st = NeoADBSession_on_root st1
  /\ NeoADBSession_on_root st1
     = (Ok tt, updated (with_factory_mode true) (called (cmdline_call st1 "ABC123") st1)).
Proof.
  intros st st1.
  destruct (proj1 factory_mode_needs_root st eq_refl) as [H1 H2].
  split; [exact H1|]. split; [exact H2|]. split.
  - exact (proj1 (proj2 (proj2 factory_mode_needs_root)) st "ABC123"
             {| returncode := 0; stdout := "restarting adbd as root" ++ nl;
                stderr := EmptyString |}
             eq_refl eq_refl eq_refl eq_refl eq_refl).
  - exact (proj2 (proj2 (proj2 factory_mode_needs_root)) st1 "ABC123"
             {| returncode := 0;
                stdout := "console=ttyMSM0 androidboot.factorytest=1 quiet" ++ nl;
                stderr := EmptyString |}
             eq_refl eq_refl eq_refl eq_refl).
Defined.

(** ** The trace only grows *)

Section Monotone.

Lemma grows_refl (st : State) : grows st st.
Proof. exists []. now rewrite app_nil_r. Qed.

Lemma grows_trans (a b c : State) : grows a b -> grows b c -> grows a c.
Proof.
  intros [l1 H1] [l2 H2]. exists (l1 ++ l2)%list.
  now rewrite H2, H1, app_assoc.
Qed.

Lemma grows_called (c : Call) (st : State) : grows st (called c st).
Proof. exists [c]. reflexivity. Qed.

Lemma grows_updated (f : Session -> Session) (a b : State) :
  grows a b -> grows a (updated f b).
Proof. intros H. exact H. Qed.

Lemma monotone_ret {A} (a : A) : monotone (ret a).
Proof. intros st. apply grows_refl. Qed.

Lemma monotone_lift {A} (r : Res A) : monotone (lift r).
Proof. intros st. apply grows_refl. Qed.

Lemma monotone_throw {A} (cls : PyExc) (msg : string) :
  monotone (@throw A cls msg).
Proof. intros st. apply grows_refl. Qed.

Lemma monotone_get {A} (attr : Session -> A) : monotone (get attr).
Proof. intros st. apply grows_refl. Qed.

Lemma monotone_assign (f : Session -> Session) : monotone (assign f).
Proof. intros st. exists []. cbn. now rewrite app_nil_r. Qed.

Lemma monotone_ADB_PATH : monotone the_ADB_PATH.
Proof. intros st. apply grows_refl. Qed.

Lemma monotone_FASTBOOT_PATH : monotone the_FASTBOOT_PATH.
Proof. intros st. apply grows_refl. Qed.

Lemma monotone_subprocess_run (cmd : list string) (t : Z) :
  monotone (subprocess_run cmd t).
Proof.
  intros st. unfold subprocess_run. destruct (reply _ st); apply grows_called.
Qed.

Lemma grows_bind {A B} (m : Py A) (f : A -> Py B) (st0 st : State) :
  grows st0 (snd (m st)) -> (forall a, monotone (f a)) ->
  grows st0 (snd (bind m f st)).
Proof.
  intros Hm Hf. unfold bind. destruct (m st) as [[a|e] st1]; cbn [snd] in *.
  - eapply grows_trans; [exact Hm | apply Hf].
  - exact Hm.
Qed.

Lemma monotone_bind {A B} (m : Py A) (f : A -> Py B) :
  monotone m -> (forall a, monotone (f a)) -> monotone (bind m f).
Proof. intros Hm Hf st. apply grows_bind; auto. Qed.

Lemma monotone_try_except {A} (body : Py A) (cls : PyExc) (handler : exn -> Py A) :
  monotone body -> (forall e, monotone (handler e)) ->
  monotone (try_except body cls handler).
Proof.
  intros Hb Hh st. unfold try_except.
  pose proof (Hb st) as H. destruct (body st) as [[a|e] st1]; cbn [snd] in *;
    [exact H|].
  destruct (issubclass _ _); [|exact H].
  eapply grows_trans; [exact H | apply Hh].
Qed.

End Monotone.

Create HintDb py discriminated.

#[local] Hint Resolve monotone_ret monotone_lift monotone_throw monotone_get
  monotone_assign monotone_subprocess_run : py.
#[local] Hint Resolve monotone_ADB_PATH monotone_FASTBOOT_PATH : py.

(** Peels a computation apart along its binds, branches and handlers. *)
Ltac monotone_step :=
  match goal with
  | |- monotone (bind _ _) => apply monotone_bind; [|intros]
  | |- monotone (try_except _ _ _) => apply monotone_try_except; [|intros]
  | |- monotone (if ?b then _ else _) => destruct b
  | |- monotone (match ?x with _ => _ end) => destruct x
  | |- monotone _ => solve [auto with py]
  end.

Ltac monotone_by_definition := repeat monotone_step.

(** Every method of the session is monotone: each is built from the
    primitives above. *)

Lemma monotone_run_command (cmd : list string) (t : Z) :
  monotone (run_command cmd t).
Proof.
  unfold run_command, with_serial, run_cli_command.
  monotone_by_definition.
Qed.
#[local] Hint Resolve monotone_run_command : py.

Lemma monotone_run_fastboot_command (cmd : list string) (t : Z) :
  monotone (run_fastboot_command cmd t).
Proof.
  unfold run_fastboot_command, with_serial, run_cli_command.
  monotone_by_definition.
Qed.
#[local] Hint Resolve monotone_run_fastboot_command : py.

Lemma monotone_run_shell_command (cmd : list string) (t : Z) :
  monotone (run_shell_command cmd t).
Proof. unfold run_shell_command. monotone_by_definition. Qed.
#[local] Hint Resolve monotone_run_shell_command : py.

Lemma monotone_run_adb_command (cmd : list string) (t : Z) :
  monotone (adb_test.run_adb_command cmd t).
Proof.
  unfold adb_test.run_adb_command, adb_test.run_command.
  monotone_by_definition.
Qed.
#[local] Hint Resolve monotone_run_adb_command : py.

Lemma monotone_assert_succeeded (cmd : list string) (t : Z) :
  monotone (assert_succeeded cmd t).
Proof. unfold assert_succeeded. monotone_by_definition. Qed.
#[local] Hint Resolve monotone_assert_succeeded : py.

Lemma monotone_is_root : monotone is_root.
Proof. unfold is_root. monotone_by_definition. Qed.
#[local] Hint Resolve monotone_is_root : py.

Lemma monotone_is_remounted : monotone is_remounted.
Proof. unfold is_remounted. monotone_by_definition. Qed.
#[local] Hint Resolve monotone_is_remounted : py.

Lemma monotone_unroot : monotone unroot.
Proof. unfold unroot. monotone_by_definition. Qed.
#[local] Hint Resolve monotone_unroot : py.

Lemma monotone_assert_remount : monotone assert_remount.
Proof. unfold assert_remount. monotone_by_definition. Qed.
#[local] Hint Resolve monotone_assert_remount : py.

Lemma monotone_wait_for_device (wait_root : bool) :
  monotone (wait_for_device wait_root).
Proof. unfold wait_for_device. monotone_by_definition. Qed.
#[local] Hint Resolve monotone_wait_for_device : py.

Lemma monotone_assert_log_shell_command (cmd : list string) :
  monotone (assert_log_shell_command cmd).
Proof. unfold assert_log_shell_command. monotone_by_definition. Qed.
#[local] Hint Resolve monotone_assert_log_shell_command : py.

Lemma monotone_assert_string (cmd : list string) : monotone (assert_string cmd).
Proof. unfold assert_string. monotone_by_definition. Qed.
#[local] Hint Resolve monotone_assert_string : py.

Lemma monotone_assert_file_int (name : string) :
  monotone (assert_file_int name).
Proof. unfold assert_file_int. monotone_by_definition. Qed.
#[local] Hint Resolve monotone_assert_file_int : py.

Lemma monotone_assert_get_prop (name : string) :
  monotone (assert_get_prop name).
Proof. unfold assert_get_prop. monotone_by_definition. Qed.
#[local] Hint Resolve monotone_assert_get_prop : py.

Lemma monotone_assert_set_prop (name value : string) :
  monotone (assert_set_prop name value).
Proof. unfold assert_set_prop. monotone_by_definition. Qed.
#[local] Hint Resolve monotone_assert_set_prop : py.

Lemma monotone_assert_log_prop (name : string) :
  monotone (assert_log_prop name).
Proof. unfold assert_log_prop. monotone_by_definition. Qed.
#[local] Hint Resolve monotone_assert_log_prop : py.

Lemma monotone_is_selinux_enforcing : monotone is_selinux_enforcing.
Proof. unfold is_selinux_enforcing. monotone_by_definition. Qed.
#[local] Hint Resolve monotone_is_selinux_enforcing : py.

Lemma monotone_assert_ctl_stop (service : string) :
  monotone (assert_ctl_stop service).
Proof. unfold assert_ctl_stop. monotone_by_definition. Qed.
#[local] Hint Resolve monotone_assert_ctl_stop : py.

Lemma monotone_assert_ctl_start (service : string) :
  monotone (assert_ctl_start service).
Proof. unfold assert_ctl_start. monotone_by_definition. Qed.
#[local] Hint Resolve monotone_assert_ctl_start : py.

Lemma monotone_is_factory_mode : monotone is_factory_mode.
Proof. unfold is_factory_mode. monotone_by_definition. Qed.
#[local] Hint Resolve monotone_is_factory_mode : py.

Lemma monotone_on_root : monotone on_root.
Proof.
  unfold on_root, NeoADBSession_on_root, ADBSession_on_root.
  monotone_by_definition.
Qed.
#[local] Hint Resolve monotone_on_root : py.

Lemma monotone_assert_root : monotone assert_root.
Proof. unfold assert_root. monotone_by_definition. Qed.
#[local] Hint Resolve monotone_assert_root : py.

Lemma monotone_assert_set_selinux_enforcing (enforcing : bool) :
  monotone (assert_set_selinux_enforcing enforcing).
Proof. unfold assert_set_selinux_enforcing. monotone_by_definition. Qed.
#[local] Hint Resolve monotone_assert_set_selinux_enforcing : py.

Lemma monotone_ADBSession_refresh_device_state :
  monotone ADBSession_refresh_device_state.
Proof. unfold ADBSession_refresh_device_state. monotone_by_definition. Qed.
#[local] Hint Resolve monotone_ADBSession_refresh_device_state : py.

Lemma monotone_refresh_flags : monotone refresh_flags.
Proof. unfold refresh_flags. monotone_by_definition. Qed.
#[local] Hint Resolve monotone_refresh_flags : py.

Lemma monotone_resolve_identity : monotone resolve_identity.
Proof.
  unfold resolve_identity, resolve_identity_body.
  monotone_by_definition.
Qed.
#[local] Hint Resolve monotone_resolve_identity : py.

Lemma monotone_refresh_device_state : monotone refresh_device_state.
Proof.
  unfold refresh_device_state, NeoADBSession_refresh_device_state.
  monotone_by_definition.
Qed.
#[local] Hint Resolve monotone_refresh_device_state : py.

Lemma monotone_bind_serial (serial : string) : monotone (bind_serial serial).
Proof. unfold bind_serial. monotone_by_definition. Qed.
#[local] Hint Resolve monotone_bind_serial : py.

Lemma monotone_bind_with_first_device : monotone bind_with_first_device.
Proof. unfold bind_with_first_device. monotone_by_definition. Qed.
#[local] Hint Resolve monotone_bind_with_first_device : py.

Lemma monotone_set_factory_mode (mode : bool) :
  monotone (set_factory_mode mode).
Proof. unfold set_factory_mode, reboot_to_fastboot. monotone_by_definition. Qed.
#[local] Hint Resolve monotone_set_factory_mode : py.

Lemma monotone_assert_factory_mode : monotone assert_factory_mode.
Proof. unfold assert_factory_mode. monotone_by_definition. Qed.
#[local] Hint Resolve monotone_assert_factory_mode : py.

Lemma monotone_assert_disable_vendor_MCS : monotone assert_disable_vendor_MCS.
Proof. unfold assert_disable_vendor_MCS. monotone_by_definition. Qed.
#[local] Hint Resolve monotone_assert_disable_vendor_MCS : py.

Lemma monotone_assert_enable_vendor_MCS : monotone assert_enable_vendor_MCS.
Proof. unfold assert_enable_vendor_MCS. monotone_by_definition. Qed.
#[local] Hint Resolve monotone_assert_enable_vendor_MCS : py.

(** ** Vendor services *)

Section VendorServices.

Lemma issued_after_call {A} (m : Py A) (st : State) (c : Call) :
  grows (called c st) (snd (m st)) -> exists rest, issued m st = c :: rest.
Proof.
  intros [l H]. exists l. apply issued_calls. rewrite H. cbn.
  now rewrite <- app_assoc.
Qed.

(** The first thing [assert_string] does on a bound session is its call. *)
Lemma assert_string_calls_first (cmd : list string) (st : State) (ser : string) :
  device_serial (self st) = Some ser ->
  grows (called (adb_call st ser ("shell" :: cmd) 10) st) (snd (assert_string cmd st)).
Proof.
  intros Hser. unfold assert_string. apply grows_bind; [|intros; auto with py].
  unfold run_shell_command. rewrite (run_command_bound _ _ _ _ Hser).
  apply grows_refl.
Qed.

(** [assert_enable_vendor_MCS] has no guard on the cached flag: on a
    privileged, bound session it starts by asking the device for its
    SELinux mode. *)
Lemma assert_enable_vendor_MCS_calls_first (st : State) (ser : string) :
  root (self st) = true ->
  device_serial (self st) = Some ser ->
  exists rest,
    issued assert_enable_vendor_MCS st
    = adb_call st ser ["shell"; "getenforce"] 10 :: rest.
Proof.
  intros Hroot Hser. apply issued_after_call.
  unfold assert_enable_vendor_MCS.
  rewrite (bind_ok _ _ _ _ _ (assert_root_cached st Hroot)).
  apply grows_bind; [|intros; monotone_by_definition].
  unfold assert_set_selinux_enforcing.
  apply grows_bind; [|intros; monotone_by_definition].
  unfold is_selinux_enforcing.
  apply grows_bind; [|intros; monotone_by_definition].
  now apply assert_string_calls_first.
Qed.

(** The sibling checks the flag first. *)
Lemma assert_disable_vendor_MCS_cached (st : State) :
  vendor_mcs_enabled (self st) = false -> assert_disable_vendor_MCS st = (Ok tt, st).
Proof.
  intros H. unfold assert_disable_vendor_MCS, bind, get. rewrite H. reflexivity.
Qed.

End VendorServices.

(** C3, at the failing input. On a privileged session whose cached flag
    [vendor_mcs_enabled] is already set, [assert_enable_vendor_MCS] talks
    to the device all the same: three calls on a device that is
    enforcing, and a first call on any device.  Its sibling
    [assert_disable_vendor_MCS] makes no call when the flag is already
    unset. *)
Theorem assert_enable_vendor_MCS_repeats_calls :
  (let st := updated (with_root true) (bound_to enforcing_device) in
   vendor_mcs_enabled (self st) = true
   /\ map argv (issued assert_enable_vendor_MCS st)
      = [["adb"; "-s"; "ABC123"; "shell"; "getenforce"];
         ["adb"; "-s"; "ABC123"; "shell"; "setprop"; "ctl.start"; "captureengineservice"];
         ["adb"; "-s"; "ABC123"; "shell"; "setprop"; "ctl.start";
          "vendor.camera-provider-2-7"]]
   /\ fst (assert_enable_vendor_MCS st) = Ok tt)
  /\ (forall st ser,
        let st' := updated (with_vendor_mcs_enabled true)
                     (updated (with_root true)
                        (updated (with_device_serial (Some ser)) st)) in
        exists rest,
          issued assert_enable_vendor_MCS st'
          = adb_call st' ser ["shell"; "getenforce"] 10 :: rest)
  /\ (forall st,
        let st' := updated (with_vendor_mcs_enabled false) st in
        assert_disable_vendor_MCS st' = (Ok tt, st')
        /\ issued assert_disable_vendor_MCS st' = []).
Proof.
  split; [|split].
  - cbv zeta. repeat split; reflexivity.
  - intros st ser st'. apply assert_enable_vendor_MCS_calls_first; reflexivity.
  - intros st st'.
    pose proof (assert_disable_vendor_MCS_cached st' eq_refl) as E.
    split; [exact E | exact (issued_nothing _ _ _ E)].
Qed.

(** ** Binding to the first device *)

Section FirstDevice.

Lemma ready_pattern_compiled :
  Re.compile ready_pattern = Re.Compiled (compiled_pattern ready_pattern)
  /\ Re.groups (compiled_pattern ready_pattern) = 1%nat.
Proof. split; vm_compute; reflexivity. Qed.

Lemma header_pattern_compiled :
  Re.compile header_pattern = Re.Compiled (compiled_pattern header_pattern).
Proof. vm_compute; reflexivity. Qed.

(** [search] with the pattern of a ready device. *)
Lemma search_ready (r : CommandResult) :
  CommandResult.search r ready_pattern = Ok (first_ready_device (stdout_of r)).
Proof.
  destruct ready_pattern_compiled as [Hc Hg].
  unfold CommandResult.search, first_ready_device, stdout_of.
  rewrite (search_compiled _ _ _ Hc). cbn [rbind].
  destruct (Re.scan _ _ _ _) as [m|] eqn:E; [|reflexivity].
  cbn [option_map].
  eapply (first_group_of_match (compiled_pattern ready_pattern)); [|exact E].
  rewrite Hg. lia.
Qed.

(** The listing comes first, and what follows depends on it alone. *)
Lemma bind_with_first_device_listed (st : State) (cp : CompletedProcess) :
  reply (devices_call st) st = Completed cp ->
  returncode cp = 0 ->
  found_in header_pattern (stdout cp) = true ->
  bind_with_first_device st =
  match first_ready_device (stdout cp) with
  | Some ser => bind_serial ser (called (devices_call st) st)
  | None => (raise ADBAssertionError no_devices_message, called (devices_call st) st)
  end.
Proof.
  intros Hreply Hcode Hheader.
  unfold bind_with_first_device. unfold bind at 1.
  unfold adb_test.run_adb_command, adb_test.run_command, bind, the_ADB_PATH,
    subprocess_run, ret.
  fold (devices_call st). rewrite Hreply.
  unfold lift, CommandResult.assert_succeeded, CommandResult.succeeded.
  cbn [new_CommandResult completed_proc]. rewrite Hcode. cbn [Z.eqb negb].
  unfold CommandResult.assert_contains.
  change ("^List of devices attached" ++ nl) with header_pattern.
  rewrite (contains_compiled _ _ _ header_pattern_compiled).
  unfold stdout_of. cbn [new_CommandResult completed_proc stdout].
  rewrite Hheader. cbn [rbind negb].
  change "^(\w+)\s+device" with ready_pattern.
  rewrite search_ready. unfold stdout_of.
  cbn [new_CommandResult completed_proc stdout].
  destruct (first_ready_device (stdout cp)); reflexivity.
Qed.

End FirstDevice.

(** [bind_with_first_device] with no device attached: the error is an
    [ADBAssertionError], the class that a failed assertion on a command
    result raises. *)
Lemma bind_with_no_device_raises_assertion_error :
  fst (bind_with_first_device (fresh_on NeoADBSession no_device))
  = Raise (Exc ADBAssertionError no_devices_message)
  /\ CommandResult.assert_succeeded (result_of ["adb"; "devices"] 1 EmptyString EmptyString)
     = Raise (Exc ADBAssertionError
                (CommandResult.failure_message
                   (result_of ["adb"; "devices"] 1 EmptyString EmptyString))).
Proof. split; reflexivity. Qed.

(** C6, amended. [bind_with_first_device] starts with the call [adb
    devices].  When that call succeeds and prints the header of the
    listing, the session binds to the serial number of the first line that
    matches [ready_pattern], which is the leftmost match in the listing;
    when no line matches, the call raises [ADBAssertionError] with the
    message [no_devices_message] and the session stays unbound. *)
Theorem bind_with_first_device_selects_first :
  (forall st, exists rest,
     issued bind_with_first_device st = devices_call st :: rest)
  /\ (forall st cp,
        reply (devices_call st) st = Completed cp ->
        returncode cp = 0 ->
        found_in header_pattern (stdout cp) = true ->
        match first_ready_device (stdout cp) with
        | Some ser =>
            bind_with_first_device st = bind_serial ser (called (devices_call st) st)
        | None =>
            bind_with_first_device st
            = (raise ADBAssertionError no_devices_message, called (devices_call st) st)
            /\ device_serial (self (snd (bind_with_first_device st)))
               = device_serial (self st)
        end)
  /\ first_ready_device
       ("List of devices attached" ++ nl
        ++ "emulator-5554" ++ tab ++ "offline" ++ nl
        ++ "AAA111" ++ tab ++ "unauthorized" ++ nl
        ++ "BBB222" ++ tab ++ "device" ++ nl
        ++ "CCC333" ++ tab ++ "device" ++ nl ++ nl)
     = Some "BBB222".
Proof.
  split; [|split].
  - intros st. apply issued_after_call.
    unfold bind_with_first_device. apply grows_bind; [|intros; monotone_by_definition].
    unfold adb_test.run_adb_command, adb_test.run_command, bind, the_ADB_PATH,
      subprocess_run, ret.
    fold (devices_call st). destruct (reply _ st); apply grows_refl.
  - intros st cp Hreply Hcode Hheader.
    pose proof (bind_with_first_device_listed st cp Hreply Hcode Hheader) as E.
    destruct (first_ready_device (stdout cp)); [exact E|].
    split; [exact E|]. rewrite E. reflexivity.
  - vm_compute. reflexivity.
Qed.

(** C6 on a host with one device attached and ready. *)
Lemma bind_with_first_device_selects_first_witness :
  let st := fresh_on NeoADBSession one_device in
  first_ready_device ("List of devices attached" ++ nl
                      ++ "ABC123" ++ tab ++ "device" ++ nl ++ nl) = Some "ABC123"
  /\ bind_with_first_device st = bind_serial "ABC123" (called (devices_call st) st)
  /\ device_serial (self (snd (bind_with_first_device st))) = Some "ABC123".
Proof.
  intros st.
  assert (Hfirst : first_ready_device
                     ("List of devices attached" ++ nl
                      ++ "ABC123" ++ tab ++ "device" ++ nl ++ nl) = Some "ABC123")
    by (vm_compute; reflexivity).
  split; [exact Hfirst|].
  pose proof (proj1 (proj2 bind_with_first_device_selects_first) st
                {| returncode := 0;
                   stdout := "List of devices attached" ++ nl
                             ++ "ABC123" ++ tab ++ "device" ++ nl ++ nl;
                   stderr := EmptyString |}
                eq_refl eq_refl eq_refl) as H.
  cbn [stdout] in H. rewrite Hfirst in H.
  split; [exact H|]. rewrite H. reflexivity.
Defined.

(** ** Device identity *)

Section Frame.

Context {A : Type} (attr : Session -> A).

Lemma keeps_ret {B} (b : B) : keeps attr (ret b).
Proof. intros st. reflexivity. Qed.

Lemma keeps_lift {B} (r : Res B) : keeps attr (lift r).
Proof. intros st. reflexivity. Qed.

Lemma keeps_throw {B} (cls : PyExc) (msg : string) : keeps attr (@throw B cls msg).
Proof. intros st. reflexivity. Qed.

Lemma keeps_get {B} (other : Session -> B) : keeps attr (get other).
Proof. intros st. reflexivity. Qed.

Lemma keeps_ADB_PATH : keeps attr the_ADB_PATH.
Proof. intros st. reflexivity. Qed.

Lemma keeps_subprocess_run (cmd : list string) (t : Z) :
  keeps attr (subprocess_run cmd t).
Proof. intros st. unfold subprocess_run. destruct (reply _ st); reflexivity. Qed.

Lemma keeps_assign (f : Session -> Session) :
  (forall s, attr (f s) = attr s) -> keeps attr (assign f).
Proof. intros H st. apply H. Qed.

Lemma keeps_bind {B C} (m : Py B) (f : B -> Py C) :
  keeps attr m -> (forall b, keeps attr (f b)) -> keeps attr (bind m f).
Proof.
  intros Hm Hf st. unfold bind. pose proof (Hm st) as H.
  destruct (m st) as [[b|e] st1]; cbn [snd] in *; [|exact H].
  now rewrite Hf.
Qed.

End Frame.

(** Peels a computation apart to check that no assignment in it touches
    the attribute. *)
Ltac keeps_step :=
  match goal with
  | |- keeps _ (bind _ _) => apply keeps_bind; [|intros]
  | |- keeps _ (assign _) => apply keeps_assign; intros; reflexivity
  | |- keeps _ (ret _) => apply keeps_ret
  | |- keeps _ (lift _) => apply keeps_lift
  | |- keeps _ (throw _ _) => apply keeps_throw
  | |- keeps _ (get _) => apply keeps_get
  | |- keeps _ the_ADB_PATH => apply keeps_ADB_PATH
  | |- keeps _ (subprocess_run _ _) => apply keeps_subprocess_run
  | |- keeps _ (if ?b then _ else _) => destruct b
  | |- keeps _ (match ?x with _ => _ end) => destruct x
  end.

Ltac keeps_by_definition := repeat keeps_step.

Section Identity.

(** None of the statements before the [try] assigns [board_type] or
    [device_type]. *)
Lemma refresh_flags_keeps_board_type : keeps board_type refresh_flags.
Proof.
  unfold refresh_flags, ADBSession_refresh_device_state, is_root, is_remounted,
    is_factory_mode, assert_log_prop, assert_get_prop, assert_string,
    assert_log_shell_command, run_shell_command, run_command, with_serial,
    run_cli_command.
  keeps_by_definition.
Qed.

Lemma refresh_flags_keeps_device_type : keeps device_type refresh_flags.
Proof.
  unfold refresh_flags, ADBSession_refresh_device_state, is_root, is_remounted,
    is_factory_mode, assert_log_prop, assert_get_prop, assert_string,
    assert_log_shell_command, run_shell_command, run_command, with_serial,
    run_cli_command.
  keeps_by_definition.
Qed.

End Identity.

Section IdentityFailures.

(** Whatever [assert_int] raises is an [ADBAssertionError]. *)
Lemma assert_int_raises_assertion (r : CommandResult) (e : exn) :
  CommandResult.assert_int r = Raise e -> exc_type e = ADBAssertionError.
Proof.
  rewrite assert_int_spec, assert_string_spec.
  destruct (_ && _ && _)%bool.
  - destruct (int_of_str _); [discriminate|]. intros H. now injection H as <-.
  - intros H. now injection H as <-.
Qed.

(** The body of the [try] never raises [KeyError]: a lookup by value in
    an [Enum] fails with [ValueError].  The [except] clause is dead. *)
Lemma resolve_identity_handler_unreachable (st : State) :
  resolve_identity st = resolve_identity_body st.
Proof.
  unfold resolve_identity, try_except.
  destruct (resolve_identity_body st) as [[u|e] st1] eqn:E; [reflexivity|].
  assert (Hcls : issubclass (exc_type e) KeyError = false); [|now rewrite Hcls].
  revert E. unfold resolve_identity_body. unfold bind at 1. unfold get at 1.
  unfold bind at 1. unfold lift at 1.
  destruct (device_name (self st)) as [nm|]; cbn [DeviceType_call].
  2:{ intros H. now injection H as <- _. }
  destruct (DeviceType_by_value nm) as [fam|].
  2:{ intros H. now injection H as <- _. }
  unfold bind at 1. unfold assign at 1. unfold bind at 1. unfold get at 1.
  cbn [self with_device_type root].
  destruct (root (self st)); [|discriminate].
  unfold bind at 1. unfold assert_file_int, run_shell_command. unfold bind at 1.
  match goal with |- context [run_command ?c ?t ?s] => set (st0 := s) end.
  destruct (device_serial (self st0)) as [ser|] eqn:Hser.
  - rewrite (run_command_bound _ _ _ _ Hser).
    destruct (reply _ st0) as [cp|]; [|intros H; now injection H as <- _].
    unfold lift at 1.
    destruct (CommandResult.assert_int _) as [n|e1] eqn:Hint.
    + unfold bind at 1. unfold lift at 1. unfold BoardType_call.
      destruct (BoardType_by_value n); [discriminate|].
      intros H. now injection H as <- _.
    + intros H. injection H as <- _.
      now rewrite (assert_int_raises_assertion _ _ Hint).
  - destruct (run_command_unbound ["shell"; "cat"; bt_file] 10 st0 Hser) as [msg ->].
    intros H. now injection H as <- _.
Qed.

(** A device name that [DeviceType] does not know: the [try] raises
    before it has assigned anything or made any call. *)
Lemma resolve_identity_unknown_family (st : State) (nm : string) :
  device_name (self st) = Some nm ->
  DeviceType_by_value nm = None ->
  resolve_identity st
  = (raise ValueError ("'" ++ nm ++ "' is not a valid DeviceType"), st).
Proof.
  intros Hname Hfam. rewrite resolve_identity_handler_unreachable.
  unfold resolve_identity_body, bind, get, lift. rewrite Hname.
  cbn [DeviceType_call]. rewrite Hfam. reflexivity.
Qed.

(** A revision that [BoardType] does not know: the [try] raises after it
    has assigned [device_type] and read the revision, and before it
    assigns [board_type]. *)
Lemma resolve_identity_unknown_revision
      (st : State) (nm ser : string) (fam : DeviceType) (cp : CompletedProcess) (n : Z) :
  device_name (self st) = Some nm ->
  DeviceType_by_value nm = Some fam ->
  root (self st) = true ->
  device_serial (self st) = Some ser ->
  reply (revision_call st ser) st = Completed cp ->
  CommandResult.assert_int (new_CommandResult (argv (revision_call st ser)) cp) = Ok n ->
  BoardType_by_value n = None ->
  resolve_identity st
  = (raise ValueError (str_of_int n ++ " is not a valid BoardType"),
     called (revision_call st ser) (updated (with_device_type (Some fam)) st)).
Proof.
  intros Hname Hfam Hroot Hser Hreply Hint Hboard.
  rewrite resolve_identity_handler_unreachable.
  unfold resolve_identity_body. unfold bind at 1. unfold get at 1.
  unfold bind at 1. unfold lift at 1. rewrite Hname. cbn [DeviceType_call].
  rewrite Hfam.
  unfold bind at 1. unfold assign at 1. unfold bind at 1. unfold get at 1.
  cbn [self with_device_type root]. rewrite Hroot.
  unfold bind at 1. unfold assert_file_int, run_shell_command. unfold bind at 1.
  fold (updated (with_device_type (Some fam)) st).
  assert (Hser' : device_serial (self (updated (with_device_type (Some fam)) st))
                  = Some ser) by exact Hser.
  rewrite (run_command_bound _ _ _ _ Hser').
  change (adb_call (updated (with_device_type (Some fam)) st) ser
            ["shell"; "cat"; bt_file] 10) with (revision_call st ser).
  change (reply (revision_call st ser) (updated (with_device_type (Some fam)) st))
    with (reply (revision_call st ser) st).
  rewrite Hreply. unfold lift at 1. rewrite Hint.
  unfold bind, lift, BoardType_call. rewrite Hboard. reflexivity.
Qed.

End IdentityFailures.

(** The refresh pass of a [NeoADBSession] on a rooted device whose
    hardware revision reads 999: the pass raises, and by then the flags
    [root] and [remounted] and the device name have been set. *)
Lemma unmapped_revision_leaves_flags_set :
  let st := updated (with_device_serial (Some "ABC123"))
              (fresh_on NeoADBSession unknown_board) in
  let after := snd (refresh_device_state st) in
  fst (refresh_device_state st) = Raise (Exc ValueError "999 is not a valid BoardType")
  /\ (root (self st), remounted (self st), device_name (self st), device_type (self st))
     = (false, false, None, None)
  /\ (root (self after), remounted (self after), device_name (self after),
      device_type (self after))
     = (true, true, Some "hammerhead", Some HAMMERHEAD)
  /\ board_type (self after) = None.
Proof. cbv zeta. repeat split; vm_compute; reflexivity. Qed.

(** C1, amended. When the refresh pass of a [NeoADBSession] has run its
    statements before the [try] and then finds a device name that
    [DeviceType] does not know, or, on a rooted device of a known family,
    reads a hardware revision that [BoardType] does not know, the pass
    ends by raising an exception.  [board_type] keeps the value it had
    before the pass.  The attributes [root], [remounted], [factory_mode]
    and [device_name] keep the values that the pass has assigned to them
    before the [try]: the exception undoes none of them.  For an unknown
    revision [device_type] has been assigned as well, and holds the
    family of the device. *)
Theorem unmapped_identity_aborts_refresh :
  forall st0 st1 : State,
    refresh_flags st0 = (Ok tt, st1) ->
    (forall nm,
       device_name (self st1) = Some nm ->
       DeviceType_by_value nm = None ->
       exists e,
         NeoADBSession_refresh_device_state st0 = (Raise e, st1)
         /\ device_type (self st1) = device_type (self st0)
         /\ board_type (self st1) = board_type (self st0))
    /\ (forall nm fam ser cp n,
          device_name (self st1) = Some nm ->
          DeviceType_by_value nm = Some fam ->
          root (self st1) = true ->
          device_serial (self st1) = Some ser ->
          reply (revision_call st1 ser) st1 = Completed cp ->
          CommandResult.assert_int
            (new_CommandResult (argv (revision_call st1 ser)) cp) = Ok n ->
          BoardType_by_value n = None ->
          exists e st2,
            NeoADBSession_refresh_device_state st0 = (Raise e, st2)
            /\ board_type (self st2) = board_type (self st0)
            /\ root (self st2) = root (self st1)
            /\ remounted (self st2) = remounted (self st1)
            /\ factory_mode (self st2) = factory_mode (self st1)
            /\ device_name (self st2) = device_name (self st1)
            /\ device_type (self st2) = Some fam).
Proof.
  intros st0 st1 Hflags.
  pose proof (refresh_flags_keeps_board_type st0) as Hboard.
  pose proof (refresh_flags_keeps_device_type st0) as Hfamily.
  rewrite Hflags in Hboard, Hfamily. cbn [snd] in Hboard, Hfamily.
  unfold NeoADBSession_refresh_device_state.
  rewrite (bind_ok _ _ _ _ _ Hflags).
  split.
  - intros nm Hname Hnone.
    rewrite (resolve_identity_unknown_family st1 nm Hname Hnone).
    eexists. split; [reflexivity|]. auto.
  - intros nm fam ser cp n Hname Hfam Hroot Hser Hreply Hint Hnone.
    rewrite (resolve_identity_unknown_revision st1 nm ser fam cp n
               Hname Hfam Hroot Hser Hreply Hint Hnone).
    do 2 eexists. split; [reflexivity|].
    cbn [called updated self with_device_type board_type root remounted
         factory_mode device_name device_type].
    repeat split; auto.
Qed.

(** C1 on two devices: one that reports the revision 999, and one that
    reports a name that is not a family. *)
Lemma unmapped_identity_aborts_refresh_witness :
  let bound table := updated (with_device_serial (Some "ABC123"))
                       (fresh_on NeoADBSession table) in
  (exists e st2,
     NeoADBSession_refresh_device_state (bound unknown_board) = (Raise e, st2)
     /\ board_type (self st2) = None
     /\ root (self st2) = true
     /\ device_type (self st2) = Some HAMMERHEAD)
  /\ (exists e st2,
        NeoADBSession_refresh_device_state (bound unknown_family) = (Raise e, st2)
        /\ device_type (self st2) = None
        /\ board_type (self st2) = None).
Proof.
  intros bound. split.
  - pose (st0 := bound unknown_board).
    assert (Hflags : refresh_flags st0 = (Ok tt, snd (refresh_flags st0)))
      by (vm_compute; reflexivity).
    destruct (proj2 (unmapped_identity_aborts_refresh st0 _ Hflags)
                "hammerhead" HAMMERHEAD "ABC123"
                {| returncode := 0; stdout := "999" ++ nl; stderr := EmptyString |}
                999 eq_refl eq_refl eq_refl eq_refl eq_refl eq_refl eq_refl)
      as (e & st2 & Hrun & Hb & Hr & _ & _ & _ & Hf).
    exists e, st2. split; [exact Hrun|]. split; [exact Hb|].
    split; [exact Hr | exact Hf].
  - pose (st0 := bound unknown_family).
    assert (Hflags : refresh_flags st0 = (Ok tt, snd (refresh_flags st0)))
      by (vm_compute; reflexivity).
    destruct (proj1 (unmapped_identity_aborts_refresh st0 _ Hflags)
                "tigershark" eq_refl eq_refl)
      as (e & Hrun & Hf & Hb).
    exists e, (snd (refresh_flags st0)). split; [exact Hrun|].
    split; [exact Hf | exact Hb].
Defined.

(** * Further properties

    Properties of the code beyond the written specification: first of the
    result assertions, then of the session. *)

(** ** The status of a manufacturing command *)

Section MfgStatus.

Lemma differs_from_Success (v : Json.value) :
  Json.differs_from_str v "Success" = false <-> v = Json.Str "Success".
Proof.
  split.
  - destruct v; try discriminate. cbn. intros H.
    apply Bool.negb_false_iff, String.eqb_eq in H. now subst.
  - intros ->. reflexivity.
Qed.

Lemma assert_mfg_succeeded_decoded (r : CommandResult) (data : Json.value) :
  CommandResult.succeeded r = true ->
  Json.loads (stdout_of r) = Ok data ->
  NeoCommandResult.assert_mfg_succeeded r
  = rbind (Json.getitem data "status")
      (fun status =>
         if Json.differs_from_str status "Success"
         then raise ADBAssertionError (NeoCommandResult.not_success_message r)
         else Ok (set_json_data r data)).
Proof.
  intros Hs Hl. unfold NeoCommandResult.assert_mfg_succeeded.
  unfold CommandResult.assert_succeeded. rewrite Hs. cbn [negb rbind].
  rewrite assert_json_spec, Hl. reflexivity.
Qed.

End MfgStatus.

(** X1. What [assert_mfg_succeeded] makes of an output that is valid
    JSON.  The exit status is checked first: a command that failed raises
    the failure message, whatever it printed.  For a command that
    succeeded, the call returns exactly when the output is an object whose
    member [status] is the string Success, and the result then carries
    the decoded value; any other value of [status] raises
    [ADBAssertionError]; an object without the member raises [KeyError],
    and a value that is not an object raises [TypeError], neither of which
    is an [ADBAssertionError]. *)
Theorem assert_mfg_succeeded_reads_status (r : CommandResult) (data : Json.value) :
  Json.loads (stdout_of r) = Ok data ->
  (CommandResult.succeeded r = false ->
   NeoCommandResult.assert_mfg_succeeded r
   = raise ADBAssertionError (CommandResult.failure_message r))
  /\ (CommandResult.succeeded r = true ->
      (forall pairs,
         data = Json.Object pairs ->
         Json.lookup "status" pairs = Some (Json.Str "Success") ->
         NeoCommandResult.assert_mfg_succeeded r = Ok (set_json_data r data))
      /\ (forall pairs status,
            data = Json.Object pairs ->
            Json.lookup "status" pairs = Some status ->
            status <> Json.Str "Success" ->
            NeoCommandResult.assert_mfg_succeeded r
            = raise ADBAssertionError (NeoCommandResult.not_success_message r))
      /\ (forall pairs,
            data = Json.Object pairs ->
            Json.lookup "status" pairs = None ->
            NeoCommandResult.assert_mfg_succeeded r = raise KeyError "status")
      /\ ((forall pairs, data <> Json.Object pairs) ->
          exists msg,
            NeoCommandResult.assert_mfg_succeeded r = raise TypeError msg)
      /\ (returned (NeoCommandResult.assert_mfg_succeeded r) ->
          exists pairs,
            data = Json.Object pairs
            /\ Json.lookup "status" pairs = Some (Json.Str "Success"))).
Proof.
  intros Hl. split.
  - intros Hs. unfold NeoCommandResult.assert_mfg_succeeded,
      CommandResult.assert_succeeded. now rewrite Hs.
  - intros Hs. rewrite (assert_mfg_succeeded_decoded r data Hs Hl).
    split; [|split; [|split; [|split]]].
    + intros pairs -> Hst. cbn [Json.getitem]. rewrite Hst. reflexivity.
    + intros pairs status -> Hst Hne. cbn [Json.getitem]. rewrite Hst. cbn [rbind].
      destruct (Json.differs_from_str status "Success") eqn:E; [reflexivity|].
      apply differs_from_Success in E. contradiction.
    + intros pairs -> Hst. cbn [Json.getitem]. rewrite Hst. reflexivity.
    + intros Hno. destruct data; try (eexists; reflexivity).
      exfalso. eapply Hno. reflexivity.
    + intros [a Ha]. destruct data; try discriminate.
      eexists. split; [reflexivity|]. cbn [Json.getitem] in Ha.
      destruct (Json.lookup _ _) as [status|]; [|discriminate]. cbn [rbind] in Ha.
      destruct (Json.differs_from_str status "Success") eqn:E; [discriminate|].
      apply differs_from_Success in E. now subst.
Qed.

(** X1 on three outputs of a command that succeeded: an object with two
    members [status], of which the later one counts; an object without
    the member; and a list. *)
Lemma assert_mfg_succeeded_reads_status_witness :
  returned (NeoCommandResult.assert_mfg_succeeded
              (result_of ["mfg"] 0 (dq "{'status':'Fail','status':'Success'}") EmptyString))
  /\ NeoCommandResult.assert_mfg_succeeded
       (result_of ["mfg"] 0 (dq "{'state':'Success'}") EmptyString)
     = raise KeyError "status"
  /\ exists msg,
       NeoCommandResult.assert_mfg_succeeded
         (result_of ["mfg"] 0 (dq "['Success']") EmptyString)
       = raise TypeError msg.
Proof.
  split; [|split].
  - eexists.
    refine (proj1 (proj2 (assert_mfg_succeeded_reads_status _ _ _) _) _ _ _);
      reflexivity.
  - refine (proj1 (proj2 (proj2 (proj2
              (assert_mfg_succeeded_reads_status _ _ _) _))) _ _ _);
      reflexivity.
  - refine (proj1 (proj2 (proj2 (proj2 (proj2
              (assert_mfg_succeeded_reads_status
                 _ (Json.Array [Json.Str "Success"]) _) _)))) _);
      [reflexivity | reflexivity | discriminate].
Defined.

(** ** Matching and searching *)

Section ContainsSearch.

Lemma assert_contains_compiled (r : CommandResult) (pattern : string) (p : Re.Pattern) :
  Re.compile pattern = Re.Compiled p ->
  CommandResult.assert_contains r pattern
  = if found_in pattern (stdout_of r) then Ok tt
    else raise ADBAssertionError (CommandResult.no_match_message r pattern).
Proof.
  intros Hc. unfold CommandResult.assert_contains.
  rewrite (contains_compiled r pattern p Hc). cbn [rbind].
  destruct (found_in _ _); reflexivity.
Qed.

Lemma found_in_compiled (pattern text : string) (p : Re.Pattern) :
  Re.compile pattern = Re.Compiled p ->
  found_in pattern text
  = CommandResult.is_not_None (Re.scan (Re.tree p) (Re.groups p) None text).
Proof.
  intros Hc. unfold found_in. rewrite (search_compiled _ _ _ Hc).
  destruct (Re.scan _ _ _ _); reflexivity.
Qed.

End ContainsSearch.

(** X2. [assert_contains] and [assert_search] agree on whether a
    pattern with a group matches: both return for an output in which the
    pattern matches somewhere, [assert_search] with the text of the first
    group of the leftmost match, and both raise the same
    [ADBAssertionError], with the same message, for an output in which it
    does not.  Neither looks at the exit status.  They differ for a
    pattern without a group that matches: [assert_contains] returns, and
    [assert_search] raises [IndexError]. *)
Theorem assert_search_agrees_with_assert_contains
        (r : CommandResult) (pattern : string) (p : Re.Pattern) :
  Re.compile pattern = Re.Compiled p ->
  (found_in pattern (stdout_of r) = false ->
   CommandResult.assert_contains r pattern
   = raise ADBAssertionError (CommandResult.no_match_message r pattern)
   /\ CommandResult.assert_search r pattern
      = raise ADBAssertionError (CommandResult.no_match_message r pattern))
  /\ (found_in pattern (stdout_of r) = true ->
      CommandResult.assert_contains r pattern = Ok tt
      /\ ((1 <= Re.groups p)%nat ->
          exists m,
            Re.scan (Re.tree p) (Re.groups p) None (stdout_of r) = Some m
            /\ CommandResult.assert_search r pattern = Ok (first_group_text m))
      /\ (Re.groups p = 0%nat ->
          CommandResult.assert_search r pattern = raise IndexError "no such group")).
Proof.
  intros Hc. rewrite (assert_contains_compiled r pattern p Hc).
  rewrite (found_in_compiled pattern _ p Hc).
  unfold CommandResult.assert_search, CommandResult.search.
  fold (stdout_of r). rewrite (search_compiled _ _ _ Hc). cbn [rbind].
  destruct (Re.scan _ _ _ _) as [m|] eqn:Hm; cbn [CommandResult.is_not_None].
  - split; [discriminate|]. intros _. split; [reflexivity|]. split.
    + intros Hg. exists m. split; [reflexivity|].
      now rewrite (first_group_of_match p _ m Hg Hm).
    + intros Hg. apply scan_groups in Hm.
      unfold CommandResult.first_group, Re.group. rewrite Hm, Hg. reflexivity.
  - split; [|discriminate]. intros _. split; reflexivity.
Qed.

(** X2 on the pattern of the device listing, with and without its
    group. *)
Lemma assert_search_agrees_with_assert_contains_witness :
  let r := result_of ["adb"; "devices"] 1 ("ABC123" ++ tab ++ "device" ++ nl) EmptyString in
  (CommandResult.assert_contains r "^(\w+)\s+device" = Ok tt
   /\ CommandResult.assert_search r "^(\w+)\s+device" = Ok "ABC123")
  /\ (CommandResult.assert_contains r "^\w+\s+device" = Ok tt
      /\ CommandResult.assert_search r "^\w+\s+device" = raise IndexError "no such group").
Proof.
  intros r. split.
  - destruct (proj2 (assert_search_agrees_with_assert_contains r "^(\w+)\s+device"
                       (compiled_pattern "^(\w+)\s+device") eq_refl) eq_refl)
      as (H1 & H2 & _).
    split; [exact H1|]. destruct (H2 (le_n 1)) as (m & Hm & Hs).
    rewrite Hs. f_equal.
    assert (E : Some m = Re.scan (Re.tree (compiled_pattern "^(\w+)\s+device"))
                           (Re.groups (compiled_pattern "^(\w+)\s+device")) None
                           (stdout_of r)) by (symmetry; exact Hm).
    vm_compute in E. injection E as ->. reflexivity.
  - destruct (proj2 (assert_search_agrees_with_assert_contains r "^\w+\s+device"
                       (compiled_pattern "^\w+\s+device") eq_refl) eq_refl)
      as (H1 & _ & H3).
    split; [exact H1 | exact (H3 eq_refl)].
Defined.

(** ** Splitting a text into pieces *)

Section Split.

Lemma cons_nonempty_Forall (P : string -> Prop) (t : string) (ts : list string) :
  P t -> Forall P ts -> Forall P (cons_nonempty t ts).
Proof. intros Ht Hts. destruct t; [exact Hts | now constructor]. Qed.

(** The pieces of [split] hold no whitespace. *)
Lemma split_pieces_no_space (s : string) :
  all_chars (kept isspace) (fst (split_pieces s)) = true
  /\ Forall (fun piece => all_chars (kept isspace) piece = true) (snd (split_pieces s)).
Proof.
  induction s as [|c s [IHt IHts]]; [split; [reflexivity | constructor]|].
  cbn [split_pieces]. destruct (split_pieces s) as [t ts]. cbn [fst snd] in *.
  destruct (isspace c) eqn:Hc; cbn [fst snd].
  - split; [reflexivity|]. now apply cons_nonempty_Forall.
  - split; [|exact IHts]. cbn [all_chars]. unfold kept at 1. now rewrite Hc, IHt.
Qed.

Lemma split_no_space (s : string) :
  Forall (fun piece => all_chars (kept isspace) piece = true) (split s).
Proof.
  unfold split. pose proof (split_pieces_no_space s) as [Ht Hts].
  destruct (split_pieces s) as [t ts]. now apply cons_nonempty_Forall.
Qed.

Lemma newline_is_space (c : ascii) : Re.is_char 10 c = true -> isspace c = true.
Proof. destruct c as [[] [] [] [] [] [] [] []]; vm_compute; congruence. Qed.

Lemma no_space_no_newline (piece : string) :
  all_chars (kept isspace) piece = true -> Re.has_newline piece = false.
Proof.
  induction piece as [|c piece IH]; [reflexivity|]. cbn [all_chars Re.has_newline].
  intros H. apply andb_prop in H as [Hc Hp]. rewrite (IH Hp), Bool.orb_false_r.
  destruct (Re.is_char 10 c) eqn:E; [|reflexivity].
  unfold kept in Hc. now rewrite (newline_is_space c E) in Hc.
Qed.

Lemma split_single_lines (s : string) :
  Forall (fun piece => Re.has_newline piece = false) (split s).
Proof.
  eapply Forall_impl; [|apply split_no_space]. exact no_space_no_newline.
Qed.

(** A text of whitespace has no pieces. *)
Lemma split_blank (s : string) : all_chars isspace s = true -> split s = [].
Proof.
  unfold split. induction s as [|c s IH]; [reflexivity|].
  cbn [all_chars split_pieces]. intros H. apply andb_prop in H as [Hc Hs].
  specialize (IH Hs). destruct (split_pieces s) as [t ts]. now rewrite Hc.
Qed.

Lemma split_on_cons (sep : ascii) (s : string) :
  exists t ts, split_on sep s = t :: ts.
Proof.
  destruct s as [|c s]; cbn [split_on]; [eauto|].
  destruct (Ascii.eqb c sep); [eauto|]. destruct (split_on sep s); eauto.
Qed.

(** Joining the pieces with the separator gives the text back. *)
Lemma join_split_on (s : string) : join " " (split_on SPACE s) = s.
Proof.
  unfold join. induction s as [|c s IH]; [reflexivity|]. cbn [split_on].
  destruct (split_on_cons SPACE s) as (t & ts & E). rewrite E in *.
  destruct (Ascii.eqb c SPACE) eqn:Hc.
  - apply Ascii.eqb_eq in Hc. subst c. cbn [String.concat]. now rewrite <- IH.
  - rewrite <- IH. destruct ts; reflexivity.
Qed.

Lemma concat_cons (sep x y : string) (l : list string) :
  String.concat sep (x :: y :: l) = x ++ sep ++ String.concat sep (y :: l).
Proof. reflexivity. Qed.

Lemma split_on_no_separator (s : string) :
  Forall (fun piece => all_chars (fun c => negb (Ascii.eqb c SPACE)) piece = true)
         (split_on SPACE s).
Proof.
  induction s as [|c s IH]; [repeat constructor|]. cbn [split_on].
  destruct (Ascii.eqb c SPACE) eqn:Hc; [now constructor|].
  destruct (split_on SPACE s) as [|t ts];
    [constructor; [cbn [all_chars]; now rewrite Hc | constructor]|].
  inversion IH as [|? ? Ht Hts]; subst. constructor; [|exact Hts].
  cbn [all_chars]. now rewrite Hc, Ht.
Qed.

End Split.

(** ** Key and value lines *)

Section KeyValue.

Lemma key_eqb_eq (a b : option string) : CommandResult.key_eqb a b = true <-> a = b.
Proof.
  destruct a as [x|], b as [y|]; cbn; try (split; congruence).
  rewrite String.eqb_eq. split; congruence.
Qed.

Lemma key_eqb_refl (a : option string) : CommandResult.key_eqb a a = true.
Proof. now apply key_eqb_eq. Qed.

(** Reading a key after an assignment. *)
Lemma dict_get_set (k k' v : option string) (d : CommandResult.dict) :
  CommandResult.dict_get k (CommandResult.dict_set k' v d)
  = if CommandResult.key_eqb k k' then Some v else CommandResult.dict_get k d.
Proof.
  induction d as [|[k1 v1] d IH]; [reflexivity|]. cbn [CommandResult.dict_set].
  destruct (CommandResult.key_eqb k' k1) eqn:E1; cbn [CommandResult.dict_get].
  - apply key_eqb_eq in E1. subst k1.
    destruct (CommandResult.key_eqb k k'); reflexivity.
  - rewrite IH. destruct (CommandResult.key_eqb k k1) eqn:E2; [|reflexivity].
    apply key_eqb_eq in E2. subst k1.
    destruct (CommandResult.key_eqb k k') eqn:E3; [|reflexivity].
    apply key_eqb_eq in E3. subst k'. now rewrite key_eqb_refl in E1.
Qed.

Lemma find_in_app {A} (f : A -> bool) (l1 l2 : list A) :
  find f (l1 ++ l2)
  = match find f l1 with Some x => Some x | None => find f l2 end.
Proof.
  induction l1 as [|x l1 IH]; [reflexivity|]. cbn. now destruct (f x).
Qed.

Lemma dict_get_stored (k : option string) (pairs : CommandResult.dict) :
  forall d,
    CommandResult.dict_get k (fold_left store pairs d)
    = match last_binding k pairs with
      | Some v => Some v
      | None => CommandResult.dict_get k d
      end.
Proof.
  unfold last_binding.
  induction pairs as [|[k1 v1] pairs IH]; intros d; [reflexivity|].
  cbn [fold_left List.rev]. rewrite IH, find_in_app.
  destruct (find _ (List.rev pairs)); [reflexivity|].
  unfold store. cbn [fst snd find option_map]. rewrite dict_get_set.
  destruct (CommandResult.key_eqb k k1); reflexivity.
Qed.

(** The loop on pieces of one line each, for a pattern of the modelled
    fragment with its two groups. *)
Lemma keyvalue_loop_compiled (pattern : string) (p : Re.Pattern) (pieces : list string) :
  Re.compile pattern = Re.Compiled p ->
  (2 <= Re.groups p)%nat ->
  Forall (fun piece => Re.has_newline piece = false) pieces ->
  forall kv,
    CommandResult.keyvalue_loop pattern pieces kv
    = Ok (fold_left store (bindings p pieces) kv).
Proof.
  intros Hc Hg Hp. induction Hp as [|piece pieces Hline _ IH]; intros kv; [reflexivity|].
  cbn [CommandResult.keyvalue_loop bindings].
  unfold Re.search_single_line. rewrite Hline.
  rewrite (search_compiled _ _ _ Hc). cbn [rbind].
  destruct (Re.scan _ _ _ piece) as [m|] eqn:Hm; [|apply IH].
  pose proof (scan_groups _ _ _ _ _ Hm) as Hn.
  unfold Re.group. rewrite Hn.
  destruct (Re.groups p) as [|[|g]]; [lia | lia |].
  cbn [Nat.leb rbind fold_left]. apply IH.
Qed.

(** With fewer than two groups the first piece that matches ends the
    loop. *)
Lemma keyvalue_loop_short (pattern : string) (p : Re.Pattern) (pieces : list string) :
  Re.compile pattern = Re.Compiled p ->
  (Re.groups p < 2)%nat ->
  Forall (fun piece => Re.has_newline piece = false) pieces ->
  forall kv,
    CommandResult.keyvalue_loop pattern pieces kv
    = match bindings p pieces with
      | [] => Ok kv
      | _ :: _ => raise IndexError "no such group"
      end.
Proof.
  intros Hc Hg Hp. induction Hp as [|piece pieces Hline _ IH]; intros kv; [reflexivity|].
  cbn [CommandResult.keyvalue_loop bindings].
  unfold Re.search_single_line. rewrite Hline.
  rewrite (search_compiled _ _ _ Hc). cbn [rbind].
  destruct (Re.scan _ _ _ piece) as [m|] eqn:Hm; [|apply IH].
  pose proof (scan_groups _ _ _ _ _ Hm) as Hn.
  unfold Re.group. rewrite Hn.
  destruct (Re.groups p) as [|[|g]]; [reflexivity | reflexivity | lia].
Qed.

End KeyValue.

(** X3. [assert_stderr_keyvalue] first requires that the command
    succeeded.  It then cuts the standard error at runs of whitespace, so
    that a piece never holds a blank or a newline, and tries the pattern
    on each piece.  With a pattern of two groups the call returns a
    dictionary in which every key that some piece produced is bound to
    the value of the last such piece, and no other key is bound.  A
    standard error of nothing but whitespace gives the empty dictionary
    for every pattern, a malformed one too, since the pattern is never
    tried.  With a pattern of fewer than two groups the call raises
    [IndexError] as soon as a piece matches. *)
Theorem assert_stderr_keyvalue_collects
        (r : CommandResult) (pattern : string) (p : Re.Pattern) :
  let pieces := split (stderr (completed_proc r)) in
  (CommandResult.succeeded r = false ->
   CommandResult.assert_stderr_keyvalue r pattern
   = raise ADBAssertionError (CommandResult.failure_message r))
  /\ (CommandResult.succeeded r = true ->
      (all_chars isspace (stderr (completed_proc r)) = true ->
       CommandResult.assert_stderr_keyvalue r pattern = Ok [])
      /\ (Re.compile pattern = Re.Compiled p ->
          (2 <= Re.groups p)%nat ->
          exists d,
            CommandResult.assert_stderr_keyvalue r pattern = Ok d
            /\ forall k, CommandResult.dict_get k d = last_binding k (bindings p pieces))
      /\ (Re.compile pattern = Re.Compiled p ->
          (Re.groups p < 2)%nat ->
          CommandResult.assert_stderr_keyvalue r pattern
          = match bindings p pieces with
            | [] => Ok []
            | _ :: _ => raise IndexError "no such group"
            end)).
Proof.
  intros pieces. unfold CommandResult.assert_stderr_keyvalue,
    CommandResult.assert_succeeded.
  split; [intros ->; reflexivity|]. intros ->. cbn [negb rbind]. fold pieces.
  split; [|split].
  - intros Hb. unfold pieces. now rewrite (split_blank _ Hb).
  - intros Hc Hg. eexists. split.
    + apply (keyvalue_loop_compiled pattern p pieces Hc Hg). apply split_single_lines.
    + intros k. rewrite dict_get_stored.
      destruct (last_binding k (bindings p pieces)); reflexivity.
  - intros Hc Hg.
    apply (keyvalue_loop_short pattern p pieces Hc Hg). apply split_single_lines.
Qed.

(** X3 on a standard error in which the key [speed] occurs twice. *)
Lemma assert_stderr_keyvalue_collects_witness :
  let r := result_of ["mfg"; "fan"] 0 EmptyString
             ("speed=10 fan:ok" ++ nl ++ "temp=41" ++ tab ++ "speed=12" ++ nl) in
  exists d,
    CommandResult.assert_stderr_keyvalue r "^(\w+)=(\w+)" = Ok d
    /\ CommandResult.dict_get (Some "speed") d = Some (Some "12")
    /\ CommandResult.dict_get (Some "temp") d = Some (Some "41")
    /\ CommandResult.dict_get (Some "fan") d = None.
Proof.
  intros r.
  destruct (proj1 (proj2 (proj2 (assert_stderr_keyvalue_collects r "^(\w+)=(\w+)"
                            (compiled_pattern "^(\w+)=(\w+)")) eq_refl))
              eq_refl (le_n 2)) as (d & Hd & Hget).
  exists d. split; [exact Hd|].
  rewrite !Hget. repeat split; reflexivity.
Defined.

(** X4. The methods that take a command as one text cut it at every
    single blank, so that joining the arguments with blanks gives the
    text back: [assert_log_mfg_command_str] makes exactly one call, whose
    command line reads [adb -s serial shell mfg] followed by the text as
    it was given.  No argument holds a blank, and two blanks in a row
    give an empty argument. *)
Theorem mfg_command_line_is_the_text :
  (forall s, join " " (split_on SPACE s) = s)
  /\ (forall s,
        Forall (fun piece => all_chars (fun c => negb (Ascii.eqb c SPACE)) piece = true)
               (split_on SPACE s))
  /\ (forall st ser cmd,
        device_serial (self st) = Some ser ->
        let c := adb_call st ser ("shell" :: "mfg" :: split_on SPACE cmd) 10 in
        issued (assert_log_mfg_command_str cmd) st = [c]
        /\ join " " (argv c)
           = ADB_PATH (world st) ++ " -s " ++ ser ++ " shell mfg " ++ cmd).
Proof.
  split; [exact join_split_on|]. split; [exact split_on_no_separator|].
  intros st ser cmd Hser c. split.
  - apply issued_calls. unfold assert_log_mfg_command_str, run_mfg_command,
      run_shell_command. unfold bind at 1.
    rewrite (run_command_bound _ _ _ _ Hser). fold c.
    destruct (reply c st) as [cp|]; [|reflexivity].
    unfold bind, lift.
    destruct (NeoCommandResult.assert_mfg_succeeded _); reflexivity.
  - unfold c, adb_call. cbn [argv]. unfold join.
    pose proof (join_split_on cmd) as E. unfold join in E.
    destruct (split_on_cons SPACE cmd) as (t & ts & Hs). rewrite Hs in *.
    rewrite !concat_cons, E. reflexivity.
Qed.

(** X4 on a command with two blanks in a row. *)
Lemma mfg_command_line_is_the_text_witness :
  let st := bound_to [] in
  map argv (issued (assert_log_mfg_command_str "led  on") st)
  = [["adb"; "-s"; "ABC123"; "shell"; "mfg"; "led"; ""; "on"]]
  /\ join " " ["adb"; "-s"; "ABC123"; "shell"; "mfg"; "led"; ""; "on"]
     = "adb -s ABC123 shell mfg led  on".
Proof.
  intros st.
  destruct (proj2 (proj2 mfg_command_line_is_the_text) st "ABC123" "led  on" eq_refl)
    as [H1 H2].
  split; [now rewrite H1 | exact H2].
Defined.

(** ** Families and board revisions *)

Section Enums.

Lemma BoardType_listed (b : BoardType) : In b all_BoardType.
Proof. destruct b; cbn; tauto. Qed.

Lemma DeviceType_listed (d : DeviceType) : In d all_DeviceType.
Proof. destruct d; cbn; tauto. Qed.

Lemma BoardType_by_value_sound (v : Z) (b : BoardType) :
  BoardType_by_value v = Some b -> BoardType_value b = v.
Proof.
  intros H. apply find_some in H. destruct H as [_ H]. now apply Z.eqb_eq.
Qed.

Lemma DeviceType_by_value_sound (v : string) (d : DeviceType) :
  DeviceType_by_value v = Some d -> DeviceType_value d = v.
Proof.
  intros H. apply find_some in H. destruct H as [_ H]. now apply String.eqb_eq.
Qed.

Lemma BoardType_by_value_complete (b : BoardType) :
  BoardType_by_value (BoardType_value b) = Some b.
Proof. destruct b; reflexivity. Qed.

Lemma DeviceType_by_value_complete (d : DeviceType) :
  DeviceType_by_value (DeviceType_value d) = Some d.
Proof. destruct d; reflexivity. Qed.

End Enums.

(** X5. Looking a member up by its value and taking the value of a member
    undo each other, for both enumerations: no two members share a value.
    A revision number has a member exactly when it is one of the eleven
    listed values, and [BoardType(v)] raises [ValueError] for every other
    number, as [DeviceType(name)] does for every name other than the two
    families and for [None]. *)
Theorem enum_lookup_round_trip :
  (forall b, BoardType_call (BoardType_value b) = Ok b)
  /\ (forall v b, BoardType_call v = Ok b -> BoardType_value b = v)
  /\ (forall v,
        In v [0; 1; 160; 161; 162; 163; 164; 165; 176; 177; 178]
        \/ BoardType_call v
           = raise ValueError (str_of_int v ++ " is not a valid BoardType"))
  /\ (forall d, DeviceType_call (Some (DeviceType_value d)) = Ok d)
  /\ (forall name d, DeviceType_call name = Ok d -> name = Some (DeviceType_value d))
  /\ (forall name,
        name = Some "hammerhead" \/ name = Some "greatwhite"
        \/ exists msg, DeviceType_call name = raise ValueError msg).
Proof.
  split; [|split; [|split; [|split; [|split]]]].
  - intros b. unfold BoardType_call. now rewrite BoardType_by_value_complete.
  - intros v b. unfold BoardType_call.
    destruct (BoardType_by_value v) as [b'|] eqn:E; [|discriminate].
    intros H. injection H as <-. now apply BoardType_by_value_sound.
  - intros v. unfold BoardType_call.
    destruct (BoardType_by_value v) as [b|] eqn:E; [left|right; reflexivity].
    apply BoardType_by_value_sound in E. subst v. destruct b; cbn; tauto.
  - intros d. unfold DeviceType_call. now rewrite DeviceType_by_value_complete.
  - intros [name|] d; [|discriminate]. unfold DeviceType_call.
    destruct (DeviceType_by_value name) as [d'|] eqn:E; [|discriminate].
    intros H. injection H as <-. f_equal. symmetry. now apply DeviceType_by_value_sound.
  - intros [name|]; [|right; right; eexists; reflexivity]. unfold DeviceType_call.
    destruct (DeviceType_by_value name) as [d|] eqn:E.
    + apply DeviceType_by_value_sound in E. subst name. destruct d; cbn; auto.
    + right; right; eexists; reflexivity.
Qed.

(** X5 on the revision 164 and on the family name greatwhite. *)
Lemma enum_lookup_round_trip_witness :
  BoardType_value SN_EVT1 = 164 /\ Some (DeviceType_value GREATWHITE) = Some "greatwhite".
Proof.
  split.
  - exact (proj1 (proj2 enum_lookup_round_trip) 164 SN_EVT1 eq_refl).
  - symmetry.
    exact (proj1 (proj2 (proj2 (proj2 (proj2 enum_lookup_round_trip))))
             (Some "greatwhite") GREATWHITE eq_refl).
Defined.

(** ** Form factor *)

Section FormFactor.

Lemma the_board_type_set (st : State) (b : BoardType) :
  board_type (self st) = Some b -> the_board_type st = (Ok b, st).
Proof. intros H. unfold the_board_type, bind, get. now rewrite H. Qed.

Lemma is_form_factory_device_set (st : State) (b : BoardType) :
  board_type (self st) = Some b ->
  is_form_factory_device st
  = (Ok (existsb (Z.eqb (BoardType_value b)) form_factor_values), st).
Proof.
  intros H. unfold is_form_factory_device.
  repeat (rewrite (bind_ok _ _ _ _ _ (the_board_type_set st b H));
          match goal with |- context [BoardType_eqb b ?x] =>
            destruct (BoardType_eqb b x) eqn:? end;
          [destruct b; try discriminate; reflexivity|]).
  destruct b; try discriminate; reflexivity.
Qed.

End FormFactor.

(** ** Resolving the identity *)

Section IdentityResolved.

Lemma placeholder_by_eqb (fam : DeviceType) :
  (if DeviceType_eqb fam HAMMERHEAD then SN_UNKNOWN else HN_UNKNOWN) = placeholder fam.
Proof. destruct fam; reflexivity. Qed.

(** Without root the [try] reads nothing from the device. *)
Lemma resolve_identity_unrooted (st : State) :
  root (self st) = false ->
  resolve_identity st
  = match DeviceType_call (device_name (self st)) with
    | Ok fam =>
        (Ok tt, updated (with_board_type (Some (placeholder fam)))
                  (updated (with_device_type (Some fam)) st))
    | Raise e => (Raise e, st)
    end.
Proof.
  intros Hroot. rewrite resolve_identity_handler_unreachable.
  unfold resolve_identity_body, bind, get, lift, assign.
  destruct (DeviceType_call _) as [fam|e]; [|reflexivity].
  cbn [self with_device_type root]. rewrite Hroot.
  rewrite placeholder_by_eqb. reflexivity.
Qed.

(** With root the [try] reads the revision file. *)
Lemma resolve_identity_rooted (st : State) (ser : string) (fam : DeviceType) :
  root (self st) = true ->
  device_serial (self st) = Some ser ->
  DeviceType_call (device_name (self st)) = Ok fam ->
  resolve_identity st
  = let st1 := called (revision_call st ser) (updated (with_device_type (Some fam)) st) in
    match reply (revision_call st ser) st with
    | Completed cp =>
        match CommandResult.assert_int
                (new_CommandResult (argv (revision_call st ser)) cp) with
        | Ok n =>
            match BoardType_call n with
            | Ok b => (Ok tt, updated (with_board_type (Some b)) st1)
            | Raise e => (Raise e, st1)
            end
        | Raise e => (Raise e, st1)
        end
    | Expired =>
        (raise TimeoutExpired (join " " (argv (revision_call st ser))), st1)
    end.
Proof.
  intros Hroot Hser Hfam. rewrite resolve_identity_handler_unreachable.
  unfold resolve_identity_body. unfold bind at 1. unfold get at 1.
  unfold bind at 1. unfold lift at 1. rewrite Hfam.
  unfold bind at 1. unfold assign at 1. unfold bind at 1. unfold get at 1.
  cbn [self with_device_type root]. rewrite Hroot.
  unfold bind at 1. unfold assert_file_int, run_shell_command. unfold bind at 1.
  fold (updated (with_device_type (Some fam)) st).
  assert (Hser' : device_serial (self (updated (with_device_type (Some fam)) st))
                  = Some ser) by exact Hser.
  rewrite (run_command_bound _ _ _ _ Hser').
  change (adb_call (updated (with_device_type (Some fam)) st) ser
            ["shell"; "cat"; bt_file] 10) with (revision_call st ser).
  change (reply (revision_call st ser) (updated (with_device_type (Some fam)) st))
    with (reply (revision_call st ser) st).
  cbv zeta.
  destruct (reply _ st) as [cp|]; [|reflexivity].
  unfold lift at 1. destruct (CommandResult.assert_int _) as [n|e]; [|reflexivity].
  unfold bind, lift, assign. destruct (BoardType_call n); reflexivity.
Qed.

Lemma DeviceType_call_inv (name : option string) (fam : DeviceType) :
  DeviceType_call name = Ok fam -> name = Some (DeviceType_value fam).
Proof.
  destruct name as [nm|]; [|discriminate]. unfold DeviceType_call.
  destruct (DeviceType_by_value nm) as [d|] eqn:E; [|discriminate].
  intros H. injection H as <-. f_equal. symmetry. now apply DeviceType_by_value_sound.
Qed.

Lemma BoardType_call_inv (n : Z) (b : BoardType) :
  BoardType_call n = Ok b -> n = BoardType_value b.
Proof.
  unfold BoardType_call. destruct (BoardType_by_value n) as [b'|] eqn:E; [|discriminate].
  intros H. injection H as <-. symmetry. now apply BoardType_by_value_sound.
Qed.

End IdentityResolved.

(** X6. Whenever the [try] statement of [NeoADBSession.refresh_device_state]
    completes, the object carries a family and a board: the device name is
    the value of the family, and nothing else on the object has changed.
    Without root the board is the placeholder of the family and the
    device was not asked; with root exactly one call was made, the read of
    the revision file, and the board is the member whose value the file
    holds. *)
Theorem resolve_identity_returns (st st' : State) :
  resolve_identity st = (Ok tt, st') ->
  exists fam b,
    device_name (self st) = Some (DeviceType_value fam)
    /\ self st' = with_board_type (Some b) (with_device_type (Some fam) (self st))
    /\ (root (self st) = false ->
        b = placeholder fam /\ issued resolve_identity st = [])
    /\ (root (self st) = true ->
        exists ser cp,
          device_serial (self st) = Some ser
          /\ issued resolve_identity st = [revision_call st ser]
          /\ reply (revision_call st ser) st = Completed cp
          /\ CommandResult.assert_int (new_CommandResult (argv (revision_call st ser)) cp)
             = Ok (BoardType_value b)).
Proof.
  intros H.
  destruct (DeviceType_call (device_name (self st))) as [fam|e] eqn:Hfam.
  2:{ exfalso. revert H. rewrite resolve_identity_handler_unreachable.
      unfold resolve_identity_body, bind, get, lift. rewrite Hfam. discriminate. }
  pose proof (DeviceType_call_inv _ _ Hfam) as Hname.
  destruct (root (self st)) eqn:Hroot.
  - destruct (device_serial (self st)) as [ser|] eqn:Hser.
    2:{ exfalso. revert H. rewrite resolve_identity_handler_unreachable.
        unfold resolve_identity_body. unfold bind at 1. unfold get at 1.
        unfold bind at 1. unfold lift at 1. rewrite Hfam.
        unfold bind at 1. unfold assign at 1. unfold bind at 1. unfold get at 1.
        cbn [self with_device_type root]. rewrite Hroot.
        unfold bind at 1. unfold assert_file_int, run_shell_command. unfold bind at 1.
        match goal with |- context [run_command ?c ?t ?s] =>
          destruct (run_command_unbound c t s Hser) as [msg ->] end.
        discriminate. }
    pose proof (resolve_identity_rooted st ser fam Hroot Hser Hfam) as E.
    cbv zeta in E.
    destruct (reply (revision_call st ser) st) as [cp|] eqn:Hreply.
    2:{ rewrite E in H. discriminate. }
    destruct (CommandResult.assert_int _) as [n|e] eqn:Hint.
    2:{ rewrite E in H. discriminate. }
    destruct (BoardType_call n) as [b|e] eqn:Hboard.
    2:{ rewrite E in H. discriminate. }
    exists fam, b. split; [exact Hname|]. split.
    { rewrite E in H. injection H as <-. reflexivity. }
    split; [discriminate|]. intros _. exists ser, cp.
    split; [reflexivity|]. split.
    { apply issued_calls. rewrite E. reflexivity. }
    split; [exact Hreply|].
    rewrite Hint. f_equal. now apply BoardType_call_inv.
  - pose proof (resolve_identity_unrooted st Hroot) as E. rewrite Hfam in E.
    exists fam, (placeholder fam). split; [exact Hname|]. split.
    { rewrite E in H. injection H as <-. reflexivity. }
    split; [|discriminate]. intros _. split; [reflexivity|].
    apply issued_calls. rewrite E. cbn. now rewrite app_nil_r.
Qed.

(** X6 on an unprivileged session that carries the name hammerhead. *)
Lemma resolve_identity_returns_witness :
  exists fam b,
    device_name bound_session = Some (DeviceType_value fam)
    /\ self (snd (resolve_identity (bound_to []))) 
       = with_board_type (Some b) (with_device_type (Some fam) bound_session)
    /\ (root bound_session = false ->
        b = placeholder fam /\ issued resolve_identity (bound_to []) = []).
Proof.
  destruct (resolve_identity_returns (bound_to []) _ eq_refl)
    as (fam & b & H1 & H2 & H3 & _).
  exists fam, b. split; [exact H1|]. split; [exact H2 | exact H3].
Defined.

(** X7. [is_form_factory_device] and [device_has_battery] answer [True]
    exactly for the boards 161, 164, 165 and 178, without a call and
    without a change; they raise [AttributeError] on an object whose
    board has not been resolved.  A board resolved without root is a
    placeholder, so that both answer [False] for every unprivileged
    session, whatever the device is. *)
Theorem form_factor_by_board :
  (forall st b,
     board_type (self st) = Some b ->
     is_form_factory_device st
     = (Ok (existsb (Z.eqb (BoardType_value b)) form_factor_values), st)
     /\ device_has_battery st = is_form_factory_device st)
  /\ (forall st,
        board_type (self st) = None ->
        exists msg, device_has_battery st = (raise AttributeError msg, st))
  /\ (forall st st',
        root (self st) = false ->
        resolve_identity st = (Ok tt, st') ->
        device_has_battery st' = (Ok false, st')).
Proof.
  split; [|split].
  - intros st b H. split; [now apply is_form_factory_device_set | reflexivity].
  - intros st H. eexists.
    unfold device_has_battery, is_form_factory_device, the_board_type, bind, get,
      throw, lift.
    rewrite H. reflexivity.
  - intros st st' Hroot H.
    rewrite (resolve_identity_unrooted st Hroot) in H.
    destruct (DeviceType_call _) as [fam|e]; [|discriminate].
    injection H as <-. unfold device_has_battery.
    match goal with |- is_form_factory_device ?s = _ =>
      rewrite (is_form_factory_device_set s (placeholder fam) eq_refl) end.
    destruct fam; reflexivity.
Qed.

(** X7 on the board SN_P1 and on an unprivileged session. *)
Lemma form_factor_by_board_witness :
  (let st := updated (with_board_type (Some SN_P1)) (bound_to []) in
   is_form_factory_device st = (Ok true, st))
  /\ (let st' := snd (resolve_identity (bound_to [])) in
      device_has_battery st' = (Ok false, st')).
Proof.
  split.
  - exact (proj1 (proj1 form_factor_by_board
                    (updated (with_board_type (Some SN_P1)) (bound_to [])) SN_P1 eq_refl)).
  - exact (proj2 (proj2 form_factor_by_board) (bound_to []) _ eq_refl eq_refl).
Defined.

(** ** One command, one call *)

Section Once.

Lemma run_fastboot_command_bound (cmd : list string) (t : Z) (st : State) (ser : string) :
  device_serial (self st) = Some ser ->
  run_fastboot_command cmd t st =
  (match reply (fastboot_call st ser cmd t) st with
   | Completed cp => Ok (new_CommandResult (argv (fastboot_call st ser cmd t)) cp)
   | Expired => raise TimeoutExpired (join " " (argv (fastboot_call st ser cmd t)))
   end,
   called (fastboot_call st ser cmd t) st).
Proof.
  intros H. unfold run_fastboot_command, with_serial, bind, get, the_FASTBOOT_PATH,
    run_cli_command, subprocess_run, ret, bind.
  rewrite H. cbn [fst snd]. unfold fastboot_call.
  destruct (reply _ st); reflexivity.
Qed.

Lemma run_fastboot_command_unbound (cmd : list string) (t : Z) (st : State) :
  device_serial (self st) = None ->
  exists msg, run_fastboot_command cmd t st = (raise TypeError msg, st).
Proof.
  intros H. unfold run_fastboot_command, with_serial, bind, get, throw, lift.
  rewrite H. eexists. reflexivity.
Qed.

(** [ADBSession.assert_succeeded] on a bound session. *)
Lemma assert_succeeded_bound (cmd : list string) (t : Z) (st : State) (ser : string) :
  device_serial (self st) = Some ser ->
  assert_succeeded cmd t st =
  (match reply (adb_call st ser ("shell" :: cmd) t) st with
   | Completed cp =>
       if returncode cp =? 0 then Ok tt
       else raise ADBAssertionError
              (CommandResult.failure_message
                 (new_CommandResult (argv (adb_call st ser ("shell" :: cmd) t)) cp))
   | Expired => raise TimeoutExpired (join " " (argv (adb_call st ser ("shell" :: cmd) t)))
   end,
   called (adb_call st ser ("shell" :: cmd) t) st).
Proof.
  intros H. unfold assert_succeeded, run_shell_command. unfold bind at 1.
  rewrite (run_command_bound _ _ _ _ H).
  destruct (reply _ st) as [cp|]; [|reflexivity].
  unfold lift, CommandResult.assert_succeeded, CommandResult.succeeded.
  cbn [new_CommandResult completed_proc].
  destruct (returncode cp =? 0); reflexivity.
Qed.

Lemma called_trace (c : Call) (st : State) :
  trace (world (called c st)) = (trace (world st) ++ [c])%list.
Proof. reflexivity. Qed.

End Once.

(** X8. A command is tried once.  On a bound session [run_command],
    [run_fastboot_command] and [assert_succeeded] make exactly one call,
    [tool -s serial ...] with the timeout they were given, whatever comes
    of it.  [assert_succeeded] returns exactly when the exit status is 0,
    raises [ADBAssertionError] with the failure message for any other
    status, and lets [TimeoutExpired] through when the command does not
    finish in time; in no case is there a second call.  A timeout of
    [adb root] leaves the flag [root] unset.  On a session that is not
    bound yet, the call ends in a [TypeError] before any process is
    started. *)
Theorem commands_are_tried_once :
  (forall st ser cmd t,
     device_serial (self st) = Some ser ->
     issued (run_command cmd t) st = [adb_call st ser cmd t]
     /\ issued (run_fastboot_command cmd t) st = [fastboot_call st ser cmd t]
     /\ issued (assert_succeeded cmd t) st = [adb_call st ser ("shell" :: cmd) t]
     /\ (forall cp,
           reply (adb_call st ser ("shell" :: cmd) t) st = Completed cp ->
           fst (assert_succeeded cmd t st) = Ok tt <-> returncode cp = 0)
     /\ (forall cp,
           reply (adb_call st ser ("shell" :: cmd) t) st = Completed cp ->
           returncode cp <> 0 ->
           fst (assert_succeeded cmd t st)
           = raise ADBAssertionError
               (CommandResult.failure_message
                  (new_CommandResult (argv (adb_call st ser ("shell" :: cmd) t)) cp)))
     /\ (reply (adb_call st ser ("shell" :: cmd) t) st = Expired ->
         exists msg, fst (assert_succeeded cmd t st) = raise TimeoutExpired msg)
     /\ (root (self st) = false ->
         reply (root_call st ser) st = Expired ->
         exists msg,
           assert_root st = (raise TimeoutExpired msg, called (root_call st ser) st)))
  /\ (forall st cmd t,
        device_serial (self st) = None ->
        exists msg,
          run_command cmd t st = (raise TypeError msg, st)
          /\ issued (run_command cmd t) st = []).
Proof.
  split.
  - intros st ser cmd t Hser.
    split; [|split; [|split; [|split; [|split; [|split]]]]].
    + apply issued_calls. now rewrite (run_command_bound _ _ _ _ Hser).
    + apply issued_calls. now rewrite (run_fastboot_command_bound _ _ _ _ Hser).
    + apply issued_calls. now rewrite (assert_succeeded_bound _ _ _ _ Hser).
    + intros cp Hreply. rewrite (assert_succeeded_bound _ _ _ _ Hser), Hreply.
      cbn [fst]. destruct (returncode cp =? 0) eqn:E.
      * apply Z.eqb_eq in E. tauto.
      * apply Z.eqb_neq in E. split; [discriminate | tauto].
    + intros cp Hreply Hcode. rewrite (assert_succeeded_bound _ _ _ _ Hser), Hreply.
      cbn [fst]. apply Z.eqb_neq in Hcode. now rewrite Hcode.
    + intros Hreply. rewrite (assert_succeeded_bound _ _ _ _ Hser), Hreply.
      eexists. reflexivity.
    + intros Hroot Hreply. eexists.
      unfold assert_root. unfold bind at 1. unfold get. rewrite Hroot.
      unfold bind at 1. rewrite (run_command_bound _ _ _ _ Hser).
      fold (root_call st ser). rewrite Hreply. reflexivity.
  - intros st cmd t Hser.
    destruct (run_command_unbound cmd t st Hser) as [msg E].
    exists msg. split; [exact E|]. exact (issued_nothing _ _ _ E).
Qed.

(** X8 on a device that answers [setenforce] with the exit status 1. *)
Lemma commands_are_tried_once_witness :
  let st := bound_to [] in
  issued (assert_succeeded ["setenforce"; "1"] 10) st
  = [adb_call st "ABC123" ["shell"; "setenforce"; "1"] 10]
  /\ fst (assert_succeeded ["setenforce"; "1"] 10 st)
     = raise ADBAssertionError
         ("FAILED (1): adb -s ABC123 shell setenforce 1" ++ nl ++ "STDERR=STDOUT=").
Proof.
  intros st.
  destruct (proj1 commands_are_tried_once st "ABC123" ["setenforce"; "1"] 10 eq_refl)
    as (_ & _ & H3 & _ & H5 & _).
  split; [exact H3|].
  exact (H5 {| returncode := 1; stdout := EmptyString; stderr := EmptyString |}
            eq_refl ltac:(discriminate)).
Defined.

(** ** Remounting and dropping root *)

Section Remount.

Lemma assert_remount_cached (st : State) :
  remounted (self st) = true -> assert_remount st = (Ok tt, st).
Proof. intros H. unfold assert_remount, bind, get. now rewrite H. Qed.

(** One call of [assert_remount]: at most one call, which is the remount;
    the flag is set whenever the call returns, and [root] stays as it
    is. *)
Lemma assert_remount_effect (st : State) :
  exists res st' l,
    assert_remount st = (res, st')
    /\ (res = Ok tt -> remounted (self st') = true)
    /\ root (self st') = root (self st)
    /\ trace (world st') = (trace (world st) ++ l)%list
    /\ (l = [] \/ exists ser, device_serial (self st) = Some ser
                              /\ l = [adb_call st ser ["remount"] 10]).
Proof.
  destruct (remounted (self st)) eqn:Hm.
  { exists (Ok tt), st, []. rewrite (assert_remount_cached st Hm), app_nil_r.
    repeat split; auto. }
  unfold assert_remount. unfold bind at 1. unfold get. rewrite Hm.
  unfold bind at 1.
  destruct (device_serial (self st)) as [ser|] eqn:Hser.
  2:{ destruct (run_command_unbound ["remount"] 10 st Hser) as [msg ->].
      exists (raise TypeError msg), st, []. rewrite app_nil_r.
      repeat split; auto; discriminate. }
  rewrite (run_command_bound _ _ _ _ Hser).
  destruct (reply _ st) as [cp|].
  2:{ do 3 eexists. split; [reflexivity|]. split; [discriminate|].
      split; [reflexivity|]. split; [reflexivity|]. right. eauto. }
  unfold bind, lift, assign.
  destruct (CommandResult.assert_succeeded _) as [[]|e].
  - do 3 eexists. split; [reflexivity|]. split; [reflexivity|].
    split; [reflexivity|]. split; [reflexivity|]. right. eauto.
  - do 3 eexists. split; [reflexivity|]. split; [discriminate|].
    split; [reflexivity|]. split; [reflexivity|]. right. eauto.
Qed.

End Remount.

(** X9. [assert_remount] is idempotent on its cached flag: with
    [remounted] set it returns at once and leaves the state, the trace
    included, as it was; a call that returns leaves the flag set; two
    calls in a row send at most one command to the device, the remount.
    It does not touch the flag [root] and never escalates: on a session
    without root the remount command is sent as it is. *)
Theorem assert_remount_twice_remounts_once :
  (forall st, remounted (self st) = true -> assert_remount st = (Ok tt, st))
  /\ (forall st st',
        assert_remount st = (Ok tt, st') ->
        remounted (self st') = true /\ assert_remount st' = (Ok tt, st'))
  /\ (forall st,
        (List.length (issued (assert_remount ;; assert_remount) st) <= 1)%nat
        /\ forallb is_remount_call (issued (assert_remount ;; assert_remount) st) = true)
  /\ (forall st,
        root (self (snd (assert_remount st))) = root (self st)
        /\ escalations (issued assert_remount st) = 0%nat).
Proof.
  split; [exact assert_remount_cached|]. split; [|split].
  - intros st st' H.
    destruct (assert_remount_effect st) as (res & st1 & l & E & Hr & _).
    rewrite E in H. injection H as -> ->.
    split; [auto|]. apply assert_remount_cached. auto.
  - intros st.
    destruct (assert_remount_effect st) as (res & st1 & l & E & Hr & _ & Htrace & Hl).
    assert (Hi : issued (assert_remount ;; assert_remount) st = l).
    { apply issued_calls. unfold bind. rewrite E.
      destruct res as [[]|e]; [|exact Htrace].
      rewrite (assert_remount_cached st1 (Hr eq_refl)). exact Htrace. }
    rewrite Hi. destruct Hl as [->|(ser & _ & ->)].
    + split; [cbn; lia | reflexivity].
    + split; [cbn; lia | reflexivity].
  - intros st.
    destruct (assert_remount_effect st) as (res & st1 & l & E & _ & Hroot & Htrace & Hl).
    rewrite (issued_calls _ st l) by (rewrite E; exact Htrace).
    rewrite E. split; [exact Hroot|].
    destruct Hl as [->|(ser & _ & ->)]; reflexivity.
Qed.

(** X9 on a device that accepts the remount. *)
Lemma assert_remount_twice_remounts_once_witness :
  let st := bound_to [(["adb"; "-s"; "ABC123"; "remount"],
                       completed 0 ("remount succeeded" ++ nl))] in
  let st1 := snd (assert_remount st) in
  remounted (self st) = false
  /\ remounted (self st1) = true
  /\ assert_remount st1 = (Ok tt, st1)
  /\ map argv (issued (assert_remount ;; assert_remount) st)
     = [["adb"; "-s"; "ABC123"; "remount"]].
Proof.
  intros st st1.
  destruct (proj1 (proj2 assert_remount_twice_remounts_once) st st1 eq_refl) as [H1 H2].
  split; [reflexivity|]. split; [exact H1|]. split; [exact H2 | reflexivity].
Defined.

Section Unroot.

Lemma unroot_bound (st : State) (ser : string) :
  device_serial (self st) = Some ser ->
  unroot st
  = let c := adb_call st ser ["unroot"] 10 in
    match reply c st with
    | Completed cp =>
        if returncode cp =? 0 then (Ok tt, updated (with_root false) (called c st))
        else (raise ADBAssertionError
                (CommandResult.failure_message (new_CommandResult (argv c) cp)),
              called c st)
    | Expired => (raise TimeoutExpired (join " " (argv c)), called c st)
    end.
Proof.
  intros Hser. unfold unroot. unfold bind at 1.
  rewrite (run_command_bound _ _ _ _ Hser). cbv zeta.
  destruct (reply _ st) as [cp|]; [|reflexivity].
  unfold bind, lift, assign, CommandResult.assert_succeeded, CommandResult.succeeded.
  cbn [new_CommandResult completed_proc].
  destruct (returncode cp =? 0); reflexivity.
Qed.

(** Without the flag, [assert_root] starts with the escalation. *)
Lemma assert_root_calls_first (st : State) (ser : string) :
  root (self st) = false ->
  device_serial (self st) = Some ser ->
  grows (called (root_call st ser) st) (snd (assert_root st)).
Proof.
  intros Hroot Hser. unfold assert_root. unfold bind at 1. unfold get. rewrite Hroot.
  apply grows_bind; [|intros; monotone_by_definition].
  rewrite (run_command_bound _ _ _ _ Hser). apply grows_refl.
Qed.

End Unroot.

(** X10. [unroot] sends [adb -s serial unroot] and, when the command
    succeeds, clears the flag [root] and nothing else: the cached
    [factory_mode], [remounted] and [vendor_mcs_enabled] stay as they
    were, although from then on [is_factory_mode] answers [False] without
    asking the device.  A following [assert_root] escalates again.  When
    the command fails the flag keeps its value. *)
Theorem unroot_clears_root_only (st : State) (ser : string) (cp : CompletedProcess) :
  device_serial (self st) = Some ser ->
  reply (adb_call st ser ["unroot"] 10) st = Completed cp ->
  let c := adb_call st ser ["unroot"] 10 in
  (returncode cp = 0 ->
   let st' := updated (with_root false) (called c st) in
   unroot st = (Ok tt, st')
   /\ self st' = with_root false (self st)
   /\ is_factory_mode st' = (Ok false, st')
   /\ exists rest, issued (unroot ;; assert_root) st = c :: root_call st ser :: rest)
  /\ (returncode cp <> 0 ->
      exists e, unroot st = (Raise e, called c st)).
Proof.
  intros Hser Hreply c. pose proof (unroot_bound st ser Hser) as E.
  cbv zeta in E. fold c in E. unfold c in Hreply. fold c in Hreply. rewrite Hreply in E.
  split.
  - intros Hcode st'. rewrite Hcode in E. cbn [Z.eqb] in E. fold st' in E.
    split; [exact E|]. split; [reflexivity|]. split.
    + now apply is_factory_mode_unrooted.
    + assert (Hg : grows (called (root_call st ser) st')
                     (snd (bind unroot (fun _ => assert_root) st))).
      { rewrite (bind_ok _ _ _ _ _ E).
        exact (assert_root_calls_first st' ser eq_refl Hser). }
      destruct Hg as [l Hl]. exists l. apply issued_calls. rewrite Hl. cbn.
      rewrite <- !app_assoc. reflexivity.
  - intros Hcode. apply Z.eqb_neq in Hcode. rewrite Hcode in E. eexists. exact E.
Qed.

(** X10 on a privileged session with [factory_mode] cached: after
    [unroot] the cached flag is still set, and the query answers
    [False]. *)
Lemma unroot_clears_root_only_witness :
  let st := updated (with_factory_mode true) (updated (with_root true)
              (bound_to [(["adb"; "-s"; "ABC123"; "unroot"], completed 0 EmptyString)])) in
  let st' := snd (unroot st) in
  fst (unroot st) = Ok tt
  /\ (root (self st'), factory_mode (self st')) = (false, true)
  /\ is_factory_mode st' = (Ok false, st').
Proof.
  intros st st'.
  destruct (proj1 (unroot_clears_root_only st "ABC123"
                     {| returncode := 0; stdout := EmptyString; stderr := EmptyString |}
                     eq_refl eq_refl) eq_refl)
    as (H1 & _ & H3 & _).
  split; [now rewrite H1|]. split; [reflexivity|].
  unfold st'. rewrite H1. exact H3.
Defined.

(** ** Factory mode *)

Section FactoryMode.

Lemma wait_for_device_bound (wait_root : bool) (st : State) (ser : string) :
  device_serial (self st) = Some ser ->
  wait_for_device wait_root st
  = let c := adb_call st ser
               (["wait-for-device"] ++ (if wait_root then ["root"] else []))%list 60 in
    (match reply c st with
     | Completed cp =>
         if returncode cp =? 0 then Ok tt
         else raise ADBAssertionError
                (CommandResult.failure_message (new_CommandResult (argv c) cp))
     | Expired => raise TimeoutExpired (join " " (argv c))
     end, called c st).
Proof.
  intros Hser. unfold wait_for_device. cbv zeta. unfold bind at 1.
  rewrite (run_command_bound _ _ _ _ Hser).
  destruct (reply _ st) as [cp|]; [|reflexivity].
  unfold lift, CommandResult.assert_succeeded, CommandResult.succeeded.
  cbn [new_CommandResult completed_proc].
  destruct (returncode cp =? 0); reflexivity.
Qed.

End FactoryMode.

(** X11. [set_factory_mode] sends four commands in this order: [adb
    reboot bootloader], [fastboot oem enable-factory-mode] or
    [disable-factory-mode], [fastboot reboot], and [adb wait-for-device
    root] with a timeout of 60 seconds.  The exit statuses of the first
    three are not looked at: as soon as each of them finishes in time and
    the last one succeeds, the flag [factory_mode] is set to the requested
    mode, whatever the bootloader answered. *)
Theorem set_factory_mode_ignores_fastboot_status
        (st : State) (ser : string) (mode : bool) (cp1 cp2 cp3 cp4 : CompletedProcess) :
  let c1 := adb_call st ser ["reboot"; "bootloader"] 10 in
  let c2 := fastboot_call st ser
              ["oem"; if mode then "enable-factory-mode" else "disable-factory-mode"] 10 in
  let c3 := fastboot_call st ser ["reboot"] 10 in
  let c4 := adb_call st ser ["wait-for-device"; "root"] 60 in
  device_serial (self st) = Some ser ->
  reply c1 st = Completed cp1 ->
  reply c2 (called c1 st) = Completed cp2 ->
  reply c3 (called c2 (called c1 st)) = Completed cp3 ->
  reply c4 (called c3 (called c2 (called c1 st))) = Completed cp4 ->
  returncode cp4 = 0 ->
  set_factory_mode mode st
  = (Ok tt, updated (with_factory_mode mode)
              (called c4 (called c3 (called c2 (called c1 st)))))
  /\ issued (set_factory_mode mode) st = [c1; c2; c3; c4].
Proof.
  intros c1 c2 c3 c4 Hser H1 H2 H3 H4 Hcode.
  assert (E : set_factory_mode mode st
              = (Ok tt, updated (with_factory_mode mode)
                          (called c4 (called c3 (called c2 (called c1 st)))))).
  { unfold set_factory_mode, reboot_to_fastboot.
    unfold bind at 1. unfold bind at 1.
    rewrite (run_command_bound _ _ _ _ Hser). fold c1. rewrite H1.
    unfold ret at 1. unfold bind at 1.
    rewrite (run_fastboot_command_bound _ _ (called c1 st) ser Hser).
    change (fastboot_call (called c1 st) ser
              ["oem"; if mode then "enable-factory-mode" else "disable-factory-mode"] 10)
      with c2.
    rewrite H2. unfold bind at 1.
    rewrite (run_fastboot_command_bound _ _ (called c2 (called c1 st)) ser Hser).
    change (fastboot_call (called c2 (called c1 st)) ser ["reboot"] 10) with c3.
    rewrite H3. unfold bind at 1.
    rewrite (wait_for_device_bound true (called c3 (called c2 (called c1 st))) ser Hser).
    cbv zeta.
    change (adb_call (called c3 (called c2 (called c1 st))) ser
              (["wait-for-device"] ++ ["root"])%list 60) with c4.
    rewrite H4, Hcode. reflexivity. }
  split; [exact E|]. apply issued_calls. rewrite E. cbn.
  rewrite <- !app_assoc. reflexivity.
Qed.

(** X11 on a bootloader that answers the command with the exit status
    1. *)
Lemma set_factory_mode_ignores_fastboot_status_witness :
  let st := bound_to refusing_bootloader in
  fst (set_factory_mode true st) = Ok tt
  /\ factory_mode (self (snd (set_factory_mode true st))) = true
  /\ map argv (issued (set_factory_mode true) st)
     = [["adb"; "-s"; "ABC123"; "reboot"; "bootloader"];
        ["fastboot"; "-s"; "ABC123"; "oem"; "enable-factory-mode"];
        ["fastboot"; "-s"; "ABC123"; "reboot"];
        ["adb"; "-s"; "ABC123"; "wait-for-device"; "root"]].
Proof.
  intros st.
  destruct (set_factory_mode_ignores_fastboot_status st "ABC123" true
              {| returncode := 0; stdout := EmptyString; stderr := EmptyString |}
              {| returncode := 1; stdout := EmptyString;
                 stderr := "FAILED (remote: unknown command)" ++ nl |}
              {| returncode := 0; stdout := EmptyString; stderr := EmptyString |}
              {| returncode := 0; stdout := EmptyString; stderr := EmptyString |}
              eq_refl eq_refl eq_refl eq_refl eq_refl eq_refl) as [H1 H2].
  split; [now rewrite H1|]. split; [now rewrite H1|]. now rewrite H2.
Defined.

(** X12. A switch of the factory mode reboots the device twice and
    refreshes none of the cached flags: [root], [remounted] and
    [vendor_mcs_enabled], the device name and the resolved identity are
    after [set_factory_mode] what they were before it, whether it returns
    or raises.  [assert_factory_mode] on a privileged session with the
    flag [factory_mode] set returns at once, without a call. *)
Theorem set_factory_mode_keeps_caches :
  (forall mode st,
     let st' := snd (set_factory_mode mode st) in
     root (self st') = root (self st)
     /\ remounted (self st') = remounted (self st)
     /\ vendor_mcs_enabled (self st') = vendor_mcs_enabled (self st)
     /\ device_name (self st') = device_name (self st)
     /\ board_type (self st') = board_type (self st))
  /\ (forall st,
        root (self st) = true ->
        factory_mode (self st) = true ->
        assert_factory_mode st = (Ok tt, st)).
Proof.
  split.
  - intros mode st st'.
    assert (H : forall {A} (attr : Session -> A),
               (forall v s, attr (with_factory_mode v s) = attr s) ->
               keeps attr (set_factory_mode mode)).
    { intros A attr Hattr.
      unfold set_factory_mode, reboot_to_fastboot, wait_for_device, run_command,
        run_fastboot_command, with_serial, run_cli_command.
      cbv zeta.
      repeat first [ keeps_step
                   | match goal with
                     | |- keeps _ the_FASTBOOT_PATH => intros ?; reflexivity
                     | |- keeps _ (assign _) => apply keeps_assign; intros; apply Hattr
                     end ]. }
    unfold st'. repeat split; apply H; reflexivity.
  - intros st Hroot Hmode. unfold assert_factory_mode.
    rewrite (bind_ok _ _ _ _ _ (assert_root_cached st Hroot)).
    unfold bind, get. rewrite Hmode. reflexivity.
Qed.

(** X12 on a privileged session in factory mode. *)
Lemma set_factory_mode_keeps_caches_witness :
  let st := updated (with_factory_mode true) (updated (with_root true) (bound_to [])) in
  assert_factory_mode st = (Ok tt, st).
Proof.
  intros st. exact (proj2 set_factory_mode_keeps_caches st eq_refl eq_refl).
Defined.

(** ** SELinux mode *)

Section Selinux.

Lemma assert_string_bound (cmd : list string) (st : State) (ser : string) :
  device_serial (self st) = Some ser ->
  assert_string cmd st
  = let c := adb_call st ser ("shell" :: cmd) 10 in
    (match reply c st with
     | Completed cp => CommandResult.assert_string (new_CommandResult (argv c) cp)
     | Expired => raise TimeoutExpired (join " " (argv c))
     end, called c st).
Proof.
  intros Hser. unfold assert_string, run_shell_command. unfold bind at 1.
  rewrite (run_command_bound _ _ _ _ Hser). cbv zeta.
  destruct (reply _ st); reflexivity.
Qed.

Lemma is_selinux_enforcing_bound
      (st : State) (ser : string) (cp : CompletedProcess) (mode : string) :
  device_serial (self st) = Some ser ->
  let c := adb_call st ser ["shell"; "getenforce"] 10 in
  reply c st = Completed cp ->
  CommandResult.assert_string (new_CommandResult (argv c) cp) = Ok mode ->
  is_selinux_enforcing st = (Ok (String.eqb mode "Enforcing"), called c st).
Proof.
  intros Hser c Hreply Hmode. unfold is_selinux_enforcing. unfold bind.
  rewrite (assert_string_bound _ _ _ Hser). cbv zeta. fold c.
  rewrite Hreply, Hmode. reflexivity.
Qed.

End Selinux.

(** X13. [assert_set_selinux_enforcing] asks before it acts.  It first
    reads the mode with [getenforce]; the device is enforcing exactly
    when the single line of the answer is the word Enforcing.  When that
    is already the requested mode it returns after this one call, on a
    session without root too.  Otherwise it needs root: a privileged
    session goes on with [setenforce 1] or [setenforce 0], an
    unprivileged one with the escalation [adb root]. *)
Theorem assert_set_selinux_enforcing_asks_first
        (st : State) (ser : string) (cp : CompletedProcess) (mode : string)
        (enforcing : bool) :
  let c := adb_call st ser ["shell"; "getenforce"] 10 in
  device_serial (self st) = Some ser ->
  reply c st = Completed cp ->
  CommandResult.assert_string (new_CommandResult (argv c) cp) = Ok mode ->
  (String.eqb mode "Enforcing" = enforcing ->
   assert_set_selinux_enforcing enforcing st = (Ok tt, called c st)
   /\ issued (assert_set_selinux_enforcing enforcing) st = [c])
  /\ (String.eqb mode "Enforcing" = negb enforcing ->
      (root (self st) = true ->
       assert_set_selinux_enforcing enforcing st
       = assert_succeeded ["setenforce"; if enforcing then "1" else "0"] 10 (called c st))
      /\ (root (self st) = false ->
          exists rest,
            issued (assert_set_selinux_enforcing enforcing) st
            = c :: root_call st ser :: rest)).
Proof.
  intros c Hser Hreply Hmode.
  pose proof (is_selinux_enforcing_bound st ser cp mode Hser Hreply Hmode) as E.
  cbv zeta in E. fold c in E.
  split.
  - intros Heq.
    assert (R : assert_set_selinux_enforcing enforcing st = (Ok tt, called c st)).
    { unfold assert_set_selinux_enforcing. rewrite (bind_ok _ _ _ _ _ E).
      rewrite Heq, Bool.eqb_reflx. reflexivity. }
    split; [exact R|]. apply issued_calls. now rewrite R.
  - intros Hne.
    assert (Hb : Bool.eqb (String.eqb mode "Enforcing") enforcing = false).
    { rewrite Hne. now destruct enforcing. }
    split.
    + intros Hroot. unfold assert_set_selinux_enforcing. rewrite (bind_ok _ _ _ _ _ E).
      rewrite Hb.
      assert (Hroot' : root (self (called c st)) = true) by exact Hroot.
      now rewrite (bind_ok _ _ _ _ _ (assert_root_cached _ Hroot')).
    + intros Hroot.
      assert (Hg : grows (called (root_call st ser) (called c st))
                     (snd (assert_set_selinux_enforcing enforcing st))).
      { unfold assert_set_selinux_enforcing. rewrite (bind_ok _ _ _ _ _ E).
        rewrite Hb. apply grows_bind; [|intros; auto with py].
        exact (assert_root_calls_first (called c st) ser Hroot Hser). }
      destruct Hg as [l Hl]. exists l. apply issued_calls. rewrite Hl. cbn.
      rewrite <- !app_assoc. reflexivity.
Qed.

(** X13 on an unprivileged session and a device that is enforcing. *)
Lemma assert_set_selinux_enforcing_asks_first_witness :
  let st := bound_to enforcing_device in
  root (self st) = false
  /\ fst (assert_set_selinux_enforcing true st) = Ok tt
  /\ map argv (issued (assert_set_selinux_enforcing true) st)
     = [["adb"; "-s"; "ABC123"; "shell"; "getenforce"]].
Proof.
  intros st.
  destruct (proj1 (assert_set_selinux_enforcing_asks_first st "ABC123"
                     {| returncode := 0; stdout := "Enforcing" ++ nl;
                        stderr := EmptyString |}
                     "Enforcing" true eq_refl eq_refl eq_refl) eq_refl) as [H1 H2].
  split; [reflexivity|]. split; [now rewrite H1 | now rewrite H2].
Defined.

(** ** Which calls a method can make *)

Section Only.

Context (p : Call -> bool) (inv : Session -> Prop).

Lemma only_silent {A} (m : Py A) :
  (forall st, snd (m st) = st) -> only p inv m.
Proof.
  intros H st Hinv. exists []. rewrite H, app_nil_r. auto.
Qed.

Lemma only_ret {A} (a : A) : only p inv (ret a).
Proof. now apply only_silent. Qed.

Lemma only_lift {A} (r : Res A) : only p inv (lift r).
Proof. now apply only_silent. Qed.

Lemma only_throw {A} (cls : PyExc) (msg : string) : only p inv (@throw A cls msg).
Proof. now apply only_silent. Qed.

Lemma only_get {A} (attr : Session -> A) : only p inv (get attr).
Proof. now apply only_silent. Qed.

Lemma only_ADB_PATH : only p inv the_ADB_PATH.
Proof. now apply only_silent. Qed.

Lemma only_FASTBOOT_PATH : only p inv the_FASTBOOT_PATH.
Proof. now apply only_silent. Qed.

Lemma only_assign (f : Session -> Session) :
  (forall s, inv s -> inv (f s)) -> only p inv (assign f).
Proof.
  intros H st Hinv. exists []. cbn. rewrite app_nil_r. auto.
Qed.

Lemma only_bind {A B} (m : Py A) (f : A -> Py B) :
  only p inv m -> (forall a, only p inv (f a)) -> only p inv (bind m f).
Proof.
  intros Hm Hf st Hinv. destruct (Hm st Hinv) as (l1 & Ht1 & Hp1 & Hq1).
  unfold bind. destruct (m st) as [[a|e] st1]; cbn [fst snd] in *.
  - destruct (Hf a st1 (Hq1 a eq_refl)) as (l2 & Ht2 & Hp2 & Hq2).
    exists (l1 ++ l2)%list. rewrite Ht2, Ht1, app_assoc, forallb_app, Hp1, Hp2. auto.
  - exists l1. repeat split; auto; discriminate.
Qed.

Lemma only_try_except {A} (body : Py A) (cls : PyExc) (handler : exn -> Py A) :
  only p inv body ->
  (forall st, inv (self st) -> inv (self (snd (body st)))) ->
  (forall e, only p inv (handler e)) ->
  only p inv (try_except body cls handler).
Proof.
  intros Hb Hkeep Hh st Hinv. destruct (Hb st Hinv) as (l1 & Ht1 & Hp1 & Hq1).
  pose proof (Hkeep st Hinv) as Hk.
  unfold try_except. destruct (body st) as [[a|e] st1]; cbn [fst snd] in *.
  - exists l1. auto.
  - destruct (issubclass _ _).
    + destruct (Hh e st1 Hk) as (l2 & Ht2 & Hp2 & Hq2).
      exists (l1 ++ l2)%list. rewrite Ht2, Ht1, app_assoc, forallb_app, Hp1, Hp2. auto.
    + exists l1. repeat split; auto; discriminate.
Qed.

(** What [only] says about the calls that were issued. *)
Lemma only_issued {A} (m : Py A) (st : State) :
  only p inv m -> inv (self st) -> forallb p (issued m st) = true.
Proof.
  intros H Hinv. destruct (H st Hinv) as (l & Ht & Hp & _).
  now rewrite (issued_calls _ _ _ Ht).
Qed.

End Only.

#[local] Hint Resolve only_ret only_lift only_throw only_get only_ADB_PATH
  only_FASTBOOT_PATH : py.

Ltac only_step :=
  match goal with
  | |- only _ _ (bind _ _) => apply only_bind; [|intros]
  | |- only _ _ (assign _) =>
      apply only_assign; let Hinv := fresh in intros ? Hinv; exact Hinv
  | |- only _ _ (if ?b then _ else _) => destruct b
  | |- only _ _ (match ?x with _ => _ end) => destruct x
  | |- only _ _ _ => solve [auto with py]
  end.

Ltac only_by_definition := repeat only_step.

Section Addressed.

Variable ser : string.

Lemma addressed_run_command (cmd : list string) (t : Z) :
  only (addressed_to ser) (bound_serial ser) (run_command cmd t).
Proof.
  intros st H. rewrite (run_command_bound _ _ _ _ H).
  exists [adb_call st ser cmd t]. split; [reflexivity|]. split; [|auto].
  cbn. now rewrite String.eqb_refl.
Qed.

Lemma addressed_run_fastboot_command (cmd : list string) (t : Z) :
  only (addressed_to ser) (bound_serial ser) (run_fastboot_command cmd t).
Proof.
  intros st H. rewrite (run_fastboot_command_bound _ _ _ _ H).
  exists [fastboot_call st ser cmd t]. split; [reflexivity|]. split; [|auto].
  cbn. now rewrite String.eqb_refl.
Qed.

#[local] Hint Resolve addressed_run_command addressed_run_fastboot_command : py.

Lemma addressed_assert_string (cmd : list string) :
  only (addressed_to ser) (bound_serial ser) (assert_string cmd).
Proof. unfold assert_string, run_shell_command. only_by_definition. Qed.

Lemma addressed_assert_succeeded (cmd : list string) (t : Z) :
  only (addressed_to ser) (bound_serial ser) (assert_succeeded cmd t).
Proof. unfold assert_succeeded, run_shell_command. only_by_definition. Qed.

Lemma addressed_assert_log_shell_command (cmd : list string) :
  only (addressed_to ser) (bound_serial ser) (assert_log_shell_command cmd).
Proof. unfold assert_log_shell_command, run_shell_command. only_by_definition. Qed.

#[local] Hint Resolve addressed_assert_string addressed_assert_succeeded
  addressed_assert_log_shell_command : py.

Lemma addressed_is_factory_mode :
  only (addressed_to ser) (bound_serial ser) is_factory_mode.
Proof. unfold is_factory_mode, run_shell_command. only_by_definition. Qed.

#[local] Hint Resolve addressed_is_factory_mode : py.

Lemma addressed_assert_root :
  only (addressed_to ser) (bound_serial ser) assert_root.
Proof.
  unfold assert_root, on_root, NeoADBSession_on_root, ADBSession_on_root.
  only_by_definition.
Qed.

#[local] Hint Resolve addressed_assert_root : py.

Lemma addressed_assert_set_selinux_enforcing (enforcing : bool) :
  only (addressed_to ser) (bound_serial ser) (assert_set_selinux_enforcing enforcing).
Proof.
  unfold assert_set_selinux_enforcing, is_selinux_enforcing. only_by_definition.
Qed.

#[local] Hint Resolve addressed_assert_set_selinux_enforcing : py.

Lemma addressed_set_factory_mode (mode : bool) :
  only (addressed_to ser) (bound_serial ser) (set_factory_mode mode).
Proof.
  unfold set_factory_mode, reboot_to_fastboot, wait_for_device. cbv zeta.
  only_by_definition.
Qed.

Lemma addressed_assert_disable_vendor_MCS :
  only (addressed_to ser) (bound_serial ser) assert_disable_vendor_MCS.
Proof.
  unfold assert_disable_vendor_MCS, assert_ctl_stop, assert_set_prop.
  only_by_definition.
Qed.

Lemma addressed_assert_enable_vendor_MCS :
  only (addressed_to ser) (bound_serial ser) assert_enable_vendor_MCS.
Proof.
  unfold assert_enable_vendor_MCS, assert_ctl_start, assert_set_prop.
  only_by_definition.
Qed.

#[local] Hint Resolve addressed_set_factory_mode addressed_assert_disable_vendor_MCS
  addressed_assert_enable_vendor_MCS : py.

Lemma addressed_refresh_flags :
  only (addressed_to ser) (bound_serial ser) refresh_flags.
Proof.
  unfold refresh_flags, ADBSession_refresh_device_state, is_root, is_remounted,
    assert_log_prop, assert_get_prop, run_shell_command.
  only_by_definition.
Qed.

Lemma addressed_resolve_identity :
  only (addressed_to ser) (bound_serial ser) resolve_identity.
Proof.
  intros st H. rewrite resolve_identity_handler_unreachable. revert st H.
  change (only (addressed_to ser) (bound_serial ser) resolve_identity_body).
  unfold resolve_identity_body, assert_file_int, run_shell_command.
  only_by_definition.
Qed.

#[local] Hint Resolve addressed_refresh_flags addressed_resolve_identity : py.

Lemma addressed_refresh_device_state :
  only (addressed_to ser) (bound_serial ser) refresh_device_state.
Proof.
  unfold refresh_device_state, NeoADBSession_refresh_device_state.
  only_by_definition.
  unfold ADBSession_refresh_device_state, is_root, is_remounted,
    assert_get_prop, run_shell_command.
  only_by_definition.
Qed.

Lemma addressed_assert_log_mfg_command_str (cmd : string) :
  only (addressed_to ser) (bound_serial ser) (assert_log_mfg_command_str cmd).
Proof.
  unfold assert_log_mfg_command_str, run_mfg_command, run_shell_command.
  only_by_definition.
Qed.

End Addressed.

(** X14. A bound session talks to its own device only.  Every call that
    the listed methods make on a session bound to the serial number
    [ser] has the form [tool -s ser ...], and the session is still bound
    to [ser] when the method returns; this holds for whatever the device
    answers.  Binding itself addresses the serial number it is given. *)
Theorem bound_session_addresses_its_device (ser : string) :
  addresses ser refresh_device_state
  /\ addresses ser assert_root
  /\ addresses ser unroot
  /\ addresses ser assert_remount
  /\ (forall enforcing, addresses ser (assert_set_selinux_enforcing enforcing))
  /\ (forall mode, addresses ser (set_factory_mode mode))
  /\ addresses ser assert_factory_mode
  /\ addresses ser assert_disable_vendor_MCS
  /\ addresses ser assert_enable_vendor_MCS
  /\ (forall options t, addresses ser (assert_camcapture options t))
  /\ (forall cmd, addresses ser (assert_log_mfg_command_str cmd))
  /\ (forall name value, addresses ser (assert_set_prop name value))
  /\ (forall cmd, addresses ser (assert_log_shell_command_str cmd))
  /\ (forall filename, addresses ser (assert_log_file_string filename))
  /\ addresses ser refresh_mcu_state
  /\ (forall st, forallb (addressed_to ser) (issued (bind_serial ser) st) = true).
Proof.
  unfold addresses.
  pose proof (addressed_run_command ser). pose proof (addressed_assert_root ser).
  pose proof (addressed_set_factory_mode ser).
  pose proof (addressed_assert_succeeded ser).
  pose proof (addressed_assert_disable_vendor_MCS ser).
  repeat match goal with |- _ /\ _ => split end; intros.
  - apply addressed_refresh_device_state.
  - assumption.
  - unfold unroot. only_by_definition.
  - unfold assert_remount. only_by_definition.
  - apply addressed_assert_set_selinux_enforcing.
  - auto.
  - unfold assert_factory_mode. only_by_definition.
  - assumption.
  - apply addressed_assert_enable_vendor_MCS.
  - unfold assert_camcapture. only_by_definition.
  - apply addressed_assert_log_mfg_command_str.
  - unfold assert_set_prop. auto.
  - unfold assert_log_shell_command_str. apply addressed_assert_log_shell_command.
  - unfold assert_log_file_string, assert_file_string.
    pose proof (addressed_assert_string ser). only_by_definition.
  - unfold refresh_mcu_state.
    pose proof (addressed_assert_log_shell_command ser). only_by_definition.
  - unfold bind_serial.
    rewrite (issued_calls _ st (issued refresh_device_state
                                  (updated (with_device_serial (Some ser)) st))).
    + apply (only_issued _ (bound_serial ser)); [|reflexivity].
      apply addressed_refresh_device_state.
    + unfold bind, assign. fold (updated (with_device_serial (Some ser)) st).
      destruct (addressed_refresh_device_state ser
                  (updated (with_device_serial (Some ser)) st) eq_refl)
        as (l & Hl & _).
      rewrite (issued_calls _ _ _ Hl). exact Hl.
Qed.

(** X14 on a privileged session and a device that is enforcing: the
    three calls of [assert_enable_vendor_MCS] carry the serial number. *)
Lemma bound_session_addresses_its_device_witness :
  let st := updated (with_root true) (bound_to enforcing_device) in
  List.length (issued assert_enable_vendor_MCS st) = 3%nat
  /\ forallb (addressed_to "ABC123") (issued assert_enable_vendor_MCS st) = true.
Proof.
  intros st. split; [reflexivity|].
  apply (only_issued _ (bound_serial "ABC123")); [|reflexivity].
  destruct (bound_session_addresses_its_device "ABC123")
    as (_ & _ & _ & _ & _ & _ & _ & _ & H & _).
  exact H.
Defined.

(** ** Camera captures *)

Section Captures.

Lemma only_assert_camcapture (options : list string) (t : Z) :
  only is_camcapture_call services_off (assert_camcapture options t).
Proof.
  intros st Hoff. unfold assert_camcapture.
  rewrite (bind_ok _ _ _ _ _ (assert_disable_vendor_MCS_cached st Hoff)).
  destruct (device_serial (self st)) as [ser|] eqn:Hser.
  - rewrite (assert_succeeded_bound _ _ _ _ Hser).
    eexists. split; [reflexivity|]. split; [reflexivity|]. intros _ _. exact Hoff.
  - unfold assert_succeeded, run_shell_command. unfold bind.
    match goal with |- context [run_command ?c ?t' st] =>
      destruct (run_command_unbound c t' st Hser) as [msg ->] end.
    exists []. rewrite app_nil_r. cbn. repeat split; auto.
Qed.

Lemma only_assert_disable_vendor_MCS :
  only is_camcapture_call services_off assert_disable_vendor_MCS.
Proof.
  intros st Hoff. rewrite (assert_disable_vendor_MCS_cached st Hoff).
  exists []. rewrite app_nil_r. cbn. auto.
Qed.

Lemma only_getNeoADBSession :
  only is_camcapture_call services_off sanity_checks.getNeoADBSession.
Proof.
  unfold sanity_checks.getNeoADBSession. apply only_assign. intros s H. exact H.
Qed.

End Captures.

Ltac captures_only :=
  repeat first [ apply only_getNeoADBSession
               | apply only_assert_disable_vendor_MCS
               | apply only_assert_camcapture
               | apply only_bind; [|intros] ].

(** X15. Once the vendor camera services are marked as disabled, a
    capture is a single command: [assert_camcapture] sends [camcapture -c
    0] with its options and nothing before it.  Each of the four camera
    tests then sends only capture commands, neither an escalation nor a
    change of the SELinux mode nor a service control, and leaves the
    services marked as disabled when it returns: no test turns them on
    again. *)
Theorem camera_tests_send_only_captures :
  (forall options t st,
     services_off (self st) ->
     assert_camcapture options t st
     = assert_succeeded (["camcapture"; "-c"; "0"] ++ options)%list t st)
  /\ only is_camcapture_call services_off sanity_checks.test_snapshot_jpeg
  /\ only is_camcapture_call services_off sanity_checks.test_snapshot_raw
  /\ only is_camcapture_call services_off sanity_checks.test_video
  /\ only is_camcapture_call services_off sanity_checks.test_snapshot_heic.
Proof.
  split; [|split; [|split; [|split]]].
  - intros options t st Hoff. unfold assert_camcapture.
    now rewrite (bind_ok _ _ _ _ _ (assert_disable_vendor_MCS_cached st Hoff)).
  - unfold sanity_checks.test_snapshot_jpeg. captures_only.
  - unfold sanity_checks.test_snapshot_raw. captures_only.
  - unfold sanity_checks.test_video. captures_only.
  - unfold sanity_checks.test_snapshot_heic. captures_only.
Qed.

(** X15 on a device that accepts every command: the video test makes
    five calls, each with the timeout of its capture. *)
Lemma camera_tests_send_only_captures_witness :
  forallb is_camcapture_call (issued sanity_checks.test_video capture_ready) = true
  /\ map timeout_sec (issued sanity_checks.test_video capture_ready) = [20; 80; 20; 25; 30]
  /\ fst (sanity_checks.test_video capture_ready) = Ok tt.
Proof.
  split; [|split; reflexivity].
  apply (only_issued _ services_off); [|reflexivity].
  exact (proj1 (proj2 (proj2 (proj2 camera_tests_send_only_captures)))).
Defined.

(** ** The flag of the vendor services *)

Section VendorFlag.

Context {A : Type} (attr : Session -> A) (v : A).

Lemma sets_bind {B C} (m : Py B) (f : B -> Py C) :
  keeps attr m -> (forall b, sets attr v (f b)) -> sets attr v (bind m f).
Proof.
  intros Hm Hf st. unfold bind. pose proof (Hm st) as Hk.
  destruct (m st) as [[b|e] st1]; cbn [snd] in Hk; [|exact Hk].
  pose proof (Hf b st1) as H. destruct (f b st1) as [[c|e] st2]; [exact H|].
  now rewrite H.
Qed.

Lemma sets_assign (f : Session -> Session) :
  (forall s, attr (f s) = v) -> sets attr v (assign f).
Proof. intros H st. apply H. Qed.

End VendorFlag.

Section VendorFlagKept.

Lemma keeps_run_command {A} (attr : Session -> A) (cmd : list string) (t : Z) :
  keeps attr (run_command cmd t).
Proof. unfold run_command, with_serial, run_cli_command. keeps_by_definition. Qed.

Lemma keeps_assert_root_flag : keeps vendor_mcs_enabled assert_root.
Proof.
  unfold assert_root, on_root, NeoADBSession_on_root, ADBSession_on_root,
    is_factory_mode, run_shell_command.
  repeat first [apply keeps_run_command | keeps_step].
Qed.

Lemma keeps_assert_succeeded_flag (cmd : list string) (t : Z) :
  keeps vendor_mcs_enabled (assert_succeeded cmd t).
Proof.
  unfold assert_succeeded, run_shell_command.
  repeat first [apply keeps_run_command | keeps_step].
Qed.

Lemma keeps_assert_set_selinux_enforcing_flag (enforcing : bool) :
  keeps vendor_mcs_enabled (assert_set_selinux_enforcing enforcing).
Proof.
  unfold assert_set_selinux_enforcing, is_selinux_enforcing, assert_string,
    run_shell_command.
  repeat first [apply keeps_run_command | apply keeps_assert_root_flag
               | apply keeps_assert_succeeded_flag | keeps_step].
Qed.

Lemma sets_assert_enable_vendor_MCS :
  sets vendor_mcs_enabled true assert_enable_vendor_MCS.
Proof.
  unfold assert_enable_vendor_MCS, assert_ctl_start, assert_set_prop.
  repeat first [ apply sets_assign; reflexivity
               | apply sets_bind; [|intros]
               | apply keeps_assert_root_flag
               | apply keeps_assert_set_selinux_enforcing_flag
               | apply keeps_assert_succeeded_flag ].
Qed.

Lemma sets_assert_disable_vendor_MCS (st : State) :
  match assert_disable_vendor_MCS st with
  | (Ok _, st') => vendor_mcs_enabled (self st') = false
  | (Raise _, st') => vendor_mcs_enabled (self st') = vendor_mcs_enabled (self st)
  end.
Proof.
  destruct (vendor_mcs_enabled (self st)) eqn:H.
  - unfold assert_disable_vendor_MCS. unfold bind at 1. unfold get. rewrite H.
    cbn [negb].
    assert (S : sets vendor_mcs_enabled false
                  (bind assert_root (fun _ =>
                   bind (assert_set_selinux_enforcing true) (fun _ =>
                   bind (assert_ctl_stop "captureengineservice") (fun _ =>
                   bind (assert_ctl_stop "vendor.camera-provider-2-7") (fun _ =>
                   assign (with_vendor_mcs_enabled false))))))).
    { unfold assert_ctl_stop, assert_set_prop.
      repeat first [ apply sets_assign; reflexivity
                   | apply sets_bind; [|intros]
                   | apply keeps_assert_root_flag
                   | apply keeps_assert_set_selinux_enforcing_flag
                   | apply keeps_assert_succeeded_flag ]. }
    specialize (S st). rewrite H in S. exact S.
  - now rewrite (assert_disable_vendor_MCS_cached st H).
Qed.

End VendorFlagKept.

(** X16. The flag [vendor_mcs_enabled] follows the outcome of the two
    methods that change it.  When [assert_disable_vendor_MCS] returns the
    flag is unset, when [assert_enable_vendor_MCS] returns it is set, and
    when either of them raises, at whatever step, the flag is what it was
    before the call.  A capture that returns leaves the flag unset. *)
Theorem vendor_flag_follows_outcome :
  (forall st,
     match assert_disable_vendor_MCS st with
     | (Ok _, st') => vendor_mcs_enabled (self st') = false
     | (Raise _, st') => vendor_mcs_enabled (self st') = vendor_mcs_enabled (self st)
     end)
  /\ sets vendor_mcs_enabled true assert_enable_vendor_MCS
  /\ (forall options t st st',
        assert_camcapture options t st = (Ok tt, st') ->
        vendor_mcs_enabled (self st') = false).
Proof.
  split; [exact sets_assert_disable_vendor_MCS|].
  split; [exact sets_assert_enable_vendor_MCS|].
  intros options t st st'. unfold assert_camcapture, bind.
  pose proof (sets_assert_disable_vendor_MCS st) as H.
  destruct (assert_disable_vendor_MCS st) as [[[]|e] st1]; [|discriminate].
  pose proof (keeps_assert_succeeded_flag
                (["camcapture"; "-c"; "0"] ++ options)%list t st1) as Hk.
  intros E. rewrite E in Hk. cbn [snd] in Hk. congruence.
Qed.

(** X16 on a privileged session whose services are still marked as
    enabled. *)
Lemma vendor_flag_follows_outcome_witness :
  let st := updated (with_root true) (bound_to capture_device) in
  vendor_mcs_enabled (self st) = true
  /\ vendor_mcs_enabled (self (snd (assert_camcapture ["-m"] 20 st))) = false.
Proof.
  intros st. split; [reflexivity|].
  exact (proj2 (proj2 vendor_flag_follows_outcome) ["-m"] 20 st _ eq_refl).
Defined.

(** ** Binding a session of the base class *)

Section BaseRefresh.

Lemma assert_int_needs_success (r : CommandResult) (n : Z) :
  CommandResult.assert_int r = Ok n -> CommandResult.assert_succeeded r = Ok tt.
Proof.
  rewrite assert_int_spec, assert_string_spec.
  unfold CommandResult.assert_succeeded.
  destruct (CommandResult.succeeded r); [reflexivity|]. discriminate.
Qed.

Lemma is_root_bound (st : State) (ser : string) (cp : CompletedProcess) (uid : Z) :
  device_serial (self st) = Some ser ->
  let c := adb_call st ser ["shell"; "id"; "-u"] 10 in
  reply c st = Completed cp ->
  CommandResult.assert_int (new_CommandResult (argv c) cp) = Ok uid ->
  is_root st = (Ok (uid =? 0), called c st).
Proof.
  intros Hser c Hreply Hint. unfold is_root, run_shell_command. unfold bind at 1.
  rewrite (run_command_bound _ _ _ _ Hser). fold c. rewrite Hreply.
  unfold bind, lift. rewrite (assert_int_needs_success _ _ Hint), Hint. reflexivity.
Qed.

Lemma contains_overlay (r : CommandResult) :
  CommandResult.contains r "overlay on /system type overlay"
  = Ok (found_in "overlay on /system type overlay" (stdout_of r)).
Proof.
  apply (contains_compiled r _ (compiled_pattern "overlay on /system type overlay")).
  vm_compute; reflexivity.
Qed.

Lemma is_remounted_bound (st : State) (ser : string) (cp : CompletedProcess) :
  device_serial (self st) = Some ser ->
  let c := adb_call st ser ["shell"; "mount"] 10 in
  reply c st = Completed cp ->
  returncode cp = 0 ->
  is_remounted st
  = (Ok (found_in "overlay on /system type overlay" (stdout cp)), called c st).
Proof.
  intros Hser c Hreply Hcode. unfold is_remounted, run_shell_command. unfold bind at 1.
  rewrite (run_command_bound _ _ _ _ Hser). fold c. rewrite Hreply.
  unfold bind, lift, CommandResult.assert_succeeded, CommandResult.succeeded.
  cbn [new_CommandResult completed_proc]. rewrite Hcode. cbn [Z.eqb negb].
  rewrite contains_overlay. reflexivity.
Qed.

End BaseRefresh.

(** X17. Binding a session of the base class reads three things from
    the device, in this order and each once: the user id, the mount table
    and the product name.  When the three commands give usable answers
    the call returns, and the object then holds the serial number, [root]
    set exactly when the user id is 0, [remounted] set exactly when the
    mount table shows an overlay on [/system], and the trimmed product
    name, whatever these attributes held before. *)
Theorem bind_serial_reads_the_device
        (st : State) (ser : string) (cp1 cp2 cp3 : CompletedProcess)
        (uid : Z) (name : string) :
  let c1 := adb_call st ser ["shell"; "id"; "-u"] 10 in
  let c2 := adb_call st ser ["shell"; "mount"] 10 in
  let c3 := adb_call st ser ["shell"; "getprop"; "ro.product.device"] 10 in
  class_of (self st) = ADBSession ->
  reply c1 st = Completed cp1 ->
  CommandResult.assert_int (new_CommandResult (argv c1) cp1) = Ok uid ->
  reply c2 (called c1 st) = Completed cp2 ->
  returncode cp2 = 0 ->
  reply c3 (called c2 (called c1 st)) = Completed cp3 ->
  CommandResult.assert_string (new_CommandResult (argv c3) cp3) = Ok name ->
  fst (bind_serial ser st) = Ok tt
  /\ issued (bind_serial ser) st = [c1; c2; c3]
  /\ self (snd (bind_serial ser st))
     = with_device_name (Some name)
         (with_remounted (found_in "overlay on /system type overlay" (stdout cp2))
            (with_root (uid =? 0) (with_device_serial (Some ser) (self st)))).
Proof.
  intros c1 c2 c3 Hcls H1 Hint H2 Hcode H3 Hname.
  set (st0 := updated (with_device_serial (Some ser)) st).
  set (st1 := updated (with_root (uid =? 0)) (called c1 st0)).
  set (st2 := updated (with_remounted
                         (found_in "overlay on /system type overlay" (stdout cp2)))
                (called c2 st1)).
  assert (E : bind_serial ser st
              = (Ok tt, updated (with_device_name (Some name)) (called c3 st2))).
  { unfold bind_serial. unfold bind at 1. unfold assign at 1.
    fold (updated (with_device_serial (Some ser)) st). fold st0.
    unfold refresh_device_state. unfold bind at 1. unfold get at 1.
    change (class_of (self st0)) with (class_of (self st)). rewrite Hcls.
    unfold ADBSession_refresh_device_state.
    rewrite (bind_ok _ _ _ _ _ (is_root_bound st0 ser cp1 uid eq_refl H1 Hint)).
    unfold bind at 1. unfold assign at 1.
    change {| self := with_root (uid =? 0) (self (called c1 st0));
              world := world (called c1 st0) |} with st1.
    rewrite (bind_ok _ _ _ _ _ (is_remounted_bound st1 ser cp2 eq_refl H2 Hcode)).
    unfold bind at 1. unfold assign at 1.
    change {| self := with_remounted
                        (found_in "overlay on /system type overlay" (stdout cp2))
                        (self (called c2 st1));
              world := world (called c2 st1) |} with st2.
    unfold assert_get_prop. unfold bind at 1.
    rewrite (assert_string_bound _ st2 ser eq_refl). cbv zeta.
    change (adb_call st2 ser ["shell"; "getprop"; "ro.product.device"] 10) with c3.
    change (reply c3 st2) with (reply c3 (called c2 (called c1 st))).
    rewrite H3, Hname. reflexivity. }
  rewrite E. split; [reflexivity|]. split; [|reflexivity].
  apply issued_calls. rewrite E. cbn. rewrite <- !app_assoc. reflexivity.
Qed.

(** X17 on a device with root and without an overlay, for an object
    whose flag [remounted] was set before. *)
Lemma bind_serial_reads_the_device_witness :
  let st := updated (with_remounted true) (fresh_on ADBSession rooted_plain) in
  fst (bind_serial "ABC123" st) = Ok tt
  /\ (root (self (snd (bind_serial "ABC123" st))),
      remounted (self (snd (bind_serial "ABC123" st))),
      device_name (self (snd (bind_serial "ABC123" st))))
     = (true, false, Some "hammerhead").
Proof.
  intros st.
  destruct (bind_serial_reads_the_device st "ABC123"
              {| returncode := 0; stdout := " 0" ++ nl; stderr := EmptyString |}
              {| returncode := 0; stdout := "/dev/block/dm-0 on / type ext4 (ro)" ++ nl;
                 stderr := EmptyString |}
              {| returncode := 0; stdout := "hammerhead" ++ nl; stderr := EmptyString |}
              0 "hammerhead" eq_refl eq_refl eq_refl eq_refl eq_refl eq_refl eq_refl)
    as (H1 & _ & H3).
  split; [exact H1|]. now rewrite H3.
Defined.
